(** * WhatsApp voice integration: call-control markup, registry and
      address utilities

    A shallow embedding of the TypeScript sources
    - [lib/twiml-templates.ts]  (TwiMLTemplates, TwiMLBuilder, DialBuilder,
      GatherBuilder),
    - the WhatsApp voice wrapper (WhatsAppVoice, ConferenceSession,
      WhatsAppVoiceUtils),
    - the Express server example (the [activeConferences] registry and its
      webhook routes),
    followed by the properties established about them.

    Conventions.  A string is a sequence of 8-bit characters.  Numeric
    options are integers.  A method that mutates [this] or the device is a
    function from the state before to its completion and the state after;
    [await] is plain sequencing, one request at a time; what is written to
    the console is left out.  The Device and Call objects of the voice SDK
    are imported by the sources and enter as an interface. *)

From Stdlib Require Import Ascii String List Bool Arith ZArith Lia.
From stdpp Require Import base list strings gmap pretty.

(* ===================================================================== *)
(** ** JavaScript preliminaries *)
(* ===================================================================== *)

Module Js.

(** Values that can be thrown. [ErrorMsg m] is [new Error(m)];
    [SyntaxError m] is raised when a source text is not a well-formed
    expression; [Rejected m] is an opaque rejection coming from the
    telephony SDK; [NotModelled w] marks a construct outside the fragment
    of the language covered here. *)
Inductive Error :=
| ErrorMsg (message : string)
| SyntaxError (message : string)
| Rejected (reason : string)
| NotModelled (what : string).

(** Outcome of running a statement list: normal completion or a throw. *)
Inductive Completion (A : Type) :=
| Return (a : A)
| Throw (e : Error).
Arguments Return {A} a.
Arguments Throw {A} e.

Definition isReturn {A} (c : Completion A) : bool :=
  match c with Return _ => true | Throw _ => false end.

(** Characters used below that cannot be typed inside a string literal. *)
Definition dq : string := String "034"%char EmptyString.
Definition nl : string := String "010"%char EmptyString.

(** If [p] is a prefix of [s], what follows it. *)
Fixpoint dropPrefix (p s : string) : option string :=
  match p with
  | EmptyString => Some s
  | String a p' =>
      match s with
      | EmptyString => None
      | String b s' => if Ascii.eqb a b then dropPrefix p' s' else None
      end
  end.

(** [s.startsWith(p)]. *)
Definition startsWith (s p : string) : bool :=
  match dropPrefix p s with Some _ => true | None => false end.

(** [s.replace(/^p/, '')] for a literal pattern [p] anchored at the start. *)
Definition replaceLeading (p s : string) : string :=
  match dropPrefix p s with
  | Some rest => rest
  | None => s
  end.

(** [s.replace(p, '')] for a string pattern [p]: only the first
    occurrence, anywhere in [s], is removed. *)
Fixpoint replaceFirst (p s : string) : string :=
  match dropPrefix p s with
  | Some rest => rest
  | None =>
      match s with
      | EmptyString => EmptyString
      | String c s' => String c (replaceFirst p s')
      end
  end.

(** [parts.join(sep)]. *)
Fixpoint join (sep : string) (parts : list string) : string :=
  match parts with
  | [] => EmptyString
  | [x] => x
  | x :: rest => x +:+ sep +:+ join sep rest
  end.

(** Truthiness of a string: only the empty string is falsy. *)
Definition truthyStr (s : string) : bool :=
  match s with EmptyString => false | _ => true end.

(** [o || d] for an optional string property [o]. *)
Definition orDefault (o : option string) (d : string) : string :=
  match o with
  | Some s => if truthyStr s then s else d
  | None => d
  end.

(** Number of characters of [s] that satisfy [p]. *)
Fixpoint countWhere (p : ascii -> bool) (s : string) : nat :=
  match s with
  | EmptyString => 0
  | String a s' => (if p a then 1 else 0) + countWhere p s'
  end.

(** Number of occurrences of the character [c] in [s]. *)
Definition countChar (c : ascii) (s : string) : nat :=
  countWhere (Ascii.eqb c) s.

(** The characters that are markup in an XML document. *)
Definition isMarkupOperator (c : ascii) : bool :=
  Ascii.eqb c "<" || Ascii.eqb c ">" || Ascii.eqb c "&"
  || Ascii.eqb c "034" || Ascii.eqb c "'".

Definition markupOperators (s : string) : nat :=
  countWhere isMarkupOperator s.

(** Number of (possibly overlapping) occurrences of [p] in [s]. *)
Fixpoint countOccurrences (p s : string) : nat :=
  (if startsWith s p then 1 else 0) +
  match s with
  | EmptyString => 0
  | String _ s' => countOccurrences p s'
  end.

End Js.

(* ===================================================================== *)
(** ** Regular expressions (the fragment used by the validation regex) *)
(* ===================================================================== *)

Module Regex.

Inductive regex :=
| Never
| Eps
| Class (p : ascii -> bool)
| Seq (r1 r2 : regex)
| Alt (r1 r2 : regex).

Fixpoint nullable (r : regex) : bool :=
  match r with
  | Never => false
  | Eps => true
  | Class _ => false
  | Seq r1 r2 => nullable r1 && nullable r2
  | Alt r1 r2 => nullable r1 || nullable r2
  end.

Fixpoint deriv (c : ascii) (r : regex) : regex :=
  match r with
  | Never => Never
  | Eps => Never
  | Class p => if p c then Eps else Never
  | Seq r1 r2 =>
      if nullable r1 then Alt (Seq (deriv c r1) r2) (deriv c r2)
      else Seq (deriv c r1) r2
  | Alt r1 r2 => Alt (deriv c r1) (deriv c r2)
  end.

(** [/^r$/.test(s)]: the whole of [s] has to match [r]. *)
Fixpoint test (r : regex) (s : string) : bool :=
  match s with
  | EmptyString => nullable r
  | String c s' => test (deriv c r) s'
  end.

(** A literal character, a literal string, a character range. *)
Definition chr (a : ascii) : regex := Class (Ascii.eqb a).

Fixpoint lit (s : string) : regex :=
  match s with
  | EmptyString => Eps
  | String a s' => Seq (chr a) (lit s')
  end.

Definition inRange (lo hi c : ascii) : bool :=
  (nat_of_ascii lo <=? nat_of_ascii c) && (nat_of_ascii c <=? nat_of_ascii hi).

Definition range (lo hi : ascii) : regex := Class (inRange lo hi).

(** [\d] (without the unicode flag): the ten ASCII digits. *)
Definition isDigit : ascii -> bool := inRange "0"%char "9"%char.
Definition digit : regex := Class isDigit.

(** [r{n}] and [r{0,n}], from which [r{lo,hi}] is assembled. *)
Fixpoint exactly (n : nat) (r : regex) : regex :=
  match n with
  | 0 => Eps
  | S n' => Seq r (exactly n' r)
  end.

Fixpoint upTo (n : nat) (r : regex) : regex :=
  match n with
  | 0 => Eps
  | S n' => Alt Eps (Seq r (upTo n' r))
  end.

Definition quant (lo hi : nat) (r : regex) : regex :=
  Seq (exactly lo r) (upTo (hi - lo) r).

(** Declarative meaning of a regex, against which [test] is checked. *)
Inductive Matches : regex -> string -> Prop :=
| MEps : Matches Eps EmptyString
| MClass p c : p c = true -> Matches (Class p) (String c EmptyString)
| MSeq r1 r2 s1 s2 :
    Matches r1 s1 -> Matches r2 s2 -> Matches (Seq r1 r2) (s1 +:+ s2)
| MAltL r1 r2 s : Matches r1 s -> Matches (Alt r1 r2) s
| MAltR r1 r2 s : Matches r2 s -> Matches (Alt r1 r2) s.

(** All characters of a string satisfy [p]. *)
Fixpoint allChars (p : ascii -> bool) (s : string) : bool :=
  match s with
  | EmptyString => true
  | String c s' => p c && allChars p s'
  end.

End Regex.

(* ===================================================================== *)
(** ** WhatsAppVoiceUtils *)
(* ===================================================================== *)

Module WhatsAppVoiceUtils.
Import Js.

(** The channel prefix. *)
Definition channelPrefix : string := "whatsapp:".

(** [formatWhatsAppNumber]:
    remove an existing leading [whatsapp:], make sure the number starts
    with [+], put the prefix back. *)
Definition formatWhatsAppNumber (phoneNumber : string) : string :=
  let cleanNumber := replaceLeading channelPrefix phoneNumber in
  let formattedNumber :=
    if startsWith cleanNumber "+" then cleanNumber else "+" +:+ cleanNumber in
  channelPrefix +:+ formattedNumber.

(** The pattern [/^whatsapp:\+[1-9]\d{1,14}$/]. *)
Definition whatsappRegex : Regex.regex :=
  Regex.Seq (Regex.lit "whatsapp:")
    (Regex.Seq (Regex.chr "+"%char)
       (Regex.Seq (Regex.range "1"%char "9"%char)
          (Regex.quant 1 14 Regex.digit))).

(** [isValidWhatsAppNumber]. *)
Definition isValidWhatsAppNumber (number : string) : bool :=
  Regex.test whatsappRegex number.

(** [extractPhoneNumber]. *)
Definition extractPhoneNumber (whatsappNumber : string) : string :=
  replaceLeading channelPrefix whatsappNumber.

(** The canonical form in the words of the specification: the channel
    prefix, then [+], then 2 to 15 digits. *)
Definition canonicalShape (candidate : string) : bool :=
  match dropPrefix "whatsapp:+" candidate with
  | Some ds =>
      (2 <=? String.length ds) && (String.length ds <=? 15)
      && Regex.allChars Regex.isDigit ds
  | None => false
  end.

(** The first digit after the [+] is not [0]. *)
Definition leadingDigitNonZero (candidate : string) : bool :=
  match dropPrefix "whatsapp:+" candidate with
  | Some (String d _) => negb (Ascii.eqb d "0")
  | _ => false
  end.

End WhatsAppVoiceUtils.

(* ===================================================================== *)
(** ** Template literals taken as source text *)
(* ===================================================================== *)

(** A template literal whose substitutions are not well-formed expressions
    denotes no function at all, so the templates that have to be checked
    for this are kept as their source characters and run through a scanner
    that follows the lexical grammar of template literals: template
    characters up to [${], then expression tokens up to the closing [}].
    The expression fragment covers what these templates use:
    [params.f], [params.f ? 'a' : 'b'] and [params.f || 'a']. *)

Module TemplateText.
Import Js.

Inductive JsValue :=
| VUndefined
| VBool (b : bool)
| VString (s : string).

Definition truthy (v : JsValue) : bool :=
  match v with
  | VUndefined => false
  | VBool b => b
  | VString s => truthyStr s
  end.

(** String conversion applied to a substitution's value. *)
Definition toString (v : JsValue) : string :=
  match v with
  | VUndefined => "undefined"
  | VBool true => "true"
  | VBool false => "false"
  | VString s => s
  end.

Inductive Token :=
| TIdent (name : string)
| TDot
| TQuestion
| TColon
| TOrOr
| TStr (s : string).

Inductive Part :=
| PText (s : string)
| PSubst (toks : list Token).

(** Where the scanner is. *)
Inductive Mode :=
| InText (buf : string)
| AfterDollar (buf : string)
| InExpr (toks : list Token)
| InIdent (toks : list Token) (acc : string)
| InString (toks : list Token) (acc : string)
| AfterPipe (toks : list Token).

Definition snoc (s : string) (c : ascii) : string := s +:+ String c EmptyString.

Definition isLineTerminator (c : ascii) : bool :=
  Ascii.eqb c "010" || Ascii.eqb c "013".

Definition isSpace (c : ascii) : bool :=
  Ascii.eqb c " " || Ascii.eqb c "009" || isLineTerminator c.

Definition isIdentStart (c : ascii) : bool :=
  Regex.inRange "a" "z" c || Regex.inRange "A" "Z" c
  || Ascii.eqb c "_" || Ascii.eqb c "$".

Definition isIdentPart (c : ascii) : bool :=
  isIdentStart c || Regex.isDigit c.

(** One template character. *)
Definition textChar (buf : string) (c : ascii) : Completion Mode :=
  if Ascii.eqb c "$" then Return (AfterDollar buf)
  else if Ascii.eqb c "`" || Ascii.eqb c "\" then
    Throw (NotModelled "escape or nested template")
  else Return (InText (snoc buf c)).

(** One character at the start of an expression token. *)
Definition exprChar (parts : list Part) (toks : list Token) (c : ascii)
  : Completion (list Part * Mode) :=
  if isSpace c then Return (parts, InExpr toks)
  else if isIdentStart c then Return (parts, InIdent toks (String c EmptyString))
  else if Ascii.eqb c "'" then Return (parts, InString toks EmptyString)
  else if Ascii.eqb c "." then Return (parts, InExpr (toks ++ [TDot]))
  else if Ascii.eqb c "?" then Return (parts, InExpr (toks ++ [TQuestion]))
  else if Ascii.eqb c ":" then Return (parts, InExpr (toks ++ [TColon]))
  else if Ascii.eqb c "|" then Return (parts, AfterPipe toks)
  else if Ascii.eqb c "}" then
    Return (parts ++ [PSubst toks], InText EmptyString)
  else Throw (NotModelled "expression token").

Definition scanStep (parts : list Part) (m : Mode) (c : ascii)
  : Completion (list Part * Mode) :=
  match m with
  | InText buf =>
      match textChar buf c with
      | Return m' => Return (parts, m')
      | Throw e => Throw e
      end
  | AfterDollar buf =>
      if Ascii.eqb c "{" then Return (parts ++ [PText buf], InExpr [])
      else
        match textChar (snoc buf "$") c with
        | Return m' => Return (parts, m')
        | Throw e => Throw e
        end
  | InExpr toks => exprChar parts toks c
  | InIdent toks acc =>
      if isIdentPart c then Return (parts, InIdent toks (snoc acc c))
      else exprChar parts (toks ++ [TIdent acc]) c
  | InString toks acc =>
      (* a string literal has to close before the line ends *)
      if isLineTerminator c then
        Throw (SyntaxError "Unterminated string literal")
      else if Ascii.eqb c "'" then Return (parts, InExpr (toks ++ [TStr acc]))
      else if Ascii.eqb c "\" then Throw (NotModelled "escape in string literal")
      else Return (parts, InString toks (snoc acc c))
  | AfterPipe toks =>
      if Ascii.eqb c "|" then Return (parts, InExpr (toks ++ [TOrOr]))
      else Throw (NotModelled "expression token")
  end.

Fixpoint scanFrom (parts : list Part) (m : Mode) (src : string)
  : Completion (list Part) :=
  match src with
  | EmptyString =>
      match m with
      | InText buf => Return (parts ++ [PText buf])
      | AfterDollar buf => Return (parts ++ [PText (snoc buf "$")])
      | _ => Throw (SyntaxError "Unterminated template literal")
      end
  | String c rest =>
      match scanStep parts m c with
      | Return (parts', m') => scanFrom parts' m' rest
      | Throw e => Throw e
      end
  end.

(** The characters between the two backticks, split into parts. *)
Definition scan (src : string) : Completion (list Part) :=
  scanFrom [] (InText EmptyString) src.

(** Value of a substitution, [params] being the object [obj]. *)
Definition evalSubst (obj : string -> JsValue) (toks : list Token)
  : Completion string :=
  match toks with
  | [TIdent o; TDot; TIdent f] =>
      if String.eqb o "params" then Return (toString (obj f))
      else Throw (NotModelled "expression")
  | [TIdent o; TDot; TIdent f; TQuestion; TStr a; TColon; TStr b] =>
      if String.eqb o "params" then Return (if truthy (obj f) then a else b)
      else Throw (NotModelled "expression")
  | [TIdent o; TDot; TIdent f; TOrOr; TStr d] =>
      if String.eqb o "params"
      then Return (if truthy (obj f) then toString (obj f) else d)
      else Throw (NotModelled "expression")
  | _ => Throw (NotModelled "expression")
  end.

Fixpoint evalParts (obj : string -> JsValue) (parts : list Part)
  : Completion string :=
  match parts with
  | [] => Return EmptyString
  | PText s :: rest =>
      match evalParts obj rest with
      | Return out => Return (s +:+ out)
      | Throw e => Throw e
      end
  | PSubst toks :: rest =>
      match evalSubst obj toks with
      | Return v =>
          match evalParts obj rest with
          | Return out => Return (v +:+ out)
          | Throw e => Throw e
          end
      | Throw e => Throw e
      end
  end.

(** A source text that does not scan is rejected before anything runs. *)
Definition evalTemplate (src : string) (obj : string -> JsValue)
  : Completion string :=
  match scan src with
  | Return parts => evalParts obj parts
  | Throw e => Throw e
  end.

End TemplateText.

(* ===================================================================== *)
(** ** TwiMLTemplates *)
(* ===================================================================== *)

Module TwiMLTemplates.
Import Js.

(** An attribute value between double quotes. *)
Definition q (s : string) : string := dq +:+ s +:+ dq.

Definition xmlDecl : string :=
  "<?xml version=" +:+ q "1.0" +:+ " encoding=" +:+ q "UTF-8" +:+ "?>".

Definition boolAttr (b : option bool) : string :=
  match b with Some true => "true" | _ => "false" end.

(** [Object.entries(o || {})] of an optional string-to-string object, the
    object being given by its entries in enumeration order. *)
Definition entriesOf (o : option (list (string * string)))
  : list (string * string) :=
  match o with Some l => l | None => [] end.

Record IncomingCallParams := {
  callerId : string;
  clientIdentity : option string;
  customParams : option (list (string * string))
}.

Definition parameterElement (kv : string * string) : string :=
  "<Parameter name=" +:+ q (fst kv) +:+ " value=" +:+ q (snd kv) +:+ " />".

(** [incomingCall]. *)
Definition incomingCall (params : IncomingCallParams) : string :=
  xmlDecl +:+ nl +:+
  "<Response>" +:+ nl +:+
  "  <Say voice=" +:+ q "Polly.Joanna" +:+
    ">Welcome to WhatsApp Business Calling</Say>" +:+ nl +:+
  "  <Dial callerId=" +:+ q (callerId params) +:+ ">" +:+ nl +:+
  "    <Client>" +:+ nl +:+
  "      <Identity>" +:+ orDefault (clientIdentity params) "default-client"
    +:+ "</Identity>" +:+ nl +:+
  "      " +:+ join (nl +:+ "      ")
                 (map parameterElement (entriesOf (customParams params)))
    +:+ nl +:+
  "    </Client>" +:+ nl +:+
  "  </Dial>" +:+ nl +:+
  "</Response>".

(** The same request with every text field emptied. *)
Definition withoutText (params : IncomingCallParams) : IncomingCallParams :=
  {| callerId := "";
     clientIdentity := None;
     customParams :=
       Some (map (fun _ => ("", "")) (entriesOf (customParams params))) |}.

(** Markup operator characters carried by the text fields of a request. *)
Definition textOperators (params : IncomingCallParams) : nat :=
  markupOperators (callerId params)
  + markupOperators (orDefault (clientIdentity params) "default-client")
  + list_sum (map (fun kv => markupOperators (fst kv)
                             + markupOperators (snd kv))
                  (entriesOf (customParams params))).

(** Occurrences of the character [c] in the text fields of a request. *)
Definition textChars (c : ascii) (params : IncomingCallParams) : nat :=
  countChar c (callerId params)
  + countChar c (orDefault (clientIdentity params) "default-client")
  + list_sum (map (fun kv => countChar c (fst kv) + countChar c (snd kv))
                  (entriesOf (customParams params))).

Record CreateConferenceParams := {
  cc_conferenceName : string;
  cc_moderator : option bool;
  cc_muted : option bool;
  cc_waitUrl : option string
}.

Definition optBool (b : option bool) : TemplateText.JsValue :=
  match b with
  | Some b => TemplateText.VBool b
  | None => TemplateText.VUndefined
  end.

Definition optString (s : option string) : TemplateText.JsValue :=
  match s with
  | Some s => TemplateText.VString s
  | None => TemplateText.VUndefined
  end.

(** The [params] object of [createConference], by property name. *)
Definition createConferenceObj (params : CreateConferenceParams)
  (field : string) : TemplateText.JsValue :=
  if String.eqb field "conferenceName" then
    TemplateText.VString (cc_conferenceName params)
  else if String.eqb field "moderator" then optBool (cc_moderator params)
  else if String.eqb field "muted" then optBool (cc_muted params)
  else if String.eqb field "waitUrl" then optString (cc_waitUrl params)
  else TemplateText.VUndefined.

(** The characters of the [createConference] template, line by line as
    they stand in the source. *)
Definition createConference_lines : list string :=
  [
    "<?xml version=" +:+ q "1.0" +:+ " encoding=" +:+ q "UTF-8" +:+ "?>";
    "<Response>";
    "  <Say voice=" +:+ q "Polly.Joanna" +:+ ">Joining conference room</Say>";
    "  <Dial>";
    "    <Conference ";
    "      startConferenceOnEnter=" +:+
      dq +:+ "${params.moderator ? 'true' : 'false}" +:+ dq;
    "      endConferenceOnExit=" +:+
      dq +:+ "${params.moderator ? 'true' : 'false'}" +:+ dq;
    "      muted=" +:+ dq +:+ "${params.muted ? 'true' : 'false'}" +:+ dq;
    "      waitUrl=" +:+ dq +:+ "${params.waitUrl || ''}" +:+ dq;
    "      statusCallback=" +:+ q "/conference-events";
    "      statusCallbackEvent=" +:+ q "start end join leave mute hold";
    "      statusCallbackMethod=" +:+ q "POST";
    "    >";
    "      ${params.conferenceName}";
    "    </Conference>";
    "  </Dial>";
    "</Response>"
  ].

Definition createConference_src : string := join nl createConference_lines.

(** [createConference]. *)
Definition createConference (params : CreateConferenceParams)
  : Completion string :=
  TemplateText.evalTemplate createConference_src (createConferenceObj params).

Record JoinConferenceParams := {
  jc_conferenceName : string;
  jc_muted : option bool
}.

(** [joinConference]. *)
Definition joinConference (params : JoinConferenceParams) : string :=
  xmlDecl +:+ nl +:+
  "<Response>" +:+ nl +:+
  "  <Say voice=" +:+ q "Polly.Joanna" +:+ ">Connecting to conference</Say>"
    +:+ nl +:+
  "  <Dial>" +:+ nl +:+
  "    <Conference " +:+ nl +:+
  "      muted=" +:+ q (boolAttr (jc_muted params)) +:+ nl +:+
  "      statusCallback=" +:+ q "/conference-events" +:+ nl +:+
  "      statusCallbackEvent=" +:+ q "join leave mute hold" +:+ nl +:+
  "      statusCallbackMethod=" +:+ q "POST" +:+ nl +:+
  "    >" +:+ nl +:+
  "      " +:+ jc_conferenceName params +:+ nl +:+
  "    </Conference>" +:+ nl +:+
  "  </Dial>" +:+ nl +:+
  "</Response>".

(** The same template as source characters, to run the scanner on a
    well-formed sibling of [createConference]. *)
Definition joinConference_lines : list string :=
  [
    "<?xml version=" +:+ q "1.0" +:+ " encoding=" +:+ q "UTF-8" +:+ "?>";
    "<Response>";
    "  <Say voice=" +:+ q "Polly.Joanna" +:+ ">Connecting to conference</Say>";
    "  <Dial>";
    "    <Conference ";
    "      muted=" +:+ dq +:+ "${params.muted ? 'true' : 'false'}" +:+ dq;
    "      statusCallback=" +:+ q "/conference-events";
    "      statusCallbackEvent=" +:+ q "join leave mute hold";
    "      statusCallbackMethod=" +:+ q "POST";
    "    >";
    "      ${params.conferenceName}";
    "    </Conference>";
    "  </Dial>";
    "</Response>"
  ].

Definition joinConference_src : string := join nl joinConference_lines.

Definition joinConferenceObj (params : JoinConferenceParams)
  (field : string) : TemplateText.JsValue :=
  if String.eqb field "conferenceName" then
    TemplateText.VString (jc_conferenceName params)
  else if String.eqb field "muted" then optBool (jc_muted params)
  else TemplateText.VUndefined.

End TwiMLTemplates.

(* ===================================================================== *)
(** ** TwiMLBuilder, DialBuilder, GatherBuilder *)
(* ===================================================================== *)

(** The three builder classes share one array, [this.twiml]: a
    [DialBuilder] or [GatherBuilder] is constructed on the array of the
    [TwiMLBuilder] it comes from and pushes onto it.  The array is the
    state threaded through every method below.  Numeric options are taken
    to be integers. *)

Module Attrs.
Import Js.

Definition numToString (n : Z) : string := pretty n.

Definition truthyNum (n : Z) : bool := negb (n =? 0)%Z.

(** [Number.isSafeInteger(n)]: the integers that a number holds exactly;
    for these [numToString] is the numeral that JavaScript prints. *)
Definition isSafeInteger (n : Z) : bool :=
  (- (2 ^ 53 - 1) <=? n)%Z && (n <=? 2 ^ 53 - 1)%Z.

(** [if (options?.f) attrs.push(`name="${options.f}"`)], by type of [f]. *)
Definition strAttr (name : string) (v : option string) : list string :=
  match v with
  | Some s => if truthyStr s then [name +:+ "=" +:+ TwiMLTemplates.q s] else []
  | None => []
  end.

Definition numAttr (name : string) (v : option Z) : list string :=
  match v with
  | Some n =>
      if truthyNum n then [name +:+ "=" +:+ TwiMLTemplates.q (numToString n)]
      else []
  | None => []
  end.

Definition boolAttr (name : string) (v : option bool) : list string :=
  match v with
  | Some true => [name +:+ "=" +:+ TwiMLTemplates.q "true"]
  | _ => []
  end.

(** [if (options?.f !== undefined) attrs.push(`name="${options.f}"`)]. *)
Definition definedBoolAttr (name : string) (v : option bool) : list string :=
  match v with
  | Some b => [name +:+ "=" +:+ TwiMLTemplates.q (if b then "true" else "false")]
  | None => []
  end.

(** [attrs.length ? ' ' + attrs.join(' ') : '']. *)
Definition attrString (attrs : list string) : string :=
  match attrs with
  | [] => EmptyString
  | _ => " " +:+ join " " attrs
  end.

End Attrs.

Module DialBuilder.
Import Js Attrs.

Record Options := {
  callerId : option string;
  timeout : option Z;
  action : option string;
  method : option string
}.

Record ConferenceOptions := {
  startConferenceOnEnter : option bool;
  endConferenceOnExit : option bool;
  muted : option bool;
  waitUrl : option string
}.

Definition startDial (options : option Options) (twiml : list string)
  : list string :=
  let attrs :=
    strAttr "callerId" (options ≫= callerId)
    ++ numAttr "timeout" (options ≫= timeout)
    ++ strAttr "action" (options ≫= action)
    ++ strAttr "method" (options ≫= method) in
  twiml ++ ["  <Dial" +:+ attrString attrs +:+ ">"].

Definition endDial (twiml : list string) : list string :=
  twiml ++ ["  </Dial>"].

Definition whatsapp (options : option Options) (number : string)
  (twiml : list string) : list string :=
  let twiml := startDial options twiml in
  let twiml :=
    twiml ++ ["    <WhatsApp>" +:+ replaceFirst "whatsapp:" number
              +:+ "</WhatsApp>"] in
  endDial twiml.

Definition parameterLine (kv : string * string) : string :=
  "      <Parameter name=" +:+ TwiMLTemplates.q (fst kv)
  +:+ " value=" +:+ TwiMLTemplates.q (snd kv) +:+ " />".

Definition client (options : option Options) (identity : string)
  (parameters : option (list (string * string))) (twiml : list string)
  : list string :=
  let twiml := startDial options twiml in
  let twiml := twiml ++ ["    <Client>"] in
  let twiml := twiml ++ ["      <Identity>" +:+ identity +:+ "</Identity>"] in
  let twiml :=
    match parameters with
    | Some entries => twiml ++ map parameterLine entries
    | None => twiml
    end in
  let twiml := twiml ++ ["    </Client>"] in
  endDial twiml.

Definition conference (options : option Options) (name : string)
  (copts : option ConferenceOptions) (twiml : list string) : list string :=
  let twiml := startDial options twiml in
  let attrs :=
    definedBoolAttr "startConferenceOnEnter" (copts ≫= startConferenceOnEnter)
    ++ definedBoolAttr "endConferenceOnExit" (copts ≫= endConferenceOnExit)
    ++ definedBoolAttr "muted" (copts ≫= muted)
    ++ strAttr "waitUrl" (copts ≫= waitUrl) in
  let twiml :=
    twiml ++ ["    <Conference" +:+ attrString attrs +:+ ">" +:+ name
              +:+ "</Conference>"] in
  endDial twiml.

End DialBuilder.

Module GatherBuilder.
Import Js Attrs.

Record Options := {
  input : option string;
  timeout : option Z;
  numDigits : option Z;
  action : option string;
  method : option string
}.

Definition startGather (options : option Options) (twiml : list string)
  : list string :=
  let attrs :=
    strAttr "input" (options ≫= input)
    ++ numAttr "timeout" (options ≫= timeout)
    ++ numAttr "numDigits" (options ≫= numDigits)
    ++ strAttr "action" (options ≫= action)
    ++ strAttr "method" (options ≫= method) in
  twiml ++ ["  <Gather" +:+ attrString attrs +:+ ">"].

Definition endGather (twiml : list string) : list string :=
  twiml ++ ["  </Gather>"].

Definition say (options : option Options) (text : string)
  (voice : option string) (twiml : list string) : list string :=
  let twiml := startGather options twiml in
  let voiceAttr :=
    match voice with
    | Some v => if truthyStr v then " voice=" +:+ TwiMLTemplates.q v else ""
    | None => ""
    end in
  let twiml := twiml ++ ["    <Say" +:+ voiceAttr +:+ ">" +:+ text +:+ "</Say>"] in
  endGather twiml.

End GatherBuilder.

Module TwiMLBuilder.
Import Js Attrs.

Record SayOptions := {
  voice : option string;
  language : option string;
  loop : option Z
}.

Record RecordOptions := {
  maxLength : option Z;
  transcribe : option bool;
  action : option string;
  method : option string
}.

(** [new TwiMLBuilder()]. *)
Definition new : list string := [TwiMLTemplates.xmlDecl; "<Response>"].

(** The line pushed by [say]. *)
Definition sayLine (text : string) (options : option SayOptions) : string :=
  let attrs :=
    strAttr "voice" (options ≫= voice)
    ++ strAttr "language" (options ≫= language)
    ++ numAttr "loop" (options ≫= loop) in
  "  <Say" +:+ attrString attrs +:+ ">" +:+ text +:+ "</Say>".

Definition say (text : string) (options : option SayOptions)
  (twiml : list string) : list string :=
  twiml ++ [sayLine text options].

Definition record (options : option RecordOptions) (twiml : list string)
  : list string :=
  let attrs :=
    numAttr "maxLength" (options ≫= maxLength)
    ++ boolAttr "transcribe" (options ≫= transcribe)
    ++ strAttr "action" (options ≫= action)
    ++ strAttr "method" (options ≫= method) in
  twiml ++ ["  <Record" +:+ attrString attrs +:+ " />"].

Definition hangup (twiml : list string) : list string :=
  twiml ++ ["  <Hangup />"].

Definition closingTag : string := "</Response>".

(** [build()]: the returned document and the array it leaves behind. *)
Definition build (twiml : list string) : string * list string :=
  let twiml := twiml ++ [closingTag] in
  (join nl twiml, twiml).

(** One call on a builder: a method of [TwiMLBuilder], or [dial(o)] or
    [gather(o)] followed by one method of the builder they return. *)
Inductive Op :=
| Say (text : string) (options : option SayOptions)
| Record_ (options : option RecordOptions)
| Hangup
| DialWhatsapp (options : option DialBuilder.Options) (number : string)
| DialClient (options : option DialBuilder.Options) (identity : string)
    (parameters : option (list (string * string)))
| DialConference (options : option DialBuilder.Options) (name : string)
    (copts : option DialBuilder.ConferenceOptions)
| GatherSay (options : option GatherBuilder.Options) (text : string)
    (voice : option string)
| Build.

Definition applyOp (twiml : list string) (op : Op) : list string :=
  match op with
  | Say text options => say text options twiml
  | Record_ options => record options twiml
  | Hangup => hangup twiml
  | DialWhatsapp options number => DialBuilder.whatsapp options number twiml
  | DialClient options identity parameters =>
      DialBuilder.client options identity parameters twiml
  | DialConference options name copts =>
      DialBuilder.conference options name copts twiml
  | GatherSay options text voice => GatherBuilder.say options text voice twiml
  | Build => snd (build twiml)
  end.

(** The array after a sequence of calls on a fresh builder. *)
Definition run (ops : list Op) : list string := foldl applyOp new ops.

(** Number of calls to [build] in a sequence. *)
Definition isBuild (op : Op) : bool :=
  match op with Build => true | _ => false end.

Definition builds (ops : list Op) : nat := length (List.filter isBuild ops).

(** Number of elements of the array that are the closing tag. *)
Definition closingTags (twiml : list string) : nat :=
  length (List.filter (String.eqb closingTag) twiml).

End TwiMLBuilder.

(* ===================================================================== *)
(** ** The server's conference registry and its webhook routes *)
(* ===================================================================== *)

Module Server.
Import Js.

(** A value of the [activeConferences] map. [createdAt] is the reading of
    the clock at the time of the request. *)
Record Conference := {
  id : string;
  participants : list string;
  moderator : option string;
  createdAt : Z
}.

Record Body := {
  ConferenceName : string;
  Moderator : option string;
  From : string
}.

(** [Moderator === 'true']. *)
Definition isTrueString (v : option string) : bool :=
  match v with
  | Some s => String.eqb s "true"
  | None => false
  end.

(** [app.post('/voice/conference/create')]: the registry after the
    request and the response body. *)
Definition post_voice_conference_create (now : Z) (body : Body)
  (activeConferences : gmap string Conference)
  : gmap string Conference * Completion string :=
  let activeConferences :=
    <[ ConferenceName body :=
         {| id := ConferenceName body;
            participants := [];
            moderator :=
              if isTrueString (Moderator body) then Some (From body) else None;
            createdAt := now |} ]> activeConferences in
  let twiml :=
    TwiMLTemplates.createConference
      {| TwiMLTemplates.cc_conferenceName := ConferenceName body;
         TwiMLTemplates.cc_moderator := Some (isTrueString (Moderator body));
         TwiMLTemplates.cc_muted := None;
         TwiMLTemplates.cc_waitUrl :=
           Some ("/voice/conference/wait?conference=" +:+ ConferenceName body)
      |} in
  (activeConferences, twiml).

(** [conference.participants.push(From)] on the record held by the map. *)
Definition pushParticipant (conference : Conference) (address : string)
  : Conference :=
  {| id := id conference;
     participants := participants conference ++ [address];
     moderator := moderator conference;
     createdAt := createdAt conference |}.

(** [app.post('/voice/conference/join')]. *)
Definition post_voice_conference_join (body : Body)
  (activeConferences : gmap string Conference)
  : gmap string Conference * string :=
  let activeConferences :=
    match activeConferences !! ConferenceName body with
    | Some conference =>
        if bool_decide (From body ∈ participants conference)
        then activeConferences
        else <[ ConferenceName body := pushParticipant conference (From body) ]>
               activeConferences
    | None => activeConferences
    end in
  let twiml :=
    TwiMLTemplates.joinConference
      {| TwiMLTemplates.jc_conferenceName := ConferenceName body;
         TwiMLTemplates.jc_muted := Some false |} in
  (activeConferences, twiml).

(** [app.post('/conference-events')]: only [conference-end] touches the
    registry. *)
Definition post_conference_events (StatusCallbackEvent FriendlyName : string)
  (activeConferences : gmap string Conference) : gmap string Conference :=
  if String.eqb StatusCallbackEvent "conference-end"
  then delete FriendlyName activeConferences
  else activeConferences.

(** The registry states a running server can be in. *)
Inductive reachable : gmap string Conference -> Prop :=
| reach_start : reachable ∅
| reach_create now body reg :
    reachable reg -> reachable (fst (post_voice_conference_create now body reg))
| reach_join body reg :
    reachable reg -> reachable (fst (post_voice_conference_join body reg))
| reach_event ev name reg :
    reachable reg -> reachable (post_conference_events ev name reg).

(** The invariant of the registry: no participant list holds an address
    twice. *)
Definition participantsDistinct (reg : gmap string Conference) : Prop :=
  forall name conference,
    reg !! name = Some conference -> NoDup (participants conference).

End Server.

(* ===================================================================== *)
(** ** Insertion-ordered maps *)
(* ===================================================================== *)

(** A [Map<string, V>]: entries in insertion order, one per key. *)
Module JsMap.

Fixpoint get {V} (k : string) (m : list (string * V)) : option V :=
  match m with
  | [] => None
  | (k', v) :: m' => if String.eqb k' k then Some v else get k m'
  end.

(** [m.set(k, v)]: an existing key keeps its place, a new one goes last. *)
Fixpoint set {V} (k : string) (v : V) (m : list (string * V))
  : list (string * V) :=
  match m with
  | [] => [(k, v)]
  | (k', v') :: m' =>
      if String.eqb k' k then (k', v) :: m' else (k', v') :: set k v m'
  end.

Fixpoint delete {V} (k : string) (m : list (string * V)) : list (string * V) :=
  match m with
  | [] => []
  | (k', v') :: m' =>
      if String.eqb k' k then m' else (k', v') :: delete k m'
  end.

Definition keys {V} (m : list (string * V)) : list string := map fst m.

Definition values {V} (m : list (string * V)) : list V := map snd m.

Definition size {V} (m : list (string * V)) : nat := length m.

End JsMap.

(* ===================================================================== *)
(** ** WhatsAppVoice and ConferenceSession *)
(* ===================================================================== *)

Module Voice.
Import Js.

(** A call handle of the SDK, known by [call.parameters.CallSid]. *)
Record Call := { CallSid : string }.

(** The Device and Call objects of the voice SDK, which is imported and
    not part of these sources: [D] is the state of the device together
    with the platform behind it, and every request to it goes through one
    of these operations. [callMute c None] is [c.mute()]. *)
Class DeviceSDK (D : Type) := {
  connect : list (string * string) -> D -> Completion Call * D;
  callDisconnect : Call -> D -> D;
  callMute : Call -> option bool -> D -> D
}.

Record ConferenceOptions := {
  co_conferenceId : string;
  co_participants : list string;
  co_moderator : option bool;
  co_muted : option bool;
  co_hold : option bool
}.

Record ConferenceSession := {
  conferenceId : string;
  whatsappSender : string;
  participants : list (string * Call);
  conferenceCall : option Call
}.

Definition withParticipants (s : ConferenceSession)
  (ps : list (string * Call)) : ConferenceSession :=
  {| conferenceId := conferenceId s;
     whatsappSender := whatsappSender s;
     participants := ps;
     conferenceCall := conferenceCall s |}.

Definition withConferenceCall (s : ConferenceSession) (c : Call)
  : ConferenceSession :=
  {| conferenceId := conferenceId s;
     whatsappSender := whatsappSender s;
     participants := participants s;
     conferenceCall := Some c |}.

(** [new ConferenceSession(conferenceId, device, whatsappSender)]. *)
Definition newSession (conferenceId whatsappSender : string)
  : ConferenceSession :=
  {| conferenceId := conferenceId;
     whatsappSender := whatsappSender;
     participants := [];
     conferenceCall := None |}.

Definition invalidFormat : Error :=
  ErrorMsg ("Invalid WhatsApp number format. Must start with "
            +:+ dq +:+ "whatsapp:" +:+ dq).

Section Session.
Context {D : Type} `{DeviceSDK D}.

(** The [params] of the call that [addParticipant] places. *)
Definition participantCallOptions (whatsappNumber : string)
  (s : ConferenceSession) : list (string * string) :=
  [("To", whatsappNumber);
   ("From", whatsappSender s);
   ("ConferenceName", conferenceId s);
   ("Action", "join_conference")].

(** [ConferenceSession.addParticipant]. *)
Definition addParticipant (whatsappNumber : string)
  (s : ConferenceSession) (d : D) : Completion unit * (ConferenceSession * D) :=
  if negb (startsWith whatsappNumber "whatsapp:") then
    (Throw invalidFormat, (s, d))
  else
    match connect (participantCallOptions whatsappNumber s) d with
    | (Return participantCall, d) =>
        (Return tt,
         (withParticipants s
            (JsMap.set whatsappNumber participantCall (participants s)), d))
    | (Throw error, d) => (Throw error, (s, d))
    end.

(** [ConferenceSession.removeParticipant]. *)
Definition removeParticipant (whatsappNumber : string)
  (s : ConferenceSession) (d : D) : Completion unit * (ConferenceSession * D) :=
  match JsMap.get whatsappNumber (participants s) with
  | Some call =>
      let d := callDisconnect call d in
      (Return tt,
       (withParticipants s (JsMap.delete whatsappNumber (participants s)), d))
  | None => (Return tt, (s, d))
  end.

(** [ConferenceSession.muteParticipant]. *)
Definition muteParticipant (whatsappNumber : string)
  (s : ConferenceSession) (d : D) : Completion unit * (ConferenceSession * D) :=
  match JsMap.get whatsappNumber (participants s) with
  | Some call => (Return tt, (s, callMute call None d))
  | None => (Return tt, (s, d))
  end.

(** [ConferenceSession.unmuteParticipant]. *)
Definition unmuteParticipant (whatsappNumber : string)
  (s : ConferenceSession) (d : D) : Completion unit * (ConferenceSession * D) :=
  match JsMap.get whatsappNumber (participants s) with
  | Some call => (Return tt, (s, callMute call (Some false) d))
  | None => (Return tt, (s, d))
  end.

Definition getParticipants (s : ConferenceSession) : list string :=
  JsMap.keys (participants s).

Definition getParticipantCount (s : ConferenceSession) : nat :=
  JsMap.size (participants s).

(** The loop [for (const participant of options.participants)
    await this.addParticipant(participant)]: it stops at the first throw. *)
Fixpoint addParticipants (ps : list string)
  (s : ConferenceSession) (d : D) : Completion unit * (ConferenceSession * D) :=
  match ps with
  | [] => (Return tt, (s, d))
  | participant :: rest =>
      match addParticipant participant s d with
      | (Return _, (s, d)) => addParticipants rest s d
      | (Throw error, sd) => (Throw error, sd)
      end
  end.

(** [ConferenceSession.initialize]. *)
Definition initialize (options : ConferenceOptions)
  (s : ConferenceSession) (d : D) : Completion unit * (ConferenceSession * D) :=
  let conferenceCallOptions :=
    [("ConferenceName", conferenceId s);
     ("From", whatsappSender s);
     ("Action", "create_conference");
     ("Moderator",
      match co_moderator options with Some true => "true" | _ => "false" end)]
  in
  match connect conferenceCallOptions d with
  | (Return call, d) =>
      addParticipants (co_participants options) (withConferenceCall s call) d
  | (Throw error, d) => (Throw error, (s, d))
  end.

(** [ConferenceSession.end]. *)
Definition end_ (s : ConferenceSession) (d : D) : ConferenceSession * D :=
  let d := foldl (fun d call => callDisconnect call d) d
             (JsMap.values (participants s)) in
  let s := withParticipants s [] in
  let d :=
    match conferenceCall s with
    | Some call => callDisconnect call d
    | None => d
    end in
  (s, d).

(** The sessions one can arrive at from a fresh one. *)
Inductive sessionReachable : ConferenceSession -> Prop :=
| sr_new id sender : sessionReachable (newSession id sender)
| sr_initialize options s d :
    sessionReachable s -> sessionReachable (fst (snd (initialize options s d)))
| sr_add n s d :
    sessionReachable s -> sessionReachable (fst (snd (addParticipant n s d)))
| sr_remove n s d :
    sessionReachable s -> sessionReachable (fst (snd (removeParticipant n s d)))
| sr_end s d :
    sessionReachable s -> sessionReachable (fst (end_ s d)).

End Session.

Record WhatsAppCallOptions := {
  to : string;
  from : option string;
  customParameters : option (list (string * string))
}.

(** The state of a [WhatsAppVoice] object. The sessions in
    [activeConferences] are the very objects handed out by
    [createConference]. *)
Record WhatsAppVoice (D : Type) := {
  device : D;
  config_whatsappSender : string;
  activeCalls : list (string * Call);
  activeConferences : list (string * ConferenceSession)
}.
Arguments device {D} _.
Arguments config_whatsappSender {D} _.
Arguments activeCalls {D} _.
Arguments activeConferences {D} _.

Section Wrapper.
Context {D : Type} `{DeviceSDK D}.

Definition withDevice (w : WhatsAppVoice D) (d : D) : WhatsAppVoice D :=
  {| device := d;
     config_whatsappSender := config_whatsappSender w;
     activeCalls := activeCalls w;
     activeConferences := activeConferences w |}.

Definition withCalls (w : WhatsAppVoice D) (cs : list (string * Call))
  : WhatsAppVoice D :=
  {| device := device w;
     config_whatsappSender := config_whatsappSender w;
     activeCalls := cs;
     activeConferences := activeConferences w |}.

Definition withConferences (w : WhatsAppVoice D)
  (cs : list (string * ConferenceSession)) : WhatsAppVoice D :=
  {| device := device w;
     config_whatsappSender := config_whatsappSender w;
     activeCalls := activeCalls w;
     activeConferences := cs |}.

(** [{ To: .., From: .., ...customParameters }]: a spread property
    overwrites an earlier one of the same name. *)
Definition spread (base : list (string * string))
  (extra : option (list (string * string))) : list (string * string) :=
  foldl (fun o kv => JsMap.set (fst kv) (snd kv) o) base
        (TwiMLTemplates.entriesOf extra).

(** [WhatsAppVoice.makeCall]. *)
Definition makeCall (options : WhatsAppCallOptions) (w : WhatsAppVoice D)
  : Completion Call * WhatsAppVoice D :=
  if negb (startsWith (to options) "whatsapp:") then
    (Throw invalidFormat, w)
  else
    let callOptions :=
      spread [("To", to options);
              ("From", orDefault (from options) (config_whatsappSender w))]
             (customParameters options) in
    match connect callOptions (device w) with
    | (Return call, d) =>
        (Return call,
         withCalls (withDevice w d)
           (JsMap.set (CallSid call) call (activeCalls w)))
    | (Throw error, d) => (Throw error, withDevice w d)
    end.

(** [WhatsAppVoice.createConference]. *)
Definition createConference (options : ConferenceOptions)
  (w : WhatsAppVoice D) : Completion ConferenceSession * WhatsAppVoice D :=
  let conference :=
    newSession (co_conferenceId options) (config_whatsappSender w) in
  match initialize options conference (device w) with
  | (Return _, (conference, d)) =>
      (Return conference,
       withConferences (withDevice w d)
         (JsMap.set (co_conferenceId options) conference
            (activeConferences w)))
  | (Throw error, (_, d)) => (Throw error, withDevice w d)
  end.

(** [WhatsAppVoice.joinConference]. *)
Definition joinConference (conferenceId participant : string)
  (w : WhatsAppVoice D) : Completion unit * WhatsAppVoice D :=
  match JsMap.get conferenceId (activeConferences w) with
  | None =>
      (Throw (ErrorMsg ("Conference " +:+ conferenceId +:+ " not found")), w)
  | Some conference =>
      match addParticipant participant conference (device w) with
      | (r, (conference, d)) =>
          (r, withConferences (withDevice w d)
                (JsMap.set conferenceId conference (activeConferences w)))
      end
  end.

End Wrapper.

(** A device that records every request it receives and hands out call
    ids in sequence; used to run the definitions on concrete inputs. *)
Inductive Request :=
| ReqConnect (params : list (string * string))
| ReqDisconnect (c : Call)
| ReqMute (c : Call) (shouldMute : option bool).

#[global] Instance recordingDevice : DeviceSDK (list Request) := {
  connect params log :=
    (Return {| CallSid := "CA" +:+ pretty (length log) |},
     log ++ [ReqConnect params]);
  callDisconnect c log := log ++ [ReqDisconnect c];
  callMute c b log := log ++ [ReqMute c b]
}.

(** A device behind which the platform turns every call down. *)
Definition rejectingDevice : DeviceSDK unit := {|
  connect _ d := (Throw (Rejected "busy"), d);
  callDisconnect _ d := d;
  callMute _ _ d := d
|}.

End Voice.

(* ===================================================================== *)
(** ** WhatsAppVoice: registries, events and teardown *)
(* ===================================================================== *)

Module VoiceRegistry.
Import Js Voice.

Section Registry.
Context {D : Type} `{DeviceSDK D}.

(** [device.destroy()], the one operation of the device used here that is
    not in the interface above. *)
Variable deviceDestroy : D -> D.

(** The state right after [new WhatsAppVoice(token, config)]. *)
Definition newWhatsAppVoice (d : D) (sender : string) : WhatsAppVoice D :=
  {| device := d;
     config_whatsappSender := sender;
     activeCalls := [];
     activeConferences := [] |}.

(** [WhatsAppVoice.endConference]. *)
Definition endConference (conferenceId : string) (w : WhatsAppVoice D)
  : WhatsAppVoice D :=
  match JsMap.get conferenceId (activeConferences w) with
  | Some conference =>
      let d := snd (end_ conference (device w)) in
      withConferences (withDevice w d)
        (JsMap.delete conferenceId (activeConferences w))
  | None => w
  end.

(** [WhatsAppVoice.disconnectCall]. *)
Definition disconnectCall (callSid : string) (w : WhatsAppVoice D)
  : WhatsAppVoice D :=
  match JsMap.get callSid (activeCalls w) with
  | Some call =>
      let d := callDisconnect call (device w) in
      withCalls (withDevice w d) (JsMap.delete callSid (activeCalls w))
  | None => w
  end.

(** [WhatsAppVoice.getActiveCalls] and [getActiveConferences]. *)
Definition getActiveCalls (w : WhatsAppVoice D) : list Call :=
  JsMap.values (activeCalls w).

Definition getActiveConferences (w : WhatsAppVoice D)
  : list ConferenceSession :=
  JsMap.values (activeConferences w).

(** [WhatsAppVoice.destroy]. *)
Definition destroy (w : WhatsAppVoice D) : WhatsAppVoice D :=
  let d := foldl (fun d call => callDisconnect call d) (device w)
             (JsMap.values (activeCalls w)) in
  let d := foldl (fun d conference => snd (end_ conference d)) d
             (JsMap.values (activeConferences w)) in
  let d := deviceDestroy d in
  {| device := d;
     config_whatsappSender := config_whatsappSender w;
     activeCalls := [];
     activeConferences := [] |}.

(** The listeners installed by [setupEventListeners]: the device
    announces an incoming call; that call later reports [disconnect] or
    [error]. *)
Definition onIncoming (call : Call) (w : WhatsAppVoice D) : WhatsAppVoice D :=
  withCalls w (JsMap.set (CallSid call) call (activeCalls w)).

Definition onCallDisconnect (call : Call) (w : WhatsAppVoice D)
  : WhatsAppVoice D :=
  withCalls w (JsMap.delete (CallSid call) (activeCalls w)).

Definition onCallError (call : Call) (w : WhatsAppVoice D)
  : WhatsAppVoice D :=
  withCalls w (JsMap.delete (CallSid call) (activeCalls w)).

(** The [params] that [makeCall] hands to [device.connect]. *)
Definition callOptions (options : WhatsAppCallOptions) (w : WhatsAppVoice D)
  : list (string * string) :=
  spread [("To", to options);
          ("From", orDefault (from options) (config_whatsappSender w))]
         (customParameters options).

(** What can be done to a wrapper, and the states this leads to. *)
Inductive Action :=
| AMakeCall (options : WhatsAppCallOptions)
| ACreateConference (options : ConferenceOptions)
| AJoinConference (conferenceId participant : string)
| AEndConference (conferenceId : string)
| ADisconnectCall (callSid : string)
| AIncoming (call : Call)
| ACallDisconnect (call : Call)
| ACallError (call : Call)
| ADestroy.

Definition perform (a : Action) (w : WhatsAppVoice D) : WhatsAppVoice D :=
  match a with
  | AMakeCall options => snd (makeCall options w)
  | ACreateConference options => snd (createConference options w)
  | AJoinConference conferenceId participant =>
      snd (joinConference conferenceId participant w)
  | AEndConference conferenceId => endConference conferenceId w
  | ADisconnectCall callSid => disconnectCall callSid w
  | AIncoming call => onIncoming call w
  | ACallDisconnect call => onCallDisconnect call w
  | ACallError call => onCallError call w
  | ADestroy => destroy w
  end.

Inductive wrapperReachable : WhatsAppVoice D -> Prop :=
| wr_new d sender : wrapperReachable (newWhatsAppVoice d sender)
| wr_step a w : wrapperReachable w -> wrapperReachable (perform a w).

(** Every key of the two tables is the id of what it holds, and no key
    occurs twice. *)
Definition registriesConsistent (w : WhatsAppVoice D) : Prop :=
  Forall (fun kv => fst kv = CallSid (snd kv)) (activeCalls w)
  /\ Forall (fun kv => fst kv = conferenceId (snd kv)) (activeConferences w)
  /\ NoDup (JsMap.keys (activeCalls w))
  /\ NoDup (JsMap.keys (activeConferences w)).

End Registry.

End VoiceRegistry.

(* ===================================================================== *)
(** ** TwiMLTemplates: the remaining templates *)
(* ===================================================================== *)

Module TwiMLTemplatesRest.
Import Js Attrs TwiMLTemplates.

(** [n || d] for an optional number [n]. *)
Definition numOr (n : option Z) (d : Z) : string :=
  match n with
  | Some n => if truthyNum n then numToString n else numToString d
  | None => numToString d
  end.













Record MenuOption := {
  digit : string;
  mo_action : string;
  description : string
}.

Record IvrParams := {
  menuOptions : list MenuOption;
  ivr_timeout : option Z;
  retries : option Z
}.

(** [`Press ${option.digit} for ${option.description}.`]. *)
Definition pressLine (option : MenuOption) : string :=
  "Press " +:+ digit option +:+ " for " +:+ description option +:+ ".".

(** The spoken list of choices. *)
Definition menuPrompt (options : list MenuOption) : string :=
  join " " (map pressLine options).

(** [ivrMenu]. *)
Definition ivrMenu (params : IvrParams) : string :=
  xmlDecl +:+ nl +:+
  "<Response>" +:+ nl +:+
  "  <Gather " +:+ nl +:+
  "    input=" +:+ q "dtmf" +:+ " " +:+ nl +:+
  "    timeout=" +:+ q (numOr (ivr_timeout params) 10) +:+ nl +:+
  "    numDigits=" +:+ q "1" +:+ nl +:+
  "    action=" +:+ q "/ivr-response" +:+ nl +:+
  "    method=" +:+ q "POST" +:+ nl +:+
  "  >" +:+ nl +:+
  "    <Say voice=" +:+ q "Polly.Joanna" +:+ ">" +:+ nl +:+
  "      Please select from the following options:" +:+ nl +:+
  "      " +:+ menuPrompt (menuOptions params) +:+ nl +:+
  "    </Say>" +:+ nl +:+
  "  </Gather>" +:+ nl +:+
  "  <Say voice=" +:+ q "Polly.Joanna"
    +:+ ">Sorry, I didn't receive a valid input. Goodbye.</Say>" +:+ nl +:+
  "  <Hangup />" +:+ nl +:+
  "</Response>".

End TwiMLTemplatesRest.

(* ===================================================================== *)
(** ** Well-formed documents *)
(* ===================================================================== *)

(** A checker for well-formed documents, written from the XML 1.0
    recommendation and not from the sources.  It accepts a part of the
    language, and nothing outside the language: the declaration of XML 1.0
    in UTF-8, at the very start or not at all; one root element; start
    tags, end tags and empty-element tags whose names are names; attributes
    [name="value"] with a blank before each, no name twice in one tag, and
    neither [<] nor [&] in a value; character data without [<], [&] and
    [>]; blanks only outside the root.  Comments, processing instructions,
    CDATA sections, entity references and values in single quotes are
    refused.  A character stands for the code unit of the same number;
    the control characters other than tab, line feed and carriage return
    are refused everywhere, and names are made of ASCII letters, digits and
    [_ : - .] only.

    The reader takes the document one character at a time.  It keeps the
    names of the open elements, innermost first, the name of the root once
    it has been opened, and where it is; inside a tag this includes the
    name of the tag and the names of the attributes read so far. *)

Module Xml.

Inductive Mode :=
| Start
| FirstTag
| Decl (rest : string)
| Content
| TagStart
| OpenName (name : string)
| CloseName (name : string)
| CloseSpace (name : string)
| InTag (tag : string) (attrs : list string)
| AttrName (tag : string) (attrs : list string) (name : string)
| AfterAttrName (tag : string) (attrs : list string)
| AfterEq (tag : string) (attrs : list string)
| InValue (tag : string) (attrs : list string)
| AfterValue (tag : string) (attrs : list string)
| EmptyTag (tag : string).

Record State := {
  stack : list string;
  root : option string;
  mode : Mode
}.

Definition initial : State :=
  {| stack := []; root := None; mode := Start |}.

(** [Char]: tab, line feed, carriage return, and everything from the
    blank on. *)
Definition isLegalChar (c : ascii) : bool :=
  Ascii.eqb c "009" || Ascii.eqb c "010" || Ascii.eqb c "013"
  || (32 <=? nat_of_ascii c).

(** [NameStartChar] and [NameChar], the ASCII ones. *)
Definition isNameStart (c : ascii) : bool :=
  Regex.inRange "a" "z" c || Regex.inRange "A" "Z" c
  || Ascii.eqb c "_" || Ascii.eqb c ":".

Definition isNameChar (c : ascii) : bool :=
  isNameStart c || Regex.isDigit c || Ascii.eqb c "-" || Ascii.eqb c ".".


(** [S]. *)
Definition isBlank (c : ascii) : bool :=
  Ascii.eqb c " " || Ascii.eqb c "009" || Ascii.eqb c "010"
  || Ascii.eqb c "013".

(** The declaration, after its first two characters. *)
Definition declarationTail : string :=
  "xml version=" +:+ Js.dq +:+ "1.0" +:+ Js.dq
  +:+ " encoding=" +:+ Js.dq +:+ "UTF-8" +:+ Js.dq +:+ "?>".

(** The attribute [name] has been read in this tag already. *)
Definition declared (name : string) (attrs : list string) : bool :=
  existsb (String.eqb name) attrs.

(** The element [name] opens: below the innermost open element, or as
    the root if there has been none. *)
Definition openElement (name : string) (st : State) : option State :=
  match stack st, root st with
  | [], Some _ => None
  | [], None =>
      Some {| stack := [name]; root := Some name; mode := Content |}
  | _ :: _, _ =>
      Some {| stack := name :: stack st; root := root st; mode := Content |}
  end.

(** An empty element: it opens and closes at once. *)
Definition emptyElement (name : string) (st : State) : option State :=
  match stack st, root st with
  | [], Some _ => None
  | [], None => Some {| stack := []; root := Some name; mode := Content |}
  | _ :: _, _ =>
      Some {| stack := stack st; root := root st; mode := Content |}
  end.

(** An end tag closes the innermost open element, of the same name. *)
Definition closeElement (name : string) (st : State) : option State :=
  match stack st with
  | top :: rest =>
      if String.eqb top name
      then Some {| stack := rest; root := root st; mode := Content |}
      else None
  | [] => None
  end.

Definition goto (m : Mode) (st : State) : option State :=
  Some {| stack := stack st; root := root st; mode := m |}.

(** After [<]: an end tag or the name of an element. *)
Definition tagStart (st : State) (c : ascii) : option State :=
  if Ascii.eqb c "/" then goto (CloseName EmptyString) st
  else if isNameStart c then goto (OpenName (String c EmptyString)) st
  else None.

Definition step (st : State) (c : ascii) : option State :=
  if negb (isLegalChar c) then None
  else
    match mode st with
    | Start =>
        if Ascii.eqb c "<" then goto FirstTag st
        else if isBlank c then goto Content st
        else None
    | FirstTag =>
        if Ascii.eqb c "?" then goto (Decl declarationTail) st
        else tagStart st c
    | Decl rest =>
        match rest with
        | EmptyString => None
        | String a EmptyString =>
            if Ascii.eqb c a then goto Content st else None
        | String a rest' =>
            if Ascii.eqb c a then goto (Decl rest') st else None
        end
    | Content =>
        if Ascii.eqb c "<" then goto TagStart st
        else if Ascii.eqb c "&" || Ascii.eqb c ">" then None
        else match stack st with
             | [] => if isBlank c then Some st else None
             | _ :: _ => Some st
             end
    | TagStart => tagStart st c
    | OpenName name =>
        if isNameChar c then goto (OpenName (name +:+ String c EmptyString)) st
        else if isBlank c then goto (InTag name []) st
        else if Ascii.eqb c ">" then openElement name st
        else if Ascii.eqb c "/" then goto (EmptyTag name) st
        else None
    | CloseName name =>
        match name with
        | EmptyString =>
            if isNameStart c then goto (CloseName (String c EmptyString)) st
            else None
        | String _ _ =>
            if isNameChar c
            then goto (CloseName (name +:+ String c EmptyString)) st
            else if isBlank c then goto (CloseSpace name) st
            else if Ascii.eqb c ">" then closeElement name st
            else None
        end
    | CloseSpace name =>
        if isBlank c then Some st
        else if Ascii.eqb c ">" then closeElement name st
        else None
    | InTag tag attrs =>
        if isBlank c then Some st
        else if isNameStart c
        then goto (AttrName tag attrs (String c EmptyString)) st
        else if Ascii.eqb c ">" then openElement tag st
        else if Ascii.eqb c "/" then goto (EmptyTag tag) st
        else None
    | AttrName tag attrs name =>
        if isNameChar c
        then goto (AttrName tag attrs (name +:+ String c EmptyString)) st
        else if declared name attrs then None
        else if Ascii.eqb c "=" then goto (AfterEq tag (name :: attrs)) st
        else if isBlank c then goto (AfterAttrName tag (name :: attrs)) st
        else None
    | AfterAttrName tag attrs =>
        if isBlank c then Some st
        else if Ascii.eqb c "=" then goto (AfterEq tag attrs) st
        else None
    | AfterEq tag attrs =>
        if isBlank c then Some st
        else if Ascii.eqb c "034" then goto (InValue tag attrs) st
        else None
    | InValue tag attrs =>
        if Ascii.eqb c "034" then goto (AfterValue tag attrs) st
        else if Ascii.eqb c "<" || Ascii.eqb c "&" then None
        else Some st
    | AfterValue tag attrs =>
        if isBlank c then goto (InTag tag attrs) st
        else if Ascii.eqb c ">" then openElement tag st
        else if Ascii.eqb c "/" then goto (EmptyTag tag) st
        else None
    | EmptyTag tag =>
        if Ascii.eqb c ">" then emptyElement tag st else None
    end.

Fixpoint run (doc : string) (st : State) : option State :=
  match doc with
  | EmptyString => Some st
  | String c rest =>
      match step st c with
      | Some st' => run rest st'
      | None => None
      end
  end.

(** The document is read to its end, its root has been opened and every
    element that was opened has been closed: the name of the root. *)
Definition documentElement (doc : string) : option string :=
  match run doc initial with
  | Some {| stack := []; root := r; mode := Content |} => r
  | _ => None
  end.

Definition wellFormed (doc : string) : bool :=
  match documentElement doc with Some _ => true | None => false end.











(** Between two children of the innermost of the open elements [names],
    the outermost of which is [Response]. *)
Definition within (names : list string) : State :=
  {| stack := names; root := Some "Response"; mode := Content |}.

Definition inResponse : State := within ["Response"].




End Xml.

(* ===================================================================== *)
(** ** The server's API routes *)
(* ===================================================================== *)

Module ServerApi.
Import Js.

(** The argument of [client.calls.create]. *)
Record CallRequest := {
  cr_from : option string;
  cr_to : string;
  cr_url : string;
  cr_method : string;
  cr_statusCallback : string;
  cr_statusCallbackEvent : option (list string);
  cr_statusCallbackMethod : string
}.

(** The REST client of the platform, which is imported and not part of
    these sources: [P] is the state of the platform, [callsCreate] is
    [client.calls.create] and returns the [sid] of the call or throws. *)
Class RestClient (P : Type) := {
  callsCreate : CallRequest -> P -> Completion string * P
}.

(** What a route answers: a status with an [error], or one of the two
    success bodies. *)
Inductive Response :=
| BadRequest (error : string)
| NotFound (error : string)
| ServerError (error : string)
| CallCreated (callSid message : string)
| ConferenceCreated (conferenceId moderatorCallSid : string)
    (participantCallSids : list string) (message : string).

(** The status of the answer: [res.status(...)], and [200] for
    [res.json] alone. *)
Definition status (r : Response) : Z :=
  match r with
  | BadRequest _ => 400
  | NotFound _ => 404
  | ServerError _ => 500
  | CallCreated _ _ | ConferenceCreated _ _ _ _ => 200
  end.

Section Routes.
Context {P : Type} `{RestClient P}.

(** [process.env.WHATSAPP_SENDER] and
    [`${req.protocol}://${req.get('host')}`]. *)
Variable whatsappSender : option string.
Variable origin : string.

(** [app.post('/api/call/outbound')].  A body without [to] makes
    [to.startsWith] throw, which the handler catches. *)
Definition post_api_call_outbound (to : option string) (p : P)
  : Response * P :=
  match to with
  | None => (ServerError "Failed to initiate WhatsApp call", p)
  | Some to =>
      if negb (startsWith to "whatsapp:") then
        (BadRequest ("Invalid WhatsApp number format. Must start with "
                     +:+ dq +:+ "whatsapp:" +:+ dq), p)
      else
        match callsCreate
                {| cr_from := whatsappSender;
                   cr_to := to;
                   cr_url := origin +:+ "/voice/outbound-twiml";
                   cr_method := "POST";
                   cr_statusCallback := origin +:+ "/call-status";
                   cr_statusCallbackEvent :=
                     Some ["initiated"; "ringing"; "answered"; "completed"];
                   cr_statusCallbackMethod := "POST" |} p with
        | (Return sid, p) =>
            (CallCreated sid "WhatsApp call initiated successfully", p)
        | (Throw _, p) => (ServerError "Failed to initiate WhatsApp call", p)
        end
  end.

(** The request for one leg of a conference. *)
Definition legRequest (to path : string) : CallRequest :=
  {| cr_from := whatsappSender;
     cr_to := to;
     cr_url := origin +:+ path;
     cr_method := "POST";
     cr_statusCallback := origin +:+ "/call-status";
     cr_statusCallbackEvent := None;
     cr_statusCallbackMethod := "POST" |}.

(** The loop [for (let i = 1; i < participants.length; i++)]: the sids
    collected so far, or the first throw. *)
Fixpoint createLegs (others : list string) (sids : list string) (p : P)
  : Completion (list string) * P :=
  match others with
  | [] => (Return sids, p)
  | to :: rest =>
      match callsCreate (legRequest to "/voice/conference/join") p with
      | (Return sid, p) => createLegs rest (sids ++ [sid]) p
      | (Throw e, p) => (Throw e, p)
      end
  end.

(** [app.post('/api/conference/create')]. *)
Definition post_api_conference_create (conferenceId : option string)
  (participants : option (list string)) (p : P) : Response * P :=
  match participants with
  | None =>
      (BadRequest "Conference ID and at least 2 participants required", p)
  | Some participants =>
      if negb (truthyStr (orDefault conferenceId ""))
         || (length participants <? 2) then
        (BadRequest "Conference ID and at least 2 participants required", p)
      else
        let invalidNumbers :=
          List.filter (fun num => negb (startsWith num "whatsapp:"))
                      participants in
        if 0 <? length invalidNumbers then
          (BadRequest ("Invalid WhatsApp numbers: "
                       +:+ join ", " invalidNumbers), p)
        else
          match participants with
          | [] => (ServerError "Failed to create conference", p)
          | moderator :: others =>
              match callsCreate
                      (legRequest moderator "/voice/conference/create") p with
              | (Return moderatorSid, p) =>
                  match createLegs others [] p with
                  | (Return sids, p) =>
                      (ConferenceCreated (orDefault conferenceId "")
                         moderatorSid sids
                         "Conference created successfully", p)
                  | (Throw _, p) =>
                      (ServerError "Failed to create conference", p)
                  end
              | (Throw _, p) => (ServerError "Failed to create conference", p)
              end
          end
  end.

(** [app.post('/api/conference/:conferenceId/add-participant')]. *)
Definition post_api_conference_add_participant (conferenceId : string)
  (participant : option string)
  (activeConferences : gmap string Server.Conference) (p : P)
  : Response * P :=
  match participant with
  | None => (ServerError "Failed to add participant to conference", p)
  | Some participant =>
      if negb (startsWith participant "whatsapp:") then
        (BadRequest "Invalid WhatsApp number format", p)
      else
        match activeConferences !! conferenceId with
        | None => (NotFound "Conference not found", p)
        | Some _ =>
            match callsCreate
                    (legRequest participant "/voice/conference/join") p with
            | (Return sid, p) =>
                (CallCreated sid "Participant added to conference", p)
            | (Throw _, p) =>
                (ServerError "Failed to add participant to conference", p)
            end
        end
  end.

End Routes.

(** A platform that records every request and numbers the calls; used to
    run the routes on concrete inputs. *)
#[global] Instance recordingClient : RestClient (list CallRequest) := {
  callsCreate r log := (Return ("CA" +:+ pretty (length log)), log ++ [r])
}.

End ServerApi.

(* ===================================================================== *)
(** ** WhatsAppVoiceClient *)
(* ===================================================================== *)

(** The browser client, without the page it draws on: what it keeps is
    the wrapper, the current call and the current conference. *)
Module Client.
Import Js Voice WhatsAppVoiceUtils.

Record WhatsAppVoiceClient (D : Type) := {
  whatsappVoice : WhatsAppVoice D;
  currentCall : option Call;
  currentConference : option ConferenceSession
}.
Arguments whatsappVoice {D} _.
Arguments currentCall {D} _.
Arguments currentConference {D} _.

Section ClientMethods.
Context {D : Type} `{DeviceSDK D}.

(** The options that the client's [makeCall] passes to the wrapper. *)
Definition outboundOptions (whatsappNumber : string) : WhatsAppCallOptions :=
  {| to := whatsappNumber;
     from := None;
     customParameters :=
       Some [("caller_name", "Business Assistant");
             ("call_reason", "customer_support")] |}.

(** [WhatsAppVoiceClient.makeCall]: every throw is caught. *)
Definition makeCall (phoneNumber : string) (c : WhatsAppVoiceClient D)
  : WhatsAppVoiceClient D :=
  let whatsappNumber := formatWhatsAppNumber phoneNumber in
  if negb (isValidWhatsAppNumber whatsappNumber) then c
  else
    match Voice.makeCall (outboundOptions whatsappNumber) (whatsappVoice c) with
    | (Return call, w) =>
        {| whatsappVoice := w;
           currentCall := Some call;
           currentConference := currentConference c |}
    | (Throw _, w) =>
        {| whatsappVoice := w;
           currentCall := currentCall c;
           currentConference := currentConference c |}
    end.

(** [participants.map(num => ...)], which throws at the first number that
    does not pass. *)
Fixpoint validParticipants (participants : list string)
  : option (list string) :=
  match participants with
  | [] => Some []
  | num :: rest =>
      let whatsappNum := formatWhatsAppNumber num in
      if negb (isValidWhatsAppNumber whatsappNum) then None
      else match validParticipants rest with
           | Some valid => Some (whatsappNum :: valid)
           | None => None
           end
  end.

(** The options that the client's [createConference] passes on; [now] is
    [Date.now()]. *)
Definition conferenceOptions (now : Z) (valid : list string)
  : ConferenceOptions :=
  {| co_conferenceId := "conf_" +:+ Attrs.numToString now;
     co_participants := valid;
     co_moderator := Some true;
     co_muted := Some false;
     co_hold := None |}.

(** [WhatsAppVoiceClient.createConference]: every throw is caught. *)
Definition createConference (now : Z) (participants : list string)
  (c : WhatsAppVoiceClient D) : WhatsAppVoiceClient D :=
  match validParticipants participants with
  | None => c
  | Some valid =>
      if length valid <? 2 then c
      else
        match Voice.createConference (conferenceOptions now valid)
                (whatsappVoice c) with
        | (Return conference, w) =>
            {| whatsappVoice := w;
               currentCall := currentCall c;
               currentConference := Some conference |}
        | (Throw _, w) =>
            {| whatsappVoice := w;
               currentCall := currentCall c;
               currentConference := currentConference c |}
        end
  end.

End ClientMethods.

End Client.

(* ===================================================================== *)
(** ** Proof automation *)
(* ===================================================================== *)

Ltac is_numeral n :=
  lazymatch n with
  | O => idtac
  | S ?m => is_numeral m
  end.

(** Replace the operator count of every literal piece by its value. *)
Ltac count_literals :=
  repeat match goal with
    | |- context [Js.markupOperators ?s] =>
        let n := eval vm_compute in (Js.markupOperators s) in
        is_numeral n; change (Js.markupOperators s) with n
    end.

(* ===================================================================== *)
(** * Properties *)
(* ===================================================================== *)

(** ** The definitions on concrete inputs *)

Example isValidWhatsAppNumber_accepts :
  WhatsAppVoiceUtils.isValidWhatsAppNumber "whatsapp:+15550001" = true
  /\ WhatsAppVoiceUtils.isValidWhatsAppNumber "whatsapp:+123456789012345" = true
  /\ WhatsAppVoiceUtils.isValidWhatsAppNumber "whatsapp:+12" = true.
Proof. repeat split. Qed.

Example isValidWhatsAppNumber_rejects :
  WhatsAppVoiceUtils.isValidWhatsAppNumber "whatsapp:+1" = false
  /\ WhatsAppVoiceUtils.isValidWhatsAppNumber "whatsapp:+1234567890123456" = false
  /\ WhatsAppVoiceUtils.isValidWhatsAppNumber "whatsapp:+05550001" = false
  /\ WhatsAppVoiceUtils.isValidWhatsAppNumber "+15550001" = false
  /\ WhatsAppVoiceUtils.isValidWhatsAppNumber "whatsapp:+1555000a" = false.
Proof. repeat split. Qed.

Example formatWhatsAppNumber_examples :
  WhatsAppVoiceUtils.formatWhatsAppNumber "15550001" = "whatsapp:+15550001"
  /\ WhatsAppVoiceUtils.formatWhatsAppNumber "+15550001" = "whatsapp:+15550001"
  /\ WhatsAppVoiceUtils.formatWhatsAppNumber "whatsapp:15550001"
     = "whatsapp:+15550001"
  /\ WhatsAppVoiceUtils.formatWhatsAppNumber "whatsapp:whatsapp:1"
     = "whatsapp:+whatsapp:1".
Proof. repeat split. Qed.

Example incomingCall_example :
  TwiMLTemplates.incomingCall
    {| TwiMLTemplates.callerId := "whatsapp:+15550000";
       TwiMLTemplates.clientIdentity := None;
       TwiMLTemplates.customParams := Some [("call_sid", "CA1"); ("x", "1")] |}
  = Js.join Js.nl [
      TwiMLTemplates.xmlDecl;
      "<Response>";
      "  <Say voice=" +:+ TwiMLTemplates.q "Polly.Joanna"
        +:+ ">Welcome to WhatsApp Business Calling</Say>";
      "  <Dial callerId=" +:+ TwiMLTemplates.q "whatsapp:+15550000" +:+ ">";
      "    <Client>";
      "      <Identity>default-client</Identity>";
      "      <Parameter name=" +:+ TwiMLTemplates.q "call_sid"
        +:+ " value=" +:+ TwiMLTemplates.q "CA1" +:+ " />";
      "      <Parameter name=" +:+ TwiMLTemplates.q "x"
        +:+ " value=" +:+ TwiMLTemplates.q "1" +:+ " />";
      "    </Client>";
      "  </Dial>";
      "</Response>" ].
Proof. reflexivity. Qed.

(** [b.say("hi"); b.dial().client("agent", {x: "1"}); b.build()]. *)
Example builder_example :
  fst (TwiMLBuilder.build
         (TwiMLBuilder.run
            [TwiMLBuilder.Say "hi" None;
             TwiMLBuilder.DialClient None "agent" (Some [("x", "1")])]))
  = Js.join Js.nl [
      TwiMLTemplates.xmlDecl;
      "<Response>";
      "  <Say>hi</Say>";
      "  <Dial>";
      "    <Client>";
      "      <Identity>agent</Identity>";
      "      <Parameter name=" +:+ TwiMLTemplates.q "x"
        +:+ " value=" +:+ TwiMLTemplates.q "1" +:+ " />";
      "    </Client>";
      "  </Dial>";
      "</Response>" ].
Proof. reflexivity. Qed.

Example builder_attributes_example :
  TwiMLBuilder.run
    [TwiMLBuilder.Say "hi"
       (Some {| TwiMLBuilder.voice := Some "alice";
                TwiMLBuilder.language := Some "";
                TwiMLBuilder.loop := Some 2%Z |});
     TwiMLBuilder.Record_
       (Some {| TwiMLBuilder.maxLength := Some 0%Z;
                TwiMLBuilder.transcribe := Some true;
                TwiMLBuilder.action := None;
                TwiMLBuilder.method := Some "POST" |});
     TwiMLBuilder.DialWhatsapp None "whatsapp:+15550001";
     TwiMLBuilder.Hangup]
  = [ TwiMLTemplates.xmlDecl;
      "<Response>";
      "  <Say voice=" +:+ TwiMLTemplates.q "alice"
        +:+ " loop=" +:+ TwiMLTemplates.q "2" +:+ ">hi</Say>";
      "  <Record transcribe=" +:+ TwiMLTemplates.q "true"
        +:+ " method=" +:+ TwiMLTemplates.q "POST" +:+ " />";
      "  <Dial>";
      "    <WhatsApp>+15550001</WhatsApp>";
      "  </Dial>";
      "  <Hangup />" ].
Proof. reflexivity. Qed.

(** A call placed through the recording device. *)
Example makeCall_example :
  let w := {| Voice.device := ([] : list Voice.Request);
              Voice.config_whatsappSender := "whatsapp:+15550000";
              Voice.activeCalls := [];
              Voice.activeConferences := [] |} in
  Voice.makeCall
    {| Voice.to := "whatsapp:+15550001";
       Voice.from := None;
       Voice.customParameters := Some [("From", "whatsapp:+1"); ("k", "v")] |}
    w
  = (Js.Return {| Voice.CallSid := "CA0" |},
     {| Voice.device :=
          [Voice.ReqConnect [("To", "whatsapp:+15550001");
                             ("From", "whatsapp:+1");
                             ("k", "v")]];
        Voice.config_whatsappSender := "whatsapp:+15550000";
        Voice.activeCalls := [("CA0", {| Voice.CallSid := "CA0" |})];
        Voice.activeConferences := [] |}).
Proof. reflexivity. Qed.

(** What the checker of well-formed documents accepts. *)
Example wellFormed_accepts :
  Xml.documentElement "<Foo></Foo>" = Some "Foo"
  /\ Xml.wellFormed (TwiMLTemplates.xmlDecl +:+ "<a/>") = true
  /\ Xml.wellFormed ("<a x = " +:+ TwiMLTemplates.q "1" +:+ " y="
                      +:+ TwiMLTemplates.q "'>" +:+ " >text</a >  ") = true.
Proof. repeat split; reflexivity. Qed.

(** What it refuses: a value without quotes, an attribute without a name
    or without a value, an attribute twice, two attributes without a blank
    between them, a control character, a declaration that is not at the
    start, a second root, text outside the root, an end tag of another
    name, an element that stays open. *)
Example wellFormed_refuses :
  let inResponse s := Xml.wellFormed ("<Response>" +:+ s +:+ "</Response>") in
  inResponse "<Record transcribe=true />" = false
  /\ inResponse "<a =></a>" = false
  /\ inResponse "<a x/>" = false
  /\ inResponse ("<a x=" +:+ TwiMLTemplates.q "1" +:+ " x="
                  +:+ TwiMLTemplates.q "2" +:+ "/>") = false
  /\ inResponse ("<a x=" +:+ TwiMLTemplates.q "1" +:+ "y="
                  +:+ TwiMLTemplates.q "2" +:+ "/>") = false
  /\ inResponse (String "001" "") = false
  /\ Xml.wellFormed ("<a/>" +:+ TwiMLTemplates.xmlDecl) = false
  /\ Xml.wellFormed (" " +:+ TwiMLTemplates.xmlDecl +:+ "<a/>") = false
  /\ Xml.wellFormed "<a/><b/>" = false
  /\ Xml.wellFormed "<a></a>x" = false
  /\ Xml.wellFormed "<a></b>" = false
  /\ Xml.wellFormed "<a><b></b>" = false.
Proof. repeat split; reflexivity. Qed.

(** ** Strings *)

Section StringFacts.
Import Js.

Lemma sapp_nil_l (s : string) : "" +:+ s = s.
Proof. reflexivity. Qed.

Lemma sapp_cons (c : ascii) (s t : string) :
  String c s +:+ t = String c (s +:+ t).
Proof. reflexivity. Qed.


Lemma sapp_assoc (s t u : string) : (s +:+ t) +:+ u = s +:+ (t +:+ u).
Proof.
  induction s as [|c s IH]; [reflexivity|]. by rewrite !sapp_cons, IH.
Qed.

Lemma sapp_eq_nil (s t : string) : s +:+ t = "" -> s = "" /\ t = "".
Proof. destruct s; [by rewrite sapp_nil_l|]. by rewrite sapp_cons. Qed.

Lemma slength_app (s t : string) :
  String.length (s +:+ t) = String.length s + String.length t.
Proof.
  induction s as [|c s IH]; [reflexivity|].
  rewrite sapp_cons. simpl. by rewrite IH.
Qed.

Lemma dropPrefix_app (p s : string) : dropPrefix p (p +:+ s) = Some s.
Proof.
  induction p as [|c p IH]; [reflexivity|].
  rewrite sapp_cons. simpl. by rewrite Ascii.eqb_refl.
Qed.

Lemma dropPrefix_Some (p s rest : string) :
  dropPrefix p s = Some rest -> s = p +:+ rest.
Proof.
  revert s. induction p as [|c p IH]; intros s Hd; simpl in Hd.
  - by inversion Hd.
  - destruct s as [|b s]; [discriminate|].
    destruct (Ascii.eqb_spec c b) as [->|]; [|discriminate].
    rewrite sapp_cons. f_equal. by apply IH.
Qed.

Lemma startsWith_app (p s : string) : startsWith (p +:+ s) p = true.
Proof. unfold startsWith. by rewrite dropPrefix_app. Qed.

Lemma countWhere_app (p : ascii -> bool) (s t : string) :
  countWhere p (s +:+ t) = countWhere p s + countWhere p t.
Proof.
  induction s as [|a s IH]; [reflexivity|].
  rewrite sapp_cons. simpl. rewrite IH. lia.
Qed.

End StringFacts.

(** ** Regular expressions: [test] decides [Matches] *)

Section RegexFacts.
Import Regex.

Lemma Matches_Never_inv s : Matches Never s -> False.
Proof. inversion 1. Qed.

Lemma Matches_Eps_inv s : Matches Eps s -> s = "".
Proof. by inversion 1. Qed.

Lemma Matches_Class_inv p s :
  Matches (Class p) s -> exists c, s = String c "" /\ p c = true.
Proof. inversion 1; subst. eauto. Qed.

Lemma Matches_Seq_inv r1 r2 s :
  Matches (Seq r1 r2) s ->
  exists s1 s2, s = s1 +:+ s2 /\ Matches r1 s1 /\ Matches r2 s2.
Proof. inversion 1; subst. eauto. Qed.

Lemma Matches_Alt_inv r1 r2 s :
  Matches (Alt r1 r2) s -> Matches r1 s \/ Matches r2 s.
Proof. inversion 1; subst; auto. Qed.

Lemma nullable_Matches r : nullable r = true <-> Matches r "".
Proof.
  induction r as [| |p|r1 IH1 r2 IH2|r1 IH1 r2 IH2]; simpl.
  - split; [discriminate|]. intros []%Matches_Never_inv.
  - split; [constructor|done].
  - split; [discriminate|]. intros (c & Hc & _)%Matches_Class_inv. discriminate.
  - rewrite andb_true_iff, IH1, IH2. split.
    + intros [H1 H2]. change "" with ("" +:+ ""). by constructor.
    + intros (s1 & s2 & Hs & H1 & H2)%Matches_Seq_inv.
      symmetry in Hs. apply sapp_eq_nil in Hs as [-> ->]. done.
  - rewrite orb_true_iff, IH1, IH2. split.
    + intros [H1|H2]; [by apply MAltL|by apply MAltR].
    + apply Matches_Alt_inv.
Qed.

Lemma deriv_Matches c r s : Matches (deriv c r) s <-> Matches r (String c s).
Proof.
  revert s.
  induction r as [| |p|r1 IH1 r2 IH2|r1 IH1 r2 IH2]; intros s; simpl.
  - split; intros []%Matches_Never_inv.
  - split; [intros []%Matches_Never_inv|]. intros Hm%Matches_Eps_inv. discriminate.
  - destruct (p c) eqn:Hp; split.
    + intros ->%Matches_Eps_inv. by constructor.
    + intros (c' & Hc' & _)%Matches_Class_inv. inversion Hc'; subst. constructor.
    + intros []%Matches_Never_inv.
    + intros (c' & Hc' & Hp')%Matches_Class_inv. inversion Hc'; subst. congruence.
  - assert (Hleft : forall s, Matches (Seq (deriv c r1) r2) s ->
                               Matches (Seq r1 r2) (String c s)).
    { intros s0 (s1 & s2 & -> & H1 & H2)%Matches_Seq_inv.
      apply IH1 in H1. rewrite <- sapp_cons. by constructor. }
    assert (Hback : Matches (Seq r1 r2) (String c s) ->
                    Matches (Seq (deriv c r1) r2) s \/
                    (Matches r1 "" /\ Matches (deriv c r2) s)).
    { intros (s1 & s2 & Hs & H1 & H2)%Matches_Seq_inv.
      destruct s1 as [|c1 s1].
      - rewrite sapp_nil_l in Hs. subst s2. right. split; [done|]. by apply IH2.
      - rewrite sapp_cons in Hs. inversion Hs; subst. left.
        constructor; [by apply IH1|done]. }
    destruct (nullable r1) eqn:Hn; split.
    + intros [H1|H2]%Matches_Alt_inv; [by apply Hleft|].
      apply IH2 in H2. apply nullable_Matches in Hn.
      rewrite <- (sapp_nil_l (String c s)). by constructor.
    + intros [H1|[_ H2]]%Hback; [by apply MAltL|by apply MAltR].
    + apply Hleft.
    + intros [H1|[H1 _]]%Hback; [done|].
      apply nullable_Matches in H1. congruence.
  - split.
    + intros [H1|H2]%Matches_Alt_inv; [apply MAltL, IH1|apply MAltR, IH2]; done.
    + intros [H1|H2]%Matches_Alt_inv; [apply MAltL, IH1|apply MAltR, IH2]; done.
Qed.

Lemma test_Matches r s : test r s = true <-> Matches r s.
Proof.
  revert r. induction s as [|c s IH]; intros r; simpl.
  - apply nullable_Matches.
  - rewrite IH. apply deriv_Matches.
Qed.

Lemma Matches_chr a s : Matches (chr a) s <-> s = String a "".
Proof.
  split.
  - intros (c & -> & Hc)%Matches_Class_inv.
    by apply Ascii.eqb_eq in Hc as ->.
  - intros ->. constructor. apply Ascii.eqb_refl.
Qed.

Lemma Matches_lit p s : Matches (lit p) s <-> s = p.
Proof.
  revert s. induction p as [|a p IH]; intros s; simpl.
  - split; [apply Matches_Eps_inv|intros ->; constructor].
  - split.
    + intros (s1 & s2 & -> & H1 & H2)%Matches_Seq_inv.
      apply Matches_chr in H1 as ->. apply IH in H2 as ->. reflexivity.
    + intros ->. change (String a p) with (String a "" +:+ p).
      constructor; [by apply Matches_chr|by apply IH].
Qed.

Lemma Matches_exactly p n s :
  Matches (exactly n (Class p)) s <->
  String.length s = n /\ allChars p s = true.
Proof.
  revert s. induction n as [|n IH]; intros s; simpl.
  - split.
    + by intros ->%Matches_Eps_inv.
    + intros [Hl _]. destruct s; [constructor|discriminate].
  - split.
    + intros (s1 & s2 & -> & (c & -> & Hc)%Matches_Class_inv & H2)%Matches_Seq_inv.
      apply IH in H2 as [<- Ha]. rewrite sapp_cons, sapp_nil_l. simpl.
      by rewrite Hc, Ha.
    + intros [Hl Ha]. destruct s as [|c s]; [discriminate|].
      simpl in Hl, Ha. apply andb_true_iff in Ha as [Hc Ha].
      change (String c s) with (String c "" +:+ s).
      constructor; [by constructor|]. apply IH. split; [lia|done].
Qed.

Lemma Matches_upTo p n s :
  Matches (upTo n (Class p)) s <->
  String.length s <= n /\ allChars p s = true.
Proof.
  revert s. induction n as [|n IH]; intros s; simpl.
  - split.
    + intros ->%Matches_Eps_inv. by split.
    + intros [Hl _]. destruct s; [constructor|simpl in Hl; lia].
  - split.
    + intros [->%Matches_Eps_inv|H2]%Matches_Alt_inv; [simpl; split; [lia|done]|].
      apply Matches_Seq_inv in H2
        as (s1 & s2 & -> & (c & -> & Hc)%Matches_Class_inv & H2).
      apply IH in H2 as [Hl Ha]. rewrite sapp_cons, sapp_nil_l. simpl.
      rewrite Hc, Ha. split; [lia|done].
    + intros [Hl Ha]. destruct s as [|c s]; [apply MAltL; constructor|].
      simpl in Hl, Ha. apply andb_true_iff in Ha as [Hc Ha].
      apply MAltR. change (String c s) with (String c "" +:+ s).
      constructor; [by constructor|]. apply IH. split; [lia|done].
Qed.

Lemma allChars_app p s t :
  allChars p (s +:+ t) = allChars p s && allChars p t.
Proof.
  induction s as [|c s IH]; [reflexivity|].
  rewrite sapp_cons. simpl. by rewrite IH, andb_assoc.
Qed.

(** Splitting off the first [n] characters. *)
Lemma split_at (n : nat) (s : string) :
  n <= String.length s ->
  exists s1 s2, s = s1 +:+ s2 /\ String.length s1 = n.
Proof.
  revert s. induction n as [|n IH]; intros s Hl.
  - by exists "", s.
  - destruct s as [|c s]; [simpl in Hl; lia|]. simpl in Hl.
    destruct (IH s) as (s1 & s2 & -> & Hl1); [lia|].
    exists (String c s1), s2. split; [reflexivity|]. simpl. by rewrite Hl1.
Qed.

Lemma Matches_quant p lo hi s :
  lo <= hi ->
  Matches (quant lo hi (Class p)) s <->
  (lo <= String.length s <= hi) /\ allChars p s = true.
Proof.
  intros Hlh. unfold quant. split.
  - intros (s1 & s2 & -> & H1 & H2)%Matches_Seq_inv.
    apply Matches_exactly in H1 as [Hl1 Ha1].
    apply Matches_upTo in H2 as [Hl2 Ha2].
    rewrite slength_app, allChars_app, Ha1, Ha2. split; [lia|done].
  - intros [Hl Ha].
    destruct (split_at lo s) as (s1 & s2 & -> & Hl1); [lia|].
    rewrite allChars_app in Ha. apply andb_true_iff in Ha as [Ha1 Ha2].
    rewrite slength_app in Hl.
    constructor; [by apply Matches_exactly|].
    apply Matches_upTo. split; [lia|done].
Qed.

End RegexFacts.

(** ** WhatsAppVoiceUtils *)

Section UtilsFacts.
Import Js Regex WhatsAppVoiceUtils.

Lemma inRange_1_9 (d : ascii) :
  inRange "1" "9" d = isDigit d && negb (Ascii.eqb d "0").
Proof. destruct d as [[] [] [] [] [] [] [] []]; reflexivity. Qed.

(** What the validation regex accepts, character by character. *)
Lemma isValidWhatsAppNumber_iff (number : string) :
  isValidWhatsAppNumber number = true <->
  exists d ds,
    number = "whatsapp:+" +:+ String d ds
    /\ inRange "1" "9" d = true
    /\ (1 <= String.length ds <= 14)
    /\ allChars isDigit ds = true.
Proof.
  unfold isValidWhatsAppNumber, whatsappRegex. rewrite test_Matches. split.
  - intros (s1 & t1 & -> & H1 & H)%Matches_Seq_inv.
    apply Matches_Seq_inv in H as (s2 & t2 & -> & H2 & H).
    apply Matches_Seq_inv in H as (s3 & t3 & -> & H3 & H).
    apply Matches_lit in H1 as ->. apply Matches_chr in H2 as ->.
    apply Matches_Class_inv in H3 as (d & -> & Hd).
    apply Matches_quant in H as [Hl Ha]; [|lia].
    exists d, t3. by repeat split; try lia.
  - intros (d & ds & -> & Hd & Hl & Ha).
    change ("whatsapp:+" +:+ String d ds)
      with ("whatsapp:" +:+ (String "+" "" +:+ (String d "" +:+ ds))).
    constructor; [by apply Matches_lit|].
    constructor; [by apply Matches_chr|].
    constructor; [by constructor|].
    apply Matches_quant; [lia|done].
Qed.

Lemma isValidWhatsAppNumber_shape (candidate : string) :
  isValidWhatsAppNumber candidate
  = canonicalShape candidate && leadingDigitNonZero candidate.
Proof.
  apply eq_true_iff_eq. rewrite isValidWhatsAppNumber_iff, andb_true_iff.
  unfold canonicalShape, leadingDigitNonZero. split.
  - intros (d & ds & -> & Hd & Hl & Ha).
    rewrite dropPrefix_app. rewrite inRange_1_9 in Hd.
    apply andb_true_iff in Hd as [Hd Hz].
    change (String.length (String d ds)) with (S (String.length ds)).
    change (allChars isDigit (String d ds))
      with (isDigit d && allChars isDigit ds).
    rewrite Hd, Ha, Hz. split; [|done]. rewrite !andb_true_r.
    apply andb_true_iff. split; apply Nat.leb_le; lia.
  - destruct (dropPrefix "whatsapp:+" candidate) as [[|d ds]|] eqn:Hp;
      [intros [_ ?]; discriminate| |intros [? _]; discriminate].
    apply dropPrefix_Some in Hp as ->.
    change (String.length (String d ds)) with (S (String.length ds)).
    change (allChars isDigit (String d ds))
      with (isDigit d && allChars isDigit ds).
    rewrite !andb_true_iff. intros [[[H2 H15] [Hd Ha]] Hz].
    apply Nat.leb_le in H2, H15.
    exists d, ds. rewrite inRange_1_9, Hd, Hz. repeat split; try done; lia.
Qed.

Lemma formatWhatsAppNumber_prefixed (rest : string) :
  startsWith rest "+" = true ->
  formatWhatsAppNumber ("whatsapp:" +:+ rest) = "whatsapp:" +:+ rest.
Proof.
  intros Hs. unfold formatWhatsAppNumber, replaceLeading, channelPrefix.
  rewrite dropPrefix_app. by rewrite Hs.
Qed.

Lemma canonicalShape_prefixed (a : string) :
  canonicalShape a = true -> exists ds, a = "whatsapp:" +:+ ("+" +:+ ds).
Proof.
  unfold canonicalShape.
  destruct (dropPrefix "whatsapp:+" a) as [ds|] eqn:Hp; [|discriminate].
  intros _. exists ds. by apply dropPrefix_Some in Hp.
Qed.

End UtilsFacts.

(** C5, as stated, does not hold: a candidate of the canonical shape whose
    first digit is [0] is rejected by [isValidWhatsAppNumber]. *)
Lemma isValidWhatsAppNumber_not_every_canonical_shape :
  ~ (forall candidate : string,
       WhatsAppVoiceUtils.isValidWhatsAppNumber candidate = true
       <-> WhatsAppVoiceUtils.canonicalShape candidate = true).
Proof.
  intros Hall. destruct (Hall "whatsapp:+01") as [_ Hback].
  specialize (Hback eq_refl). vm_compute in Hback. discriminate.
Qed.

(** C5, amended: [isValidWhatsAppNumber] returns true exactly for the
    candidates made of the channel prefix, [+] and 2 to 15 digits of which
    the first is not [0]. *)
Theorem isValidWhatsAppNumber_canonical_nonzero (candidate : string) :
  WhatsAppVoiceUtils.isValidWhatsAppNumber candidate
  = WhatsAppVoiceUtils.canonicalShape candidate
    && WhatsAppVoiceUtils.leadingDigitNonZero candidate.
Proof. apply isValidWhatsAppNumber_shape. Qed.

(** C6: [formatWhatsAppNumber] is idempotent on every raw address, and an
    address that is already canonical (of the canonical shape, or accepted
    by [isValidWhatsAppNumber]) is returned unchanged. *)
Theorem formatWhatsAppNumber_idempotent (a : string) :
  WhatsAppVoiceUtils.formatWhatsAppNumber
    (WhatsAppVoiceUtils.formatWhatsAppNumber a)
  = WhatsAppVoiceUtils.formatWhatsAppNumber a
  /\ (WhatsAppVoiceUtils.canonicalShape a = true ->
      WhatsAppVoiceUtils.formatWhatsAppNumber a = a)
  /\ (WhatsAppVoiceUtils.isValidWhatsAppNumber a = true ->
      WhatsAppVoiceUtils.formatWhatsAppNumber a = a).
Proof.
  assert (Hcanon : WhatsAppVoiceUtils.canonicalShape a = true ->
                   WhatsAppVoiceUtils.formatWhatsAppNumber a = a).
  { intros (ds & ->)%canonicalShape_prefixed.
    apply formatWhatsAppNumber_prefixed, startsWith_app. }
  split; [|split; [done|]].
  - unfold WhatsAppVoiceUtils.formatWhatsAppNumber at 2 3.
    unfold WhatsAppVoiceUtils.channelPrefix.
    apply formatWhatsAppNumber_prefixed.
    destruct (Js.startsWith (Js.replaceLeading "whatsapp:" a) "+") eqn:Hs;
      [done|apply startsWith_app].
  - rewrite isValidWhatsAppNumber_shape. intros [Hc _]%andb_true_iff. auto.
Qed.

Lemma formatWhatsAppNumber_idempotent_witness :
  WhatsAppVoiceUtils.formatWhatsAppNumber
    (WhatsAppVoiceUtils.formatWhatsAppNumber "15550001")
  = WhatsAppVoiceUtils.formatWhatsAppNumber "15550001"
  /\ WhatsAppVoiceUtils.formatWhatsAppNumber "whatsapp:+05550001"
     = "whatsapp:+05550001"
  /\ WhatsAppVoiceUtils.formatWhatsAppNumber "whatsapp:+15550001"
     = "whatsapp:+15550001".
Proof.
  split; [apply (formatWhatsAppNumber_idempotent "15550001")|split].
  - destruct (formatWhatsAppNumber_idempotent "whatsapp:+05550001")
      as (_ & Hcanonical & _).
    apply Hcanonical. reflexivity.
  - destruct (formatWhatsAppNumber_idempotent "whatsapp:+15550001")
      as (_ & _ & Hvalid).
    apply Hvalid. reflexivity.
Defined.

(** ** TwiMLTemplates *)

Section TemplateFacts.
Import Js TemplateText TwiMLTemplates.

(** The scanner and the evaluator agree with the direct reading of a
    well-formed template: [joinConference]. *)
Lemma joinConference_src_evaluates (params : JoinConferenceParams) :
  evalTemplate joinConference_src (joinConferenceObj params)
  = Return (joinConference params).
Proof.
  destruct params as [name [[|]|]]; reflexivity.
Qed.

(** The scan of [createConference] stops in the substitution of the
    [startConferenceOnEnter] attribute: its second string literal is still
    open at the end of the line. *)
Lemma createConference_src_rejected :
  scan createConference_src = Throw (SyntaxError "Unterminated string literal").
Proof. vm_compute. reflexivity. Qed.

(** The five lines before it scan as plain text. *)
Lemma createConference_head_scans :
  isReturn (scan (join nl (take 5 createConference_lines))) = true.
Proof. vm_compute. reflexivity. Qed.

(** The next attribute line, [endConferenceOnExit], closes its literal and
    follows [moderator]. *)
Lemma createConference_endConferenceOnExit_line
  (params : CreateConferenceParams) :
  (createConference_lines !! 6 ≫= fun line =>
     Some (evalTemplate line (createConferenceObj params)))
  = Some (Return ("      endConferenceOnExit="
                  +:+ q (boolAttr (cc_moderator params)))).
Proof. destruct params as [name [[|]|] muted waitUrl]; reflexivity. Qed.

Lemma markupOperators_app (s t : string) :
  markupOperators (s +:+ t) = markupOperators s + markupOperators t.
Proof. apply countWhere_app. Qed.

Lemma markupOperators_parameters (entries : list (string * string)) :
  markupOperators (join (nl +:+ "      ") (map parameterElement entries))
  = markupOperators
      (join (nl +:+ "      ")
         (map parameterElement (map (fun _ => ("", "")) entries)))
    + list_sum (map (fun kv => markupOperators (fst kv)
                               + markupOperators (snd kv)) entries).
Proof.
  induction entries as [|[k v] rest IH]; [reflexivity|].
  destruct rest as [|kv' rest].
  - change (join (nl +:+ "      ") (map parameterElement [(k, v)]))
      with (parameterElement (k, v)).
    change (join (nl +:+ "      ")
              (map parameterElement (map (fun _ => ("", "")) [(k, v)])))
      with (parameterElement ("", "")).
    unfold parameterElement, q, list_sum. cbn [fst snd map fold_right].
    rewrite !markupOperators_app. count_literals. lia.
  - change (join (nl +:+ "      ") (map parameterElement ((k, v) :: kv' :: rest)))
      with (parameterElement (k, v) +:+ (nl +:+ "      ")
            +:+ join (nl +:+ "      ") (map parameterElement (kv' :: rest))).
    change (join (nl +:+ "      ")
              (map parameterElement
                 (map (fun _ => ("", "")) ((k, v) :: kv' :: rest))))
      with (parameterElement ("", "") +:+ (nl +:+ "      ")
            +:+ join (nl +:+ "      ")
                  (map parameterElement
                     (map (fun _ => ("", "")) (kv' :: rest)))).
    rewrite !markupOperators_app, IH.
    unfold parameterElement, q. cbn [fst snd].
    rewrite !markupOperators_app.
    unfold list_sum. cbn [map fold_right fst snd]. count_literals. lia.
Qed.

(** The same count for any set of characters: the literal pieces of the
    template are the same on both sides. *)
Lemma countWhere_parameters (p : ascii -> bool)
  (entries : list (string * string)) :
  countWhere p (join (nl +:+ "      ") (map parameterElement entries))
  = countWhere p
      (join (nl +:+ "      ")
         (map parameterElement (map (fun _ => ("", "")) entries)))
    + list_sum (map (fun kv => countWhere p (fst kv) + countWhere p (snd kv))
                    entries).
Proof.
  assert (Hnil : countWhere p "" = 0) by reflexivity.
  induction entries as [|[k v] rest IH]; [reflexivity|].
  destruct rest as [|kv' rest].
  - change (join (nl +:+ "      ") (map parameterElement [(k, v)]))
      with (parameterElement (k, v)).
    change (join (nl +:+ "      ")
              (map parameterElement (map (fun _ => ("", "")) [(k, v)])))
      with (parameterElement ("", "")).
    unfold parameterElement, q, list_sum. cbn [fst snd map fold_right].
    rewrite !countWhere_app, !Hnil. lia.
  - change (join (nl +:+ "      ") (map parameterElement ((k, v) :: kv' :: rest)))
      with (parameterElement (k, v) +:+ (nl +:+ "      ")
            +:+ join (nl +:+ "      ") (map parameterElement (kv' :: rest))).
    change (join (nl +:+ "      ")
              (map parameterElement
                 (map (fun _ => ("", "")) ((k, v) :: kv' :: rest))))
      with (parameterElement ("", "") +:+ (nl +:+ "      ")
            +:+ join (nl +:+ "      ")
                  (map parameterElement
                     (map (fun _ => ("", "")) (kv' :: rest)))).
    rewrite !countWhere_app, IH.
    unfold parameterElement, q. cbn [fst snd].
    rewrite !countWhere_app, !Hnil.
    unfold list_sum. cbn [map fold_right fst snd]. lia.
Qed.

Lemma incomingCall_chars (c : ascii) (params : IncomingCallParams) :
  countChar c (incomingCall params) + countChar c "default-client"
  = countChar c (incomingCall (withoutText params)) + textChars c params.
Proof.
  unfold textChars, countChar.
  assert (Hnil : countWhere (Ascii.eqb c) "" = 0) by reflexivity.
  unfold incomingCall, q.
  rewrite !countWhere_app.
  rewrite (countWhere_parameters _ (entriesOf (customParams params))).
  unfold withoutText. cbn [callerId clientIdentity customParams entriesOf orDefault].
  rewrite !Hnil. lia.
Qed.

(** The text fields stand in the document as they are given, between
    pieces that do not depend on them. *)
Lemma incomingCall_pieces :
  exists a b d e sep p1 p2 p3 : string,
    (forall params : IncomingCallParams,
       incomingCall params
       = a +:+ callerId params
         +:+ b +:+ orDefault (clientIdentity params) "default-client"
         +:+ d +:+ join sep (map parameterElement
                               (entriesOf (customParams params)))
         +:+ e)
    /\ (forall k v : string,
          parameterElement (k, v) = p1 +:+ k +:+ p2 +:+ v +:+ p3).
Proof.
  exists (xmlDecl +:+ nl +:+ "<Response>" +:+ nl +:+
          "  <Say voice=" +:+ q "Polly.Joanna" +:+
          ">Welcome to WhatsApp Business Calling</Say>" +:+ nl +:+
          "  <Dial callerId=" +:+ dq),
         (dq +:+ ">" +:+ nl +:+ "    <Client>" +:+ nl +:+ "      <Identity>"),
         ("</Identity>" +:+ nl +:+ "      "),
         (nl +:+ "    </Client>" +:+ nl +:+ "  </Dial>" +:+ nl +:+ "</Response>"),
         (nl +:+ "      "),
         ("<Parameter name=" +:+ dq), (dq +:+ " value=" +:+ dq),
         (dq +:+ " />").
  split.
  - intros params. unfold incomingCall, q. by rewrite !sapp_assoc.
  - intros k v. unfold parameterElement, q. cbn [fst snd].
    by rewrite !sapp_assoc.
Qed.

Lemma incomingCall_operators (params : IncomingCallParams) :
  markupOperators (incomingCall params)
  = markupOperators (incomingCall (withoutText params)) + textOperators params.
Proof.
  unfold incomingCall, textOperators, q.
  rewrite !markupOperators_app.
  rewrite (markupOperators_parameters (entriesOf (customParams params))).
  unfold withoutText. cbn [callerId clientIdentity customParams entriesOf orDefault].
  count_literals. lia.
Qed.

End TemplateFacts.

(** C1: a request with [moderator] set, such as [conferenceName: "room42",
    moderator: true], does not yield a document with both flags enabled:
    the template is rejected as source text, whatever the parameters are,
    because the string literal of the [startConferenceOnEnter] attribute
    is never closed. *)
Theorem createConference_rejected_for_every_request
  (params : TwiMLTemplates.CreateConferenceParams) :
  TwiMLTemplates.createConference params
  = Js.Throw (Js.SyntaxError "Unterminated string literal").
Proof.
  unfold TwiMLTemplates.createConference, TemplateText.evalTemplate.
  by rewrite createConference_src_rejected.
Qed.

(** ** TwiMLBuilder *)

Section BuilderFacts.
Import Js Attrs TwiMLBuilder.

Lemma closingTags_app (l1 l2 : list string) :
  closingTags (l1 ++ l2) = closingTags l1 + closingTags l2.
Proof. unfold closingTags. by rewrite List.filter_app, length_app. Qed.

(** A line other than the closing tag, such as any indented line. *)
Lemma closingTags_line (line : string) :
  String.eqb closingTag line = false -> closingTags [line] = 0.
Proof. unfold closingTags. simpl. by intros ->. Qed.

Lemma closingTags_parameters (entries : list (string * string)) :
  closingTags (map DialBuilder.parameterLine entries) = 0.
Proof. induction entries as [|kv entries IH]; [reflexivity|exact IH]. Qed.

(** Only [build] adds a closing tag, and it adds one each time. *)
Lemma closingTags_applyOp (twiml : list string) (op : Op) :
  closingTags (applyOp twiml op)
  = closingTags twiml + (if isBuild op then 1 else 0).
Proof.
  destruct op as [text o|o| |o number|o identity [entries|]|o name c
                 |o text voice| ]; simpl;
    unfold say, record, hangup, DialBuilder.whatsapp, DialBuilder.client,
      DialBuilder.conference, DialBuilder.endDial, DialBuilder.startDial,
      GatherBuilder.say, GatherBuilder.endGather, GatherBuilder.startGather;
    rewrite ?closingTags_app, ?closingTags_parameters;
    rewrite ?closingTags_line by reflexivity;
    try lia; reflexivity.
Qed.

Lemma closingTags_foldl (ops : list Op) (twiml : list string) :
  closingTags (foldl applyOp twiml ops) = closingTags twiml + builds ops.
Proof.
  revert twiml. induction ops as [|op ops IH]; intros twiml; simpl.
  - unfold builds. simpl. lia.
  - rewrite IH, closingTags_applyOp. unfold builds. simpl.
    destruct (isBuild op); simpl; lia.
Qed.

Lemma closingTags_run (ops : list Op) : closingTags (run ops) = builds ops.
Proof. unfold run. by rewrite closingTags_foldl. Qed.

(** Every call pushes onto the array. *)
Lemma applyOp_extends (twiml : list string) (op : Op) :
  exists pushed, applyOp twiml op = twiml ++ pushed.
Proof.
  destruct op as [text o|o| |o number|o identity [entries|]|o name c
                 |o text voice| ]; simpl;
    unfold say, record, hangup, DialBuilder.whatsapp, DialBuilder.client,
      DialBuilder.conference, DialBuilder.endDial, DialBuilder.startDial,
      GatherBuilder.say, GatherBuilder.endGather, GatherBuilder.startGather;
    rewrite <- ?(assoc_L (++)); eauto.
Qed.

Lemma run_not_empty (ops : list Op) : run ops <> [].
Proof.
  unfold run. assert (Hne : new <> []) by done. revert Hne.
  generalize new as twiml. induction ops as [|op ops IH]; intros twiml Hne.
  - done.
  - simpl. apply IH. destruct (applyOp_extends twiml op) as [pushed ->].
    destruct twiml; [done|discriminate].
Qed.

Lemma join_snoc (sep : string) (parts : list string) (x : string) :
  parts <> [] -> join sep (parts ++ [x]) = join sep parts +:+ sep +:+ x.
Proof.
  induction parts as [|a parts IH]; [done|]. intros _.
  destruct parts as [|b parts]; [reflexivity|].
  change (join sep ((a :: b :: parts) ++ [x]))
    with (a +:+ sep +:+ join sep ((b :: parts) ++ [x])).
  change (join sep (a :: b :: parts)) with (a +:+ sep +:+ join sep (b :: parts)).
  rewrite IH by done. by rewrite !sapp_assoc.
Qed.

(** The line of [say]: the opening tag, the text, the closing tag. *)
Lemma sayLine_pieces (options : option SayOptions) :
  exists opening : string,
    forall text : string,
      sayLine text options = opening +:+ text +:+ "</Say>".
Proof.
  exists ("  <Say"
          +:+ attrString (strAttr "voice" (options ≫= voice)
                          ++ strAttr "language" (options ≫= language)
                          ++ numAttr "loop" (options ≫= loop))
          +:+ ">").
  intros text. unfold sayLine. by rewrite !sapp_assoc.
Qed.

Lemma build_again (twiml : list string) :
  twiml <> [] ->
  fst (build (snd (build twiml))) = fst (build twiml) +:+ nl +:+ closingTag.
Proof.
  intros Hne. unfold build. simpl. apply join_snoc.
  destruct twiml; [done|discriminate].
Qed.

End BuilderFacts.

(** C2, as stated, does not hold: on a fresh builder the first [build()]
    returns a document with one closing tag and the second one a document
    with two. *)
Lemma build_twice_two_closing_tags :
  Js.countOccurrences "</Response>" (fst (TwiMLBuilder.build TwiMLBuilder.new))
  = 1
  /\ Js.countOccurrences "</Response>"
       (fst (TwiMLBuilder.build (snd (TwiMLBuilder.build TwiMLBuilder.new))))
     = 2.
Proof. split; vm_compute; reflexivity. Qed.

(** C2, amended: [build()] is not idempotent. After any sequence of
    builder calls, every [build()] pushes one more closing tag onto the
    array: the array holds as many closing tags as [build()] has been
    called, the document returned is the lines pushed before followed by a
    new line and the closing tag, and the document returned by a [build()]
    that directly follows another is the previous document followed by a
    new line and one more closing tag. *)
Theorem build_pushes_one_closing_tag_per_call (ops : list TwiMLBuilder.Op) :
  let twiml := TwiMLBuilder.run ops in
  let first := TwiMLBuilder.build twiml in
  let second := TwiMLBuilder.build (snd first) in
  TwiMLBuilder.closingTags twiml = TwiMLBuilder.builds ops
  /\ TwiMLBuilder.closingTags (snd first) = S (TwiMLBuilder.builds ops)
  /\ TwiMLBuilder.closingTags (snd second) = S (S (TwiMLBuilder.builds ops))
  /\ fst first = Js.join Js.nl twiml +:+ Js.nl +:+ TwiMLBuilder.closingTag
  /\ fst second = fst first +:+ Js.nl +:+ TwiMLBuilder.closingTag.
Proof.
  intros twiml first second.
  pose proof (closingTags_run ops) as Hrun. fold twiml in Hrun.
  split; [exact Hrun|]. split; [|split; [|split]].
  - unfold first, TwiMLBuilder.build. cbn [fst snd].
    rewrite closingTags_app, Hrun.
    change (TwiMLBuilder.closingTags [TwiMLBuilder.closingTag]) with 1. lia.
  - unfold second, first, TwiMLBuilder.build. cbn [fst snd].
    rewrite !closingTags_app, Hrun.
    change (TwiMLBuilder.closingTags [TwiMLBuilder.closingTag]) with 1. lia.
  - apply join_snoc, run_not_empty.
  - apply build_again, run_not_empty.
Qed.

(** C4, as stated, does not hold: [say] inserts its text as it is, so an
    operator character of the text reaches the document unescaped. *)
Lemma say_inserts_operator_unescaped :
  TwiMLBuilder.sayLine "a<b" None = "  <Say>a<b</Say>"
  /\ ~ (forall text : string,
          Js.countChar "<" (TwiMLBuilder.sayLine text None)
          = Js.countChar "<" (TwiMLBuilder.sayLine "" None)).
Proof.
  split; [reflexivity|].
  intros Hall. specialize (Hall "a<b"). vm_compute in Hall. discriminate.
Qed.

(** C4, amended: the render operations insert their text fields verbatim,
    without escaping.  The line that [say] pushes is an opening tag, which
    depends on the options only, followed by the text exactly as it is
    given and the closing tag.  The document of [incomingCall] is made of
    fixed pieces between which the caller id, the client identity and the
    custom parameters stand exactly as they are given, a parameter being
    fixed pieces around its name and its value.  So every character of a
    text field is in the document: for each character, and in particular
    for each of the five markup operator characters, the document holds as
    many as its template and in addition those of the text fields, and
    the same holds for the operator characters taken together. *)
Theorem render_inserts_text_verbatim :
  (forall options : option TwiMLBuilder.SayOptions,
     exists opening : string,
       forall (text : string) (twiml : list string),
         TwiMLBuilder.say text options twiml
         = twiml ++ [opening +:+ text +:+ "</Say>"])
  /\ (forall (c : ascii) (text : string)
             (options : option TwiMLBuilder.SayOptions),
        Js.countChar c (TwiMLBuilder.sayLine text options)
        = Js.countChar c (TwiMLBuilder.sayLine "" options)
          + Js.countChar c text)
  /\ (forall (text : string) (options : option TwiMLBuilder.SayOptions),
        Js.markupOperators (TwiMLBuilder.sayLine text options)
        = Js.markupOperators (TwiMLBuilder.sayLine "" options)
          + Js.markupOperators text)
  /\ (exists a b d e sep p1 p2 p3 : string,
        (forall params : TwiMLTemplates.IncomingCallParams,
           TwiMLTemplates.incomingCall params
           = a +:+ TwiMLTemplates.callerId params
             +:+ b +:+ Js.orDefault (TwiMLTemplates.clientIdentity params)
                         "default-client"
             +:+ d +:+ Js.join sep
                         (map TwiMLTemplates.parameterElement
                            (TwiMLTemplates.entriesOf
                               (TwiMLTemplates.customParams params)))
             +:+ e)
        /\ (forall k v : string,
              TwiMLTemplates.parameterElement (k, v)
              = p1 +:+ k +:+ p2 +:+ v +:+ p3))
  /\ (forall (c : ascii) (params : TwiMLTemplates.IncomingCallParams),
        Js.countChar c (TwiMLTemplates.incomingCall params)
        + Js.countChar c "default-client"
        = Js.countChar c
            (TwiMLTemplates.incomingCall (TwiMLTemplates.withoutText params))
          + TwiMLTemplates.textChars c params)
  /\ (forall params : TwiMLTemplates.IncomingCallParams,
        Js.markupOperators (TwiMLTemplates.incomingCall params)
        = Js.markupOperators
            (TwiMLTemplates.incomingCall (TwiMLTemplates.withoutText params))
          + TwiMLTemplates.textOperators params).
Proof.
  split; [|split; [|split; [|split; [|split]]]].
  - intros options. destruct (sayLine_pieces options) as [opening Hline].
    exists opening. intros text twiml.
    unfold TwiMLBuilder.say. by rewrite Hline.
  - intros c text options. unfold TwiMLBuilder.sayLine, Js.countChar.
    rewrite !countWhere_app.
    change (Js.countWhere (Ascii.eqb c) "") with 0. lia.
  - intros text options. unfold TwiMLBuilder.sayLine.
    rewrite !markupOperators_app. count_literals. lia.
  - exact incomingCall_pieces.
  - apply incomingCall_chars.
  - apply incomingCall_operators.
Qed.

(** ** The server registry *)

Section ServerFacts.
Import Js Server.

Lemma create_lookup (now : Z) (body : Body) (reg : gmap string Conference) :
  fst (post_voice_conference_create now body reg) !! ConferenceName body
  = Some {| id := ConferenceName body;
            participants := [];
            moderator :=
              if isTrueString (Moderator body) then Some (From body) else None;
            createdAt := now |}.
Proof. unfold post_voice_conference_create. simpl. apply lookup_insert_eq. Qed.

Lemma create_lookup_other (now : Z) (body : Body)
  (reg : gmap string Conference) (other : string) :
  other <> ConferenceName body ->
  fst (post_voice_conference_create now body reg) !! other = reg !! other.
Proof.
  intros Hne. unfold post_voice_conference_create. simpl.
  by apply lookup_insert_ne.
Qed.

Lemma join_present (body : Body) (reg : gmap string Conference)
  (conference : Conference) :
  reg !! ConferenceName body = Some conference ->
  From body ∈ participants conference ->
  fst (post_voice_conference_join body reg) = reg.
Proof.
  intros Hc Hin. unfold post_voice_conference_join. simpl.
  by rewrite Hc, bool_decide_eq_true_2.
Qed.

Lemma join_absent_participant (body : Body) (reg : gmap string Conference)
  (conference : Conference) :
  reg !! ConferenceName body = Some conference ->
  From body ∉ participants conference ->
  fst (post_voice_conference_join body reg)
  = <[ ConferenceName body := pushParticipant conference (From body) ]> reg.
Proof.
  intros Hc Hin. unfold post_voice_conference_join. simpl.
  by rewrite Hc, bool_decide_eq_false_2.
Qed.

Lemma join_unknown_conference (body : Body) (reg : gmap string Conference) :
  reg !! ConferenceName body = None ->
  fst (post_voice_conference_join body reg) = reg.
Proof.
  intros Hc. unfold post_voice_conference_join. simpl. by rewrite Hc.
Qed.

Lemma reachable_participantsDistinct (reg : gmap string Conference) :
  reachable reg -> participantsDistinct reg.
Proof.
  induction 1 as [|now body reg _ IH|body reg _ IH|ev evname reg _ IH];
    intros name conference Hl.
  - by rewrite lookup_empty in Hl.
  - destruct (decide (name = ConferenceName body)) as [->|Hne].
    + rewrite create_lookup in Hl. inversion Hl; subst. simpl. constructor.
    + rewrite create_lookup_other in Hl by done. eauto.
  - destruct (reg !! ConferenceName body) as [c|] eqn:Hc.
    + destruct (decide (From body ∈ participants c)) as [Hin|Hin].
      * rewrite (join_present _ _ _ Hc Hin) in Hl. eauto.
      * rewrite (join_absent_participant _ _ _ Hc Hin) in Hl.
        destruct (decide (name = ConferenceName body)) as [->|Hne].
        -- rewrite lookup_insert_eq in Hl. inversion Hl; subst. simpl.
           apply NoDup_app. repeat split.
           ++ eauto.
           ++ intros x Hx ->%list_elem_of_singleton. done.
           ++ apply NoDup_singleton.
        -- rewrite lookup_insert_ne in Hl by done. eauto.
    + rewrite (join_unknown_conference _ _ Hc) in Hl. eauto.
  - unfold post_conference_events in Hl.
    destruct (String.eqb ev "conference-end"); [|eauto].
    destruct (decide (name = evname)) as [->|Hne].
    + by rewrite lookup_delete_eq in Hl.
    + rewrite lookup_delete_ne in Hl by done. eauto.
Qed.

End ServerFacts.

(** ** Insertion-ordered maps *)

Section JsMapFacts.
Context {V : Type}.
Implicit Types (m : list (string * V)) (k : string) (v : V).

Lemma get_None_keys k m : JsMap.get k m = None <-> k ∉ JsMap.keys m.
Proof.
  induction m as [|[k' v'] m IH]; simpl.
  - split; [intros _; apply not_elem_of_nil|done].
  - destruct (String.eqb_spec k' k) as [->|Hne].
    + split; [discriminate|]. intros []. apply list_elem_of_here.
    + rewrite IH, not_elem_of_cons. split; [|by intros [_ ?]].
      intros Hin. split; [congruence|done].
Qed.

Lemma get_Some_keys k m : is_Some (JsMap.get k m) <-> k ∈ JsMap.keys m.
Proof.
  rewrite <- not_eq_None_Some, get_None_keys.
  destruct (decide (k ∈ JsMap.keys m)); naive_solver.
Qed.

Lemma get_set_eq k v m : JsMap.get k (JsMap.set k v m) = Some v.
Proof.
  induction m as [|[k' v'] m IH]; simpl.
  - by rewrite String.eqb_refl.
  - destruct (String.eqb_spec k' k) as [->|Hne]; simpl.
    + by rewrite String.eqb_refl.
    + by destruct (String.eqb_spec k' k).
Qed.

Lemma keys_set_present k v m :
  k ∈ JsMap.keys m -> JsMap.keys (JsMap.set k v m) = JsMap.keys m.
Proof.
  induction m as [|[k' v'] m IH]; simpl.
  - by intros ?%elem_of_nil.
  - destruct (String.eqb_spec k' k) as [->|Hne]; [done|].
    intros [?|Hin]%elem_of_cons; [congruence|]. simpl. f_equal. by apply IH.
Qed.

Lemma keys_set_new k v m :
  k ∉ JsMap.keys m -> JsMap.keys (JsMap.set k v m) = JsMap.keys m ++ [k].
Proof.
  induction m as [|[k' v'] m IH]; simpl; [done|].
  intros [Hne Hin]%not_elem_of_cons.
  destruct (String.eqb_spec k' k) as [->|_]; [done|]. simpl. f_equal.
  by apply IH.
Qed.

Lemma keys_delete_subset k k0 m :
  k0 ∈ JsMap.keys (JsMap.delete k m) -> k0 ∈ JsMap.keys m.
Proof.
  induction m as [|[k' v'] m IH]; simpl; [done|].
  destruct (String.eqb_spec k' k) as [->|_]; simpl.
  - apply list_elem_of_further.
  - intros [->|Hin]%elem_of_cons;
      [apply list_elem_of_here|by apply list_elem_of_further, IH].
Qed.

Lemma keys_set_NoDup k v m :
  NoDup (JsMap.keys m) -> NoDup (JsMap.keys (JsMap.set k v m)).
Proof.
  intros Hnd. destruct (decide (k ∈ JsMap.keys m)) as [Hin|Hin].
  - by rewrite keys_set_present.
  - rewrite keys_set_new by done. apply NoDup_app. repeat split; [done| |].
    + intros x Hx ->%list_elem_of_singleton. done.
    + apply NoDup_singleton.
Qed.

Lemma keys_delete_NoDup k m :
  NoDup (JsMap.keys m) -> NoDup (JsMap.keys (JsMap.delete k m)).
Proof.
  induction m as [|[k' v'] m IH]; simpl; [done|].
  intros [Hin Hnd]%NoDup_cons.
  destruct (String.eqb_spec k' k) as [->|_]; [done|]. simpl.
  apply NoDup_cons. split; [|by apply IH].
  intros Hk. apply Hin. by apply keys_delete_subset in Hk.
Qed.

End JsMapFacts.

(** ** ConferenceSession and WhatsAppVoice *)

Section VoiceFacts.
Import Js Voice.
Context {D : Type} `{DeviceSDK D}.

(** What a successful [addParticipant] leaves behind. *)
Lemma addParticipant_Return (n : string) (s s' : ConferenceSession)
  (d d' : D) (u : unit) :
  addParticipant n s d = (Return u, (s', d')) ->
  startsWith n "whatsapp:" = true
  /\ exists call,
       s' = withParticipants s (JsMap.set n call (participants s)).
Proof.
  unfold addParticipant.
  destruct (startsWith n "whatsapp:"); simpl; [|discriminate].
  destruct (connect _ d) as [[call|e] d1]; [|discriminate].
  intros [= <- <-]. eauto.
Qed.

(** When the platform accepts every request, only the prefix check can
    make [addParticipant] throw. *)
Lemma addParticipant_accepts (n : string) (s : ConferenceSession) (d : D) :
  (forall params d0, isReturn (fst (connect params d0)) = true) ->
  startsWith n "whatsapp:" = true ->
  isReturn (fst (addParticipant n s d)) = true.
Proof.
  intros Hacc Hn. unfold addParticipant. rewrite Hn. simpl.
  match goal with |- context [connect ?p d] =>
    specialize (Hacc p d); destruct (connect p d) as [[call|e] d1] end;
    [done|discriminate].
Qed.

Lemma addParticipants_accepts (ps : list string) (s : ConferenceSession)
  (d : D) :
  (forall params d0, isReturn (fst (connect params d0)) = true) ->
  Forall (fun n => startsWith n "whatsapp:" = true) ps ->
  isReturn (fst (addParticipants ps s d)) = true.
Proof.
  intros Hacc Hps. revert s d.
  induction Hps as [|n ps Hn _ IH]; intros s d; simpl; [done|].
  pose proof (addParticipant_accepts n s d Hacc Hn) as Hadd.
  destruct (addParticipant n s d) as [[[]|e] [s1 d1]]; [apply IH|discriminate].
Qed.

(** The loop over distinct new addresses appends them in order. *)
Lemma addParticipants_Return (ps : list string) (s s' : ConferenceSession)
  (d d' : D) (u : unit) :
  addParticipants ps s d = (Return u, (s', d')) ->
  NoDup ps ->
  (forall n, n ∈ ps -> n ∉ getParticipants s) ->
  getParticipants s' = getParticipants s ++ ps
  /\ conferenceId s' = conferenceId s
  /\ conferenceCall s' = conferenceCall s.
Proof.
  revert s d. induction ps as [|n ps IH]; intros s d; simpl.
  - intros [= <- <-] _ _. by rewrite (right_id_L [] (++)).
  - destruct (addParticipant n s d) as [[[]|e] [s1 d1]] eqn:Hadd;
      [|discriminate].
    intros Hrest [Hn Hnd]%NoDup_cons Hfresh.
    apply addParticipant_Return in Hadd as (_ & call & ->).
    apply IH in Hrest as (Hkeys & Hid & Hcall); [|done|].
    + rewrite Hkeys, Hid, Hcall. unfold getParticipants. simpl.
      rewrite keys_set_new by (apply Hfresh, list_elem_of_here).
      by rewrite <- (assoc_L (++)).
    + intros m Hm. unfold getParticipants. simpl.
      rewrite keys_set_new by (apply Hfresh, list_elem_of_here).
      rewrite not_elem_of_app, list_elem_of_singleton. split.
      * by apply Hfresh, list_elem_of_further.
      * intros ->. done.
Qed.

Lemma addParticipants_conferenceId (ps : list string)
  (s s' : ConferenceSession) (d d' : D) (u : unit) :
  addParticipants ps s d = (Return u, (s', d')) ->
  conferenceId s' = conferenceId s.
Proof.
  revert s d. induction ps as [|n ps IH]; intros s d; simpl.
  - by intros [= _ <- _].
  - destruct (addParticipant n s d) as [[[]|e] [s1 d1]] eqn:Hadd;
      [|discriminate].
    intros ->%IH. by apply addParticipant_Return in Hadd as (_ & c & ->).
Qed.

Lemma initialize_Return (options : ConferenceOptions)
  (id sender : string) (s' : ConferenceSession) (d d' : D) (u : unit) :
  initialize options (newSession id sender) d = (Return u, (s', d')) ->
  NoDup (co_participants options) ->
  getParticipants s' = co_participants options /\ conferenceId s' = id.
Proof.
  unfold initialize.
  destruct (connect _ d) as [[call|e] d1]; [|discriminate].
  intros Hadd Hnd.
  apply addParticipants_Return in Hadd as (Hkeys & Hid & _); [done|done|].
  intros n _. apply not_elem_of_nil.
Qed.

Lemma initialize_accepts (options : ConferenceOptions)
  (s : ConferenceSession) (d : D) :
  (forall params d0, isReturn (fst (connect params d0)) = true) ->
  Forall (fun n => startsWith n "whatsapp:" = true) (co_participants options) ->
  isReturn (fst (initialize options s d)) = true.
Proof.
  intros Hacc Hps. unfold initialize.
  match goal with |- context [connect ?p d] =>
    pose proof (Hacc p d) as Hc; destruct (connect p d) as [[call|e] d1] end;
    [|discriminate].
  by apply addParticipants_accepts.
Qed.

(** The addresses of a session are distinct, whatever has been done to
    it; adding one that is there dials again but keeps the list. *)
Lemma sessionReachable_NoDup (s : ConferenceSession) :
  sessionReachable s -> NoDup (getParticipants s).
Proof.
  assert (Hadd : forall n s d, NoDup (getParticipants s) ->
            NoDup (getParticipants (fst (snd (addParticipant n s d))))).
  { intros n s0 d Hnd. unfold addParticipant.
    destruct (negb _); [done|].
    destruct (connect _ d) as [[call|e] d1]; simpl; [|done].
    by apply keys_set_NoDup. }
  assert (Hadds : forall ps s d, NoDup (getParticipants s) ->
            NoDup (getParticipants (fst (snd (addParticipants ps s d))))).
  { intros ps. induction ps as [|n ps IH]; intros s0 d Hnd; simpl; [done|].
    specialize (Hadd n s0 d Hnd).
    destruct (addParticipant n s0 d) as [[[]|e] [s1 d1]]; [by apply IH|done]. }
  induction 1 as [id sender|options s d _ IH|n s d _ IH|n s d _ IH|s d _ IH].
  - constructor.
  - unfold initialize.
    destruct (connect _ d) as [[call|e] d1]; [by apply Hadds|done].
  - by apply Hadd.
  - unfold removeParticipant.
    destruct (JsMap.get n (participants s)); simpl; [|done].
    by apply keys_delete_NoDup.
  - constructor.
Qed.

Lemma addParticipant_present (n : string) (s s' : ConferenceSession)
  (d d' : D) (u : unit) :
  n ∈ getParticipants s ->
  addParticipant n s d = (Return u, (s', d')) ->
  getParticipants s' = getParticipants s
  /\ getParticipantCount s' = getParticipantCount s.
Proof.
  intros Hin (_ & call & ->)%addParticipant_Return.
  assert (Hk : getParticipants
                 (withParticipants s (JsMap.set n call (participants s)))
               = getParticipants s) by by apply keys_set_present.
  split; [done|].
  unfold getParticipantCount, JsMap.size, getParticipants, JsMap.keys in *.
  by rewrite <- (length_map fst), Hk, length_map.
Qed.

Lemma keys_set_elem {V} (k k0 : string) (v : V) (m : list (string * V)) :
  k0 ∈ JsMap.keys (JsMap.set k v m) -> k0 = k \/ k0 ∈ JsMap.keys m.
Proof.
  destruct (decide (k ∈ JsMap.keys m)) as [Hin|Hin].
  - rewrite keys_set_present by done. auto.
  - rewrite keys_set_new by done.
    intros [?|?%list_elem_of_singleton]%elem_of_app; auto.
Qed.

(** Every address of a session carries the channel prefix. *)
Lemma sessionReachable_prefixed (s : ConferenceSession) :
  sessionReachable s ->
  forall n, n ∈ getParticipants s -> startsWith n "whatsapp:" = true.
Proof.
  set (P := fun s : ConferenceSession =>
    forall n, n ∈ getParticipants s -> startsWith n "whatsapp:" = true).
  assert (Hadd : forall n s d, P s -> P (fst (snd (addParticipant n s d)))).
  { intros n s0 d Hp. unfold addParticipant.
    destruct (startsWith n "whatsapp:") eqn:Hn; simpl; [|done].
    destruct (connect _ d) as [[call|e] d1]; simpl; [|done].
    intros m [->|Hm]%keys_set_elem; [done|by apply Hp]. }
  assert (Hadds : forall ps s d, P s -> P (fst (snd (addParticipants ps s d)))).
  { intros ps. induction ps as [|n ps IH]; intros s0 d Hp; simpl; [done|].
    specialize (Hadd n s0 d Hp).
    destruct (addParticipant n s0 d) as [[[]|e] [s1 d1]]; [by apply IH|done]. }
  induction 1 as [id sender|options s d _ IH|n s d _ IH|n s d _ IH|s d _ IH].
  - intros n Hn. by apply elem_of_nil in Hn.
  - unfold initialize.
    destruct (connect _ d) as [[call|e] d1]; [by apply Hadds|done].
  - by apply Hadd.
  - unfold removeParticipant.
    destruct (JsMap.get n (participants s)); simpl; [|done].
    intros m Hm%keys_delete_subset. by apply IH.
  - intros n Hn. by apply elem_of_nil in Hn.
Qed.

(** Adding an address that is there, the platform accepting the call:
    the call is placed, the addresses stay as they are. *)
Lemma addParticipant_again (n : string) (s : ConferenceSession) (d : D) :
  sessionReachable s ->
  n ∈ getParticipants s ->
  isReturn (fst (connect (participantCallOptions n s) d)) = true ->
  fst (addParticipant n s d) = Return tt
  /\ getParticipants (fst (snd (addParticipant n s d))) = getParticipants s
  /\ getParticipantCount (fst (snd (addParticipant n s d)))
     = getParticipantCount s.
Proof.
  intros Hs Hin Hacc.
  pose proof (sessionReachable_prefixed s Hs n Hin) as Hn.
  destruct (addParticipant n s d) as [r [s' d']] eqn:Hadd.
  assert (r = Return tt) as ->.
  { revert Hadd. unfold addParticipant. rewrite Hn. simpl.
    destruct (connect _ d) as [[call|e] d1]; [|discriminate].
    by intros [= <- _ _]. }
  simpl. split; [done|]. by eapply addParticipant_present.
Qed.

Lemma createConference_Return (options : ConferenceOptions)
  (w w' : WhatsAppVoice D) (conference : ConferenceSession) :
  createConference options w = (Return conference, w') ->
  JsMap.get (co_conferenceId options) (activeConferences w') = Some conference
  /\ conferenceId conference = co_conferenceId options
  /\ (NoDup (co_participants options) ->
      getParticipants conference = co_participants options).
Proof.
  unfold createConference.
  destruct (initialize _ _ _) as [[u|e] [s1 d1]] eqn:Hinit; [|discriminate].
  intros [= <- <-]. simpl. split; [apply get_set_eq|].
  split.
  - unfold initialize in Hinit.
    destruct (connect _ (device w)) as [[call|e] d2]; [|discriminate].
    by apply addParticipants_conferenceId in Hinit.
  - intros Hnd. by eapply initialize_Return.
Qed.

Lemma createConference_accepts (options : ConferenceOptions)
  (w : WhatsAppVoice D) :
  (forall params d0, isReturn (fst (connect params d0)) = true) ->
  Forall (fun n => startsWith n "whatsapp:" = true) (co_participants options) ->
  isReturn (fst (createConference options w)) = true.
Proof.
  intros Hacc Hps. unfold createConference.
  pose proof (initialize_accepts options
    (newSession (co_conferenceId options) (config_whatsappSender w))
    (device w) Hacc Hps) as Hinit.
  destruct (initialize _ _ _) as [[u|e] [s1 d1]]; [done|discriminate].
Qed.

End VoiceFacts.

(** ** Registry and sessions: the main results *)

(** C3, as stated, does not hold: creating a conference under an id that
    is present raises no duplicate error and replaces the record; here the
    participant of ["c1"] is lost and [createdAt] moves from 1 to 2. *)
Lemma create_present_conference_replaces_record :
  let body := {| Server.ConferenceName := "c1";
                 Server.Moderator := Some "true";
                 Server.From := "whatsapp:+15550001" |} in
  let reg :=
    fst (Server.post_voice_conference_join body
           (fst (Server.post_voice_conference_create 1 body ∅))) in
  Server.reachable reg
  /\ reg !! "c1"
     = Some {| Server.id := "c1";
               Server.participants := ["whatsapp:+15550001"];
               Server.moderator := Some "whatsapp:+15550001";
               Server.createdAt := 1 |}
  /\ fst (Server.post_voice_conference_create 2 body reg) !! "c1"
     = Some {| Server.id := "c1";
               Server.participants := [];
               Server.moderator := Some "whatsapp:+15550001";
               Server.createdAt := 2 |}.
Proof.
  intros body reg. split; [|split].
  - apply Server.reach_join, Server.reach_create, Server.reach_start.
  - vm_compute. reflexivity.
  - vm_compute. reflexivity.
Qed.

(** C3, amended: [createConference] does not fail on an id that is
    present, it replaces the entry. The server route stores, under the
    conference name, a record with [createdAt] set to the time of the call,
    no participants and the moderator of the request, and leaves the other
    entries alone. The client wrapper, when the platform accepts its calls
    and the initial participants are distinct and carry the channel prefix,
    returns a session that it stores under the conference id and whose
    participants are the initial ones in the given order. *)
Theorem createConference_replaces_entry :
  (forall (now : Z) (body : Server.Body)
          (reg : gmap string Server.Conference),
     let reg' := fst (Server.post_voice_conference_create now body reg) in
     reg' !! Server.ConferenceName body
     = Some {| Server.id := Server.ConferenceName body;
               Server.participants := [];
               Server.moderator :=
                 if Server.isTrueString (Server.Moderator body)
                 then Some (Server.From body) else None;
               Server.createdAt := now |}
     /\ forall other : string,
          other <> Server.ConferenceName body -> reg' !! other = reg !! other)
  /\ (forall (D : Type) (sdk : Voice.DeviceSDK D)
             (options : Voice.ConferenceOptions) (w : Voice.WhatsAppVoice D),
        (forall params d, Js.isReturn (fst (Voice.connect params d)) = true) ->
        Forall (fun n => Js.startsWith n "whatsapp:" = true)
               (Voice.co_participants options) ->
        NoDup (Voice.co_participants options) ->
        exists conference w',
          Voice.createConference options w = (Js.Return conference, w')
          /\ JsMap.get (Voice.co_conferenceId options)
               (Voice.activeConferences w') = Some conference
          /\ Voice.conferenceId conference = Voice.co_conferenceId options
          /\ Voice.getParticipants conference = Voice.co_participants options).
Proof.
  split.
  - intros now body reg reg'. split; [apply create_lookup|].
    intros other Hne. by apply create_lookup_other.
  - intros D sdk options w Hacc Hps Hnd.
    pose proof (createConference_accepts options w Hacc Hps) as Hret.
    destruct (Voice.createConference options w) as [[conference|e] w'] eqn:Hc;
      [|discriminate].
    exists conference, w'. split; [done|].
    apply createConference_Return in Hc as (Hget & Hid & Hkeys). auto.
Qed.

Lemma createConference_replaces_entry_witness :
  let options := {| Voice.co_conferenceId := "c1";
                    Voice.co_participants :=
                      ["whatsapp:+15550001"; "whatsapp:+15550002"];
                    Voice.co_moderator := Some true;
                    Voice.co_muted := None;
                    Voice.co_hold := None |} in
  let present := {| Voice.conferenceId := "c1";
                    Voice.whatsappSender := "whatsapp:+15550000";
                    Voice.participants :=
                      [("whatsapp:+15550009", {| Voice.CallSid := "CA0" |})];
                    Voice.conferenceCall := None |} in
  let w := {| Voice.device := ([] : list Voice.Request);
              Voice.config_whatsappSender := "whatsapp:+15550000";
              Voice.activeCalls := [];
              Voice.activeConferences := [("c1", present)] |} in
  exists conference w',
    Voice.createConference options w = (Js.Return conference, w')
    /\ JsMap.get "c1" (Voice.activeConferences w') = Some conference
    /\ Voice.conferenceId conference = "c1"
    /\ Voice.getParticipants conference
       = ["whatsapp:+15550001"; "whatsapp:+15550002"].
Proof.
  intros options present w.
  destruct createConference_replaces_entry as [_ Hclient].
  apply (Hclient (list Voice.Request) Voice.recordingDevice options w).
  - intros params d. reflexivity.
  - repeat constructor.
  - apply (bool_decide_unpack _). vm_compute. exact I.
Defined.

(** C7, as stated, does not hold for the client session: adding an
    address that is among the participants is not a no-op.  The platform is
    dialled a second time and the call it returns takes the place of the
    one that was stored; when the platform turns the call down, the error
    is raised. *)
Lemma present_participant_dialled_again :
  let n := "whatsapp:+15550001" in
  let fresh := Voice.newSession "c1" "whatsapp:+15550000" in
  let s := fst (snd (Voice.addParticipant n fresh ([] : list Voice.Request))) in
  let d := snd (snd (Voice.addParticipant n fresh ([] : list Voice.Request))) in
  Voice.getParticipants s = [n]
  /\ Voice.addParticipant n s d <> (Js.Return tt, (s, d))
  /\ JsMap.get n (Voice.participants s) = Some {| Voice.CallSid := "CA0" |}
  /\ JsMap.get n (Voice.participants (fst (snd (Voice.addParticipant n s d))))
     = Some {| Voice.CallSid := "CA1" |}
  /\ snd (snd (Voice.addParticipant n s d))
     = [Voice.ReqConnect (Voice.participantCallOptions n fresh);
        Voice.ReqConnect (Voice.participantCallOptions n fresh)]
  /\ @Voice.addParticipant unit Voice.rejectingDevice n s tt
     = (Js.Throw (Js.Rejected "busy"), (s, tt)).
Proof.
  intros n fresh s d. repeat split; try reflexivity.
  intros Hnoop. vm_compute in Hnoop. discriminate.
Qed.

(** C7, amended: in every registry state the server can reach, no
    participant list holds an address twice, and the join route on an
    address that is already in the conference leaves the registry as it
    is; the route is a total function of the request, so nothing is raised.
    Creating a conference and adding the same participant twice leaves one
    participant.  The participants of a client session are distinct as
    well, but there adding an address that is among them is not a no-op:
    the platform is dialled once more, with the same parameters.  When it
    returns a call, this call takes the place of the one stored under the
    address, and the addresses, their order and their number stay as they
    are; when it turns the call down, the error is raised and the session
    is unchanged. *)
Theorem present_participant_not_added_twice
  (reg : gmap string Server.Conference) :
  Server.reachable reg ->
  Server.participantsDistinct reg
  /\ (forall (body : Server.Body) (conference : Server.Conference),
        reg !! Server.ConferenceName body = Some conference ->
        Server.From body ∈ Server.participants conference ->
        fst (Server.post_voice_conference_join body reg) = reg)
  /\ (forall (now : Z) (body : Server.Body),
        let reg1 := fst (Server.post_voice_conference_create now body reg) in
        let reg2 := fst (Server.post_voice_conference_join body reg1) in
        let reg3 := fst (Server.post_voice_conference_join body reg2) in
        reg3 = reg2
        /\ Server.participants <$> reg3 !! Server.ConferenceName body
           = Some [Server.From body])
  /\ (forall (D : Type) (sdk : Voice.DeviceSDK D)
             (s : Voice.ConferenceSession) (n : string) (d : D),
        Voice.sessionReachable s ->
        NoDup (Voice.getParticipants s)
        /\ (n ∈ Voice.getParticipants s ->
            match Voice.connect (Voice.participantCallOptions n s) d with
            | (Js.Return call, d') =>
                let s' :=
                  Voice.withParticipants s
                    (JsMap.set n call (Voice.participants s)) in
                Voice.addParticipant n s d = (Js.Return tt, (s', d'))
                /\ JsMap.get n (Voice.participants s') = Some call
                /\ Voice.getParticipants s' = Voice.getParticipants s
                /\ Voice.getParticipantCount s' = Voice.getParticipantCount s
            | (Js.Throw e, d') =>
                Voice.addParticipant n s d = (Js.Throw e, (s, d'))
            end)).
Proof.
  intros Hreach. split; [by apply reachable_participantsDistinct|].
  split; [intros body conference; apply join_present|]. split.
  - intros now body reg1 reg2 reg3.
    pose proof (create_lookup now body reg) as H1. fold reg1 in H1.
    assert (H2 : reg2 !! Server.ConferenceName body
                 = Some (Server.pushParticipant
                           {| Server.id := Server.ConferenceName body;
                              Server.participants := [];
                              Server.moderator :=
                                if Server.isTrueString (Server.Moderator body)
                                then Some (Server.From body) else None;
                              Server.createdAt := now |}
                           (Server.From body))).
    { unfold reg2. rewrite (join_absent_participant _ _ _ H1).
      - apply lookup_insert_eq.
      - simpl. apply not_elem_of_nil. }
    assert (H3 : reg3 = reg2).
    { unfold reg3. apply (join_present _ _ _ H2). simpl.
      apply list_elem_of_here. }
    split; [done|]. by rewrite H3, H2.
  - intros D sdk s n d Hs. split; [by apply sessionReachable_NoDup|].
    intros Hin.
    pose proof (sessionReachable_prefixed s Hs n Hin) as Hn.
    unfold Voice.addParticipant. rewrite Hn. simpl negb. cbv iota.
    destruct (Voice.connect (Voice.participantCallOptions n s) d)
      as [[call|e] d']; [|reflexivity].
    cbv zeta.
    set (s' := Voice.withParticipants s
                 (JsMap.set n call (Voice.participants s))).
    split; [reflexivity|]. split; [apply get_set_eq|].
    assert (Hkeys : Voice.getParticipants s' = Voice.getParticipants s)
      by (by apply keys_set_present).
    split; [exact Hkeys|].
    unfold Voice.getParticipantCount, JsMap.size.
    unfold Voice.getParticipants, JsMap.keys in Hkeys.
    by rewrite <- !(List.length_map fst), Hkeys.
Qed.

Lemma present_participant_not_added_twice_witness :
  let body := {| Server.ConferenceName := "c1";
                 Server.Moderator := None;
                 Server.From := "+15550001" |} in
  let reg :=
    fst (Server.post_voice_conference_join body
           (fst (Server.post_voice_conference_create 1 body ∅))) in
  let n := "whatsapp:+15550001" in
  let s :=
    fst (snd (Voice.addParticipant n
                (Voice.newSession "c1" "whatsapp:+15550000")
                ([] : list Voice.Request))) in
  let d := [Voice.ReqConnect []] in
  let s' := Voice.withParticipants s [(n, {| Voice.CallSid := "CA1" |})] in
  (fst (Server.post_voice_conference_join body reg) = reg
   /\ Server.participants <$> reg !! "c1" = Some ["+15550001"])
  /\ (Voice.addParticipant n s d
      = (Js.Return tt,
         (s', d ++ [Voice.ReqConnect (Voice.participantCallOptions n s)]))
      /\ JsMap.get n (Voice.participants s')
         = Some {| Voice.CallSid := "CA1" |}
      /\ Voice.getParticipants s' = Voice.getParticipants s
      /\ Voice.getParticipantCount s' = Voice.getParticipantCount s).
Proof.
  intros body reg n s d s'.
  assert (Hreach : Server.reachable reg)
    by apply Server.reach_join, Server.reach_create, Server.reach_start.
  destruct (present_participant_not_added_twice reg Hreach)
    as (_ & Hpresent & _ & Hsession).
  split; [split|].
  - apply (Hpresent body {| Server.id := "c1";
                            Server.participants := ["+15550001"];
                            Server.moderator := None;
                            Server.createdAt := 1 |}).
    + vm_compute. reflexivity.
    + simpl. apply list_elem_of_here.
  - vm_compute. reflexivity.
  - assert (Hs : Voice.sessionReachable s)
      by apply Voice.sr_add, Voice.sr_new.
    destruct (Hsession (list Voice.Request) Voice.recordingDevice s n d Hs)
      as [_ Hagain].
    apply Hagain.
    apply (bool_decide_unpack _). vm_compute. exact I.
Defined.

(** C8: when the destination of a call does not begin with the channel
    prefix, [makeCall] throws the format error and leaves the whole state
    of the wrapper as it was: the device has received no request and the
    table of active calls is the same. *)
Theorem makeCall_rejects_before_connect
  (D : Type) (sdk : Voice.DeviceSDK D)
  (options : Voice.WhatsAppCallOptions) (w : Voice.WhatsAppVoice D) :
  Js.startsWith (Voice.to options) "whatsapp:" = false ->
  Voice.makeCall options w = (Js.Throw Voice.invalidFormat, w).
Proof.
  intros Hto. unfold Voice.makeCall.
  (* the guard [!options.to.startsWith('whatsapp:')] holds *)
  rewrite Hto. reflexivity.
Qed.

Lemma makeCall_rejects_before_connect_witness :
  let options := {| Voice.to := "+15550001";
                    Voice.from := None;
                    Voice.customParameters := Some [("topic", "billing")] |} in
  let w := {| Voice.device := ([] : list Voice.Request);
              Voice.config_whatsappSender := "whatsapp:+15550000";
              Voice.activeCalls := [];
              Voice.activeConferences := [] |} in
  Voice.makeCall options w = (Js.Throw Voice.invalidFormat, w).
Proof.
  intros options w.
  apply (makeCall_rejects_before_connect (list Voice.Request)
           Voice.recordingDevice options w).
  reflexivity.
Defined.

(** C9: [removeParticipant] with an address that is not among the
    participants of the session returns normally and leaves the session,
    and the device, as they were. *)
Theorem removeParticipant_absent_changes_nothing
  (D : Type) (sdk : Voice.DeviceSDK D)
  (n : string) (s : Voice.ConferenceSession) (d : D) :
  n ∉ Voice.getParticipants s ->
  Voice.removeParticipant n s d = (Js.Return tt, (s, d)).
Proof.
  (* [this.participants.get(n)] is [undefined] *)
  intros Hget%get_None_keys. unfold Voice.removeParticipant.
  rewrite Hget. reflexivity.
Qed.

Lemma removeParticipant_absent_changes_nothing_witness :
  let s := {| Voice.conferenceId := "c1";
              Voice.whatsappSender := "whatsapp:+15550000";
              Voice.participants :=
                [("whatsapp:+15550001", {| Voice.CallSid := "CA1" |})];
              Voice.conferenceCall := Some {| Voice.CallSid := "CA0" |} |} in
  let d := [Voice.ReqConnect []; Voice.ReqConnect []] in
  Voice.removeParticipant "+19999999999" s d = (Js.Return tt, (s, d)).
Proof.
  intros s d.
  apply (removeParticipant_absent_changes_nothing (list Voice.Request)
           Voice.recordingDevice "+19999999999" s d).
  apply (bool_decide_unpack _). vm_compute. exact I.
Defined.

(** C10: [muteParticipant] and [unmuteParticipant] with an address that is
    not among the participants of the session return normally and leave the
    session and the device as they were: no mute request is sent and the
    mute state of every call, which the device holds, is the same. *)
Theorem mute_unmute_absent_change_nothing
  (D : Type) (sdk : Voice.DeviceSDK D)
  (n : string) (s : Voice.ConferenceSession) (d : D) :
  n ∉ Voice.getParticipants s ->
  Voice.muteParticipant n s d = (Js.Return tt, (s, d))
  /\ Voice.unmuteParticipant n s d = (Js.Return tt, (s, d)).
Proof.
  intros Hget%get_None_keys.
  unfold Voice.muteParticipant, Voice.unmuteParticipant.
  rewrite Hget. split; reflexivity.
Qed.

Lemma mute_unmute_absent_change_nothing_witness :
  let s := {| Voice.conferenceId := "c1";
              Voice.whatsappSender := "whatsapp:+15550000";
              Voice.participants :=
                [("whatsapp:+15550001", {| Voice.CallSid := "CA1" |})];
              Voice.conferenceCall := Some {| Voice.CallSid := "CA0" |} |} in
  let d := [Voice.ReqConnect []; Voice.ReqConnect []] in
  Voice.muteParticipant "whatsapp:+15550002" s d = (Js.Return tt, (s, d))
  /\ Voice.unmuteParticipant "whatsapp:+15550002" s d
     = (Js.Return tt, (s, d)).
Proof.
  intros s d.
  apply (mute_unmute_absent_change_nothing (list Voice.Request)
           Voice.recordingDevice "whatsapp:+15550002" s d).
  apply (bool_decide_unpack _). vm_compute. exact I.
Defined.

(* ===================================================================== *)
(** * Further properties *)
(* ===================================================================== *)

(** ** Insertion-ordered maps, continued *)

Section JsMapMoreFacts.
Context {V : Type}.
Implicit Types (m : list (string * V)) (k : string) (v : V).

Lemma get_set_ne k k' v m :
  k <> k' -> JsMap.get k' (JsMap.set k v m) = JsMap.get k' m.
Proof.
  intros Hne. induction m as [|[k0 v0] m IH]; simpl.
  - destruct (String.eqb_spec k k'); [done|reflexivity].
  - destruct (String.eqb_spec k0 k) as [->|Hk]; simpl.
    + destruct (String.eqb_spec k k'); [done|reflexivity].
    + destruct (String.eqb_spec k0 k'); [reflexivity|exact IH].
Qed.

Lemma get_delete_ne k k' m :
  k <> k' -> JsMap.get k' (JsMap.delete k m) = JsMap.get k' m.
Proof.
  intros Hne. induction m as [|[k0 v0] m IH]; simpl; [done|].
  destruct (String.eqb_spec k0 k) as [->|Hk]; simpl.
  - destruct (String.eqb_spec k k'); [done|reflexivity].
  - destruct (String.eqb_spec k0 k'); [reflexivity|exact IH].
Qed.

Lemma delete_absent k m : k ∉ JsMap.keys m -> JsMap.delete k m = m.
Proof.
  induction m as [|[k0 v0] m IH]; simpl; [done|].
  intros [Hne Hin]%not_elem_of_cons.
  destruct (String.eqb_spec k0 k) as [->|_]; [done|]. f_equal. by apply IH.
Qed.

Lemma keys_delete_absent k m :
  NoDup (JsMap.keys m) -> k ∉ JsMap.keys (JsMap.delete k m).
Proof.
  induction m as [|[k0 v0] m IH]; simpl; [intros _; apply not_elem_of_nil|].
  intros [Hin Hnd]%NoDup_cons.
  destruct (String.eqb_spec k0 k) as [->|Hne]; [done|]. simpl.
  apply not_elem_of_cons. split; [congruence|by apply IH].
Qed.

Lemma get_delete_eq k m :
  NoDup (JsMap.keys m) -> JsMap.get k (JsMap.delete k m) = None.
Proof. intros Hnd. by apply get_None_keys, keys_delete_absent. Qed.

Lemma delete_set_new k v m :
  k ∉ JsMap.keys m -> JsMap.delete k (JsMap.set k v m) = m.
Proof.
  induction m as [|[k0 v0] m IH]; simpl.
  - intros _. by rewrite String.eqb_refl.
  - intros [Hne Hin]%not_elem_of_cons.
    destruct (String.eqb_spec k0 k) as [->|_]; [done|]. simpl.
    destruct (String.eqb_spec k0 k) as [->|_]; [done|]. f_equal. by apply IH.
Qed.

Lemma Forall_set (P : string * V -> Prop) k v m :
  P (k, v) -> Forall P m -> Forall P (JsMap.set k v m).
Proof.
  intros Hp. induction 1 as [|[k0 v0] m H0 Hm IH]; simpl.
  - by repeat constructor.
  - destruct (String.eqb_spec k0 k) as [->|_]; constructor; done.
Qed.

Lemma Forall_delete (P : string * V -> Prop) k m :
  Forall P m -> Forall P (JsMap.delete k m).
Proof.
  induction 1 as [|[k0 v0] m H0 Hm IH]; simpl; [constructor|].
  destruct (String.eqb_spec k0 k); [done|by constructor].
Qed.

Lemma get_Some_elem k v m : JsMap.get k m = Some v -> (k, v) ∈ m.
Proof.
  induction m as [|[k0 v0] m IH]; simpl; [discriminate|].
  destruct (String.eqb_spec k0 k) as [->|_].
  - intros [= ->]. apply list_elem_of_here.
  - intros Hg. by apply list_elem_of_further, IH.
Qed.

End JsMapMoreFacts.

(** ** WhatsAppVoice: the two tables *)

Section RegistryFacts.
Import Js Voice VoiceRegistry.
Context {D : Type} `{DeviceSDK D}.
Variable deviceDestroy : D -> D.

Lemma addParticipant_conferenceId (n : string) (s : ConferenceSession)
  (d : D) :
  conferenceId (fst (snd (addParticipant n s d))) = conferenceId s.
Proof.
  unfold addParticipant. destruct (negb _); [done|].
  by destruct (connect _ d) as [[call|e] d1].
Qed.

Lemma makeCall_consistent (options : WhatsAppCallOptions)
  (w : WhatsAppVoice D) :
  registriesConsistent w -> registriesConsistent (snd (makeCall options w)).
Proof.
  intros (Hc & Hs & Hnc & Hns). unfold makeCall.
  destruct (negb _); [done|].
  destruct (connect _ (device w)) as [[call|e] d1]; simpl; [|done].
  repeat split; simpl; [by apply Forall_set|done|by apply keys_set_NoDup|done].
Qed.

Lemma createConference_consistent (options : ConferenceOptions)
  (w : WhatsAppVoice D) :
  registriesConsistent w ->
  registriesConsistent (snd (createConference options w)).
Proof.
  intros (Hc & Hs & Hnc & Hns).
  destruct (createConference options w) as [[conference|e] w'] eqn:Hcreate.
  - pose proof (createConference_Return _ _ _ _ Hcreate) as (_ & Hid & _).
    revert Hcreate. unfold createConference.
    destruct (initialize _ _ _) as [[u|e] [s1 d1]]; [|discriminate].
    intros [= -> <-]. repeat split; simpl;
      [done|by apply Forall_set|done|by apply keys_set_NoDup].
  - revert Hcreate. unfold createConference.
    destruct (initialize _ _ _) as [[u|e0] [s1 d1]]; [discriminate|].
    by intros [= _ <-].
Qed.

Lemma joinConference_consistent (id participant : string)
  (w : WhatsAppVoice D) :
  registriesConsistent w ->
  registriesConsistent (snd (joinConference id participant w)).
Proof.
  intros (Hc & Hs & Hnc & Hns). unfold joinConference.
  destruct (JsMap.get id (activeConferences w)) as [conference|] eqn:Hget;
    [|done].
  pose proof (addParticipant_conferenceId participant conference (device w))
    as Hid.
  destruct (addParticipant participant conference (device w))
    as [r [conference' d1]]. simpl in *.
  repeat split; simpl; [done| |done|by apply keys_set_NoDup].
  apply Forall_set; [|done]. simpl. rewrite Hid.
  apply get_Some_elem in Hget. rewrite Forall_forall in Hs.
  apply (Hs _ Hget).
Qed.

Lemma endConference_consistent (id : string) (w : WhatsAppVoice D) :
  registriesConsistent w -> registriesConsistent (endConference id w).
Proof.
  intros (Hc & Hs & Hnc & Hns). unfold endConference.
  destruct (JsMap.get id (activeConferences w)); [|done].
  repeat split; simpl;
    [done|by apply Forall_delete|done|by apply keys_delete_NoDup].
Qed.

Lemma deleteCall_consistent (sid : string) (d : D) (w : WhatsAppVoice D) :
  registriesConsistent w ->
  registriesConsistent
    (withCalls (withDevice w d) (JsMap.delete sid (activeCalls w))).
Proof.
  intros (Hc & Hs & Hnc & Hns).
  repeat split; simpl;
    [by apply Forall_delete|done|by apply keys_delete_NoDup|done].
Qed.

Lemma perform_consistent (a : Action) (w : WhatsAppVoice D) :
  registriesConsistent w -> registriesConsistent (perform deviceDestroy a w).
Proof.
  intros Hw. destruct a as [o|o|id p|id|sid|c|c|c| ]; simpl.
  - by apply makeCall_consistent.
  - by apply createConference_consistent.
  - by apply joinConference_consistent.
  - by apply endConference_consistent.
  - unfold disconnectCall. destruct (JsMap.get sid (activeCalls w)); [|done].
    by apply deleteCall_consistent.
  - destruct Hw as (Hc & Hs & Hnc & Hns).
    repeat split; simpl; [by apply Forall_set|done|by apply keys_set_NoDup|done].
  - destruct w as [d cfg calls confs].
    by apply (deleteCall_consistent (CallSid c) d) in Hw.
  - destruct w as [d cfg calls confs].
    by apply (deleteCall_consistent (CallSid c) d) in Hw.
  - repeat split; simpl; constructor.
Qed.

Lemma wrapperReachable_consistent (w : WhatsAppVoice D) :
  wrapperReachable deviceDestroy w -> registriesConsistent w.
Proof.
  induction 1 as [d sender|a w _ IH].
  - repeat split; simpl; constructor.
  - by apply perform_consistent.
Qed.

End RegistryFacts.

Section WrapperFacts.
Import Js Voice VoiceRegistry.
Context {D : Type} `{DeviceSDK D}.

Lemma get_spread (k : string) (base extra : list (string * string)) :
  NoDup (JsMap.keys extra) ->
  JsMap.get k (spread base (Some extra))
  = match JsMap.get k extra with
    | Some v => Some v
    | None => JsMap.get k base
    end.
Proof.
  unfold spread. simpl. revert base.
  induction extra as [|[k0 v0] extra IH]; intros base Hnd; simpl; [done|].
  apply NoDup_cons in Hnd as [Hk0 Hnd]. rewrite IH by done.
  destruct (String.eqb_spec k0 k) as [->|Hne].
  - assert (Hg : JsMap.get k extra = None) by (apply get_None_keys; exact Hk0).
    rewrite Hg. apply get_set_eq.
  - destruct (JsMap.get k extra); [done|]. by apply get_set_ne.
Qed.

Lemma withCalls_same (w : WhatsAppVoice D) : withCalls w (activeCalls w) = w.
Proof. by destruct w. Qed.

Lemma withParticipants_same (s : ConferenceSession) :
  withParticipants s (participants s) = s.
Proof. by destruct s. Qed.

End WrapperFacts.

(** X1: in every state a wrapper can reach, each key of [activeCalls] is
    the [CallSid] of the call stored under it, each key of
    [activeConferences] is the [conferenceId] of the session stored under
    it, and no key occurs twice in either table. *)
Theorem wrapper_tables_keyed_by_id
  (D : Type) (sdk : Voice.DeviceSDK D) (deviceDestroy : D -> D)
  (w : Voice.WhatsAppVoice D) :
  VoiceRegistry.wrapperReachable deviceDestroy w ->
  VoiceRegistry.registriesConsistent w.
Proof.
  induction 1 as [d sender|a w _ IH].
  - repeat split; simpl; constructor.
  - by apply perform_consistent.
Qed.

Lemma wrapper_tables_keyed_by_id_witness :
  let w0 := VoiceRegistry.newWhatsAppVoice ([] : list Voice.Request)
              "whatsapp:+15550000" in
  let call := VoiceRegistry.AMakeCall
                {| Voice.to := "whatsapp:+15550001";
                   Voice.from := None;
                   Voice.customParameters := None |} in
  let conf := VoiceRegistry.ACreateConference
                {| Voice.co_conferenceId := "c1";
                   Voice.co_participants := ["whatsapp:+15550002"];
                   Voice.co_moderator := None;
                   Voice.co_muted := None;
                   Voice.co_hold := None |} in
  VoiceRegistry.registriesConsistent
    (VoiceRegistry.perform (fun d => d) conf
       (VoiceRegistry.perform (fun d => d) call w0)).
Proof.
  intros w0 call conf.
  apply (wrapper_tables_keyed_by_id (list Voice.Request)
           Voice.recordingDevice (fun d => d)).
  apply VoiceRegistry.wr_step, VoiceRegistry.wr_step, VoiceRegistry.wr_new.
Defined.

(** X2: [endConference] removes the entry of the conference and nothing
    else from the tables; ending it again, or ending a conference that is
    not there, changes nothing and sends nothing. *)
Theorem endConference_removes_once
  (D : Type) (sdk : Voice.DeviceSDK D) (deviceDestroy : D -> D)
  (id : string) (w : Voice.WhatsAppVoice D) :
  VoiceRegistry.wrapperReachable deviceDestroy w ->
  let w1 := VoiceRegistry.endConference id w in
  JsMap.get id (Voice.activeConferences w1) = None
  /\ VoiceRegistry.endConference id w1 = w1
  /\ (forall other : string,
        other <> id ->
        JsMap.get other (Voice.activeConferences w1)
        = JsMap.get other (Voice.activeConferences w))
  /\ Voice.activeCalls w1 = Voice.activeCalls w
  /\ (JsMap.get id (Voice.activeConferences w) = None -> w1 = w).
Proof.
  intros Hreach w1.
  pose proof (wrapperReachable_consistent deviceDestroy w Hreach)
    as (_ & _ & _ & Hnd).
  assert (Hgone : JsMap.get id (Voice.activeConferences w1) = None).
  { unfold w1, VoiceRegistry.endConference.
    destruct (JsMap.get id (Voice.activeConferences w)) eqn:Hget; [|done].
    simpl. by apply get_delete_eq. }
  split; [done|]. split; [|split; [|split]].
  - unfold VoiceRegistry.endConference at 1. by rewrite Hgone.
  - intros other Hne. unfold w1, VoiceRegistry.endConference.
    destruct (JsMap.get id (Voice.activeConferences w)); [|done].
    simpl. by apply get_delete_ne.
  - unfold w1, VoiceRegistry.endConference.
    by destruct (JsMap.get id (Voice.activeConferences w)).
  - intros Hnone. unfold w1, VoiceRegistry.endConference. by rewrite Hnone.
Qed.

Lemma endConference_removes_once_witness :
  let w0 := VoiceRegistry.newWhatsAppVoice ([] : list Voice.Request)
              "whatsapp:+15550000" in
  let conf := VoiceRegistry.ACreateConference
                {| Voice.co_conferenceId := "c1";
                   Voice.co_participants := ["whatsapp:+15550002"];
                   Voice.co_moderator := None;
                   Voice.co_muted := None;
                   Voice.co_hold := None |} in
  let w := VoiceRegistry.perform (fun d => d) conf w0 in
  let w1 := VoiceRegistry.endConference "c1" w in
  JsMap.get "c1" (Voice.activeConferences w) <> None
  /\ JsMap.get "c1" (Voice.activeConferences w1) = None
  /\ VoiceRegistry.endConference "c1" w1 = w1.
Proof.
  intros w0 conf w w1. split; [discriminate|].
  assert (Hreach : VoiceRegistry.wrapperReachable (fun d => d) w)
    by apply VoiceRegistry.wr_step, VoiceRegistry.wr_new.
  destruct (endConference_removes_once (list Voice.Request)
              Voice.recordingDevice (fun d => d) "c1" w Hreach)
    as (Hgone & Hagain & _).
  split; [exact Hgone|exact Hagain].
Defined.

(** X3: [disconnectCall] disconnects the call stored under the sid and
    removes its entry, leaving the other calls and the conferences as they
    are; for a sid that is not in the table, and so also when repeated, it
    changes nothing and sends nothing. *)
Theorem disconnectCall_removes_once
  (D : Type) (sdk : Voice.DeviceSDK D) (deviceDestroy : D -> D)
  (sid : string) (w : Voice.WhatsAppVoice D) :
  VoiceRegistry.wrapperReachable deviceDestroy w ->
  let w1 := VoiceRegistry.disconnectCall sid w in
  JsMap.get sid (Voice.activeCalls w1) = None
  /\ VoiceRegistry.disconnectCall sid w1 = w1
  /\ (forall other : string,
        other <> sid ->
        JsMap.get other (Voice.activeCalls w1)
        = JsMap.get other (Voice.activeCalls w))
  /\ Voice.activeConferences w1 = Voice.activeConferences w
  /\ (forall call : Voice.Call,
        JsMap.get sid (Voice.activeCalls w) = Some call ->
        Voice.device w1 = Voice.callDisconnect call (Voice.device w))
  /\ (JsMap.get sid (Voice.activeCalls w) = None -> w1 = w).
Proof.
  intros Hreach w1.
  pose proof (wrapperReachable_consistent deviceDestroy w Hreach)
    as (_ & _ & Hnd & _).
  assert (Hgone : JsMap.get sid (Voice.activeCalls w1) = None).
  { unfold w1, VoiceRegistry.disconnectCall.
    destruct (JsMap.get sid (Voice.activeCalls w)) eqn:Hget; [|done].
    simpl. by apply get_delete_eq. }
  split; [done|]. split; [|split; [|split; [|split]]].
  - unfold VoiceRegistry.disconnectCall at 1. by rewrite Hgone.
  - intros other Hne. unfold w1, VoiceRegistry.disconnectCall.
    destruct (JsMap.get sid (Voice.activeCalls w)); [|done].
    simpl. by apply get_delete_ne.
  - unfold w1, VoiceRegistry.disconnectCall.
    by destruct (JsMap.get sid (Voice.activeCalls w)).
  - intros call Hget. unfold w1, VoiceRegistry.disconnectCall.
    by rewrite Hget.
  - intros Hnone. unfold w1, VoiceRegistry.disconnectCall. by rewrite Hnone.
Qed.

Lemma disconnectCall_removes_once_witness :
  let w0 := VoiceRegistry.newWhatsAppVoice ([] : list Voice.Request)
              "whatsapp:+15550000" in
  let call := VoiceRegistry.AMakeCall
                {| Voice.to := "whatsapp:+15550001";
                   Voice.from := None;
                   Voice.customParameters := None |} in
  let w := VoiceRegistry.perform (fun d => d) call w0 in
  let w1 := VoiceRegistry.disconnectCall "CA0" w in
  JsMap.get "CA0" (Voice.activeCalls w) = Some {| Voice.CallSid := "CA0" |}
  /\ JsMap.get "CA0" (Voice.activeCalls w1) = None
  /\ VoiceRegistry.disconnectCall "CA0" w1 = w1
  /\ Voice.device w1
     = Voice.device w ++ [Voice.ReqDisconnect {| Voice.CallSid := "CA0" |}].
Proof.
  intros w0 call w w1. split; [reflexivity|].
  assert (Hreach : VoiceRegistry.wrapperReachable (fun d => d) w)
    by apply VoiceRegistry.wr_step, VoiceRegistry.wr_new.
  destruct (disconnectCall_removes_once (list Voice.Request)
              Voice.recordingDevice (fun d => d) "CA0" w Hreach)
    as (Hgone & Hagain & _ & _ & Hdev & _).
  split; [exact Hgone|]. split; [exact Hagain|].
  apply (Hdev {| Voice.CallSid := "CA0" |}). reflexivity.
Defined.

(** X4: [makeCall] with a prefixed destination sends one request whose
    [To] and [From] are the validated destination and the sender, unless
    the custom parameters carry a [To] or [From] of their own, which then
    replace them; when the device returns a call, the call is stored under
    its [CallSid] and the conferences are untouched. *)
Theorem makeCall_request_and_registration
  (D : Type) (sdk : Voice.DeviceSDK D)
  (options : Voice.WhatsAppCallOptions) (w : Voice.WhatsAppVoice D) :
  Js.startsWith (Voice.to options) "whatsapp:" = true ->
  NoDup (JsMap.keys (TwiMLTemplates.entriesOf (Voice.customParameters options))) ->
  let params := VoiceRegistry.callOptions options w in
  let custom := TwiMLTemplates.entriesOf (Voice.customParameters options) in
  fst (Voice.makeCall options w) = fst (Voice.connect params (Voice.device w))
  /\ Voice.device (snd (Voice.makeCall options w))
     = snd (Voice.connect params (Voice.device w))
  /\ JsMap.get "To" params
     = Some (default (Voice.to options) (JsMap.get "To" custom))
  /\ JsMap.get "From" params
     = Some (default (Js.orDefault (Voice.from options)
                        (Voice.config_whatsappSender w))
                     (JsMap.get "From" custom))
  /\ (forall call : Voice.Call,
        fst (Voice.makeCall options w) = Js.Return call ->
        JsMap.get (Voice.CallSid call)
          (Voice.activeCalls (snd (Voice.makeCall options w))) = Some call
        /\ Voice.activeConferences (snd (Voice.makeCall options w))
           = Voice.activeConferences w).
Proof.
  intros Hto Hnd params custom.
  assert (Hget : forall k,
    JsMap.get k params
    = match JsMap.get k custom with
      | Some v => Some v
      | None => JsMap.get k
                  [("To", Voice.to options);
                   ("From", Js.orDefault (Voice.from options)
                              (Voice.config_whatsappSender w))]
      end).
  { intros k. unfold params, VoiceRegistry.callOptions, custom.
    destruct (Voice.customParameters options) as [extra|]; simpl in *.
    - by apply get_spread.
    - reflexivity. }
  unfold Voice.makeCall. rewrite Hto. simpl negb. cbv iota.
  fold (VoiceRegistry.callOptions options w). fold params.
  destruct (Voice.connect params (Voice.device w)) as [[call|e] d1] eqn:Hc;
    simpl; (split; [done|]); (split; [done|]);
    (split; [rewrite Hget; by destruct (JsMap.get "To" custom)|]);
    (split; [rewrite Hget; by destruct (JsMap.get "From" custom)|]).
  - intros c [= <-]. split; [apply get_set_eq|done].
  - intros c. discriminate.
Qed.

Lemma makeCall_request_and_registration_witness :
  let options := {| Voice.to := "whatsapp:+15550001";
                    Voice.from := None;
                    Voice.customParameters :=
                      Some [("To", "whatsapp:+19990000"); ("k", "v")] |} in
  let w := VoiceRegistry.newWhatsAppVoice ([] : list Voice.Request)
             "whatsapp:+15550000" in
  JsMap.get "To" (VoiceRegistry.callOptions options w)
  = Some "whatsapp:+19990000"
  /\ JsMap.get "From" (VoiceRegistry.callOptions options w)
     = Some "whatsapp:+15550000".
Proof.
  intros options w.
  assert (Hto : Js.startsWith (Voice.to options) "whatsapp:" = true)
    by reflexivity.
  assert (Hnd : NoDup (JsMap.keys (TwiMLTemplates.entriesOf
                                      (Voice.customParameters options)))).
  { apply (bool_decide_unpack _). vm_compute. exact I. }
  destruct (makeCall_request_and_registration (list Voice.Request)
              Voice.recordingDevice options w Hto Hnd)
    as (_ & _ & HTo & HFrom & _).
  split; [exact HTo|exact HFrom].
Defined.

Section RecordingFacts.
Import Js Voice.

(** On the recording device, the loop over the initial participants
    dials the well-formed addresses in turn and stops at the first
    malformed one. *)
Lemma addParticipants_stops (good : list string) (bad : string)
  (rest : list string) (s : ConferenceSession) (log : list Request) :
  Forall (fun n => startsWith n "whatsapp:" = true) good ->
  startsWith bad "whatsapp:" = false ->
  exists s',
    addParticipants (good ++ bad :: rest) s log
    = (Throw invalidFormat,
       (s', log ++ map (fun n => ReqConnect (participantCallOptions n s)) good)).
Proof.
  intros Hgood Hbad. revert s log.
  induction Hgood as [|g good Hg _ IH]; intros s log; simpl.
  - exists s. unfold addParticipant. rewrite Hbad. simpl.
    by rewrite (right_id_L [] (++)).
  - unfold addParticipant at 1. rewrite Hg. simpl.
    match goal with |- context [addParticipants _ ?s1 ?log1] =>
      destruct (IH s1 log1) as [s' ->] end.
    exists s'. by rewrite <- (assoc_L (++)).
Qed.

End RecordingFacts.

(** X5: when [createConference] throws, nothing is registered: both
    tables are as before.  The calls placed until then stay placed: on the
    recording device, with a malformed address among the initial
    participants, the device has received the request for the conference
    call and one request for each participant before the malformed one,
    and [createConference] throws the format error. *)
Theorem createConference_failure_registers_nothing :
  (forall (D : Type) (sdk : Voice.DeviceSDK D)
          (options : Voice.ConferenceOptions) (w w' : Voice.WhatsAppVoice D)
          (e : Js.Error),
     Voice.createConference options w = (Js.Throw e, w') ->
     Voice.activeCalls w' = Voice.activeCalls w
     /\ Voice.activeConferences w' = Voice.activeConferences w
     /\ Voice.config_whatsappSender w' = Voice.config_whatsappSender w)
  /\ (forall (options : Voice.ConferenceOptions)
             (w : Voice.WhatsAppVoice (list Voice.Request))
             (good : list string) (bad : string) (rest : list string),
        Voice.co_participants options = good ++ bad :: rest ->
        Forall (fun n => Js.startsWith n "whatsapp:" = true) good ->
        Js.startsWith bad "whatsapp:" = false ->
        let session :=
          Voice.newSession (Voice.co_conferenceId options)
            (Voice.config_whatsappSender w) in
        Voice.createConference options w
        = (Js.Throw Voice.invalidFormat,
           Voice.withDevice w
             (Voice.device w
              ++ Voice.ReqConnect
                   [("ConferenceName", Voice.co_conferenceId options);
                    ("From", Voice.config_whatsappSender w);
                    ("Action", "create_conference");
                    ("Moderator",
                     match Voice.co_moderator options with
                     | Some true => "true"
                     | _ => "false"
                     end)]
                 :: map (fun n =>
                           Voice.ReqConnect
                             (Voice.participantCallOptions n session))
                        good))).
Proof.
  split.
  - intros D sdk options w w' e. unfold Voice.createConference.
    destruct (Voice.initialize _ _ _) as [[u|e0] [s1 d1]]; [discriminate|].
    by intros [= _ <-].
  - intros options w good bad rest Hps Hgood Hbad session.
    unfold Voice.createConference, Voice.initialize. fold session.
    rewrite Hps. simpl.
    match goal with |- context [Voice.addParticipants _ ?s1 ?log1] =>
      destruct (addParticipants_stops good bad rest s1 log1 Hgood Hbad)
        as [s' ->] end.
    by rewrite <- (assoc_L (++)).
Qed.

Lemma createConference_failure_registers_nothing_witness :
  let options := {| Voice.co_conferenceId := "c1";
                    Voice.co_participants :=
                      ["whatsapp:+15550001"; "+15550002"; "whatsapp:+15550003"];
                    Voice.co_moderator := None;
                    Voice.co_muted := None;
                    Voice.co_hold := None |} in
  let w := VoiceRegistry.newWhatsAppVoice ([] : list Voice.Request)
             "whatsapp:+15550000" in
  fst (Voice.createConference options w) = Js.Throw Voice.invalidFormat
  /\ Voice.activeConferences (snd (Voice.createConference options w)) = []
  /\ length (Voice.device (snd (Voice.createConference options w))) = 2.
Proof.
  intros options w.
  destruct createConference_failure_registers_nothing as [Hany Hrec].
  assert (Hrun := Hrec options w ["whatsapp:+15550001"] "+15550002"
                    ["whatsapp:+15550003"] eq_refl).
  rewrite Hrun; [|repeat constructor|reflexivity].
  split; [reflexivity|]. split; [|reflexivity].
  destruct (Hany (list Voice.Request) Voice.recordingDevice options w
              (snd (Voice.createConference options w)) Voice.invalidFormat)
    as (_ & Hconfs & _); [reflexivity|].
  rewrite Hrun in Hconfs; [exact Hconfs|repeat constructor|reflexivity].
Defined.

(** X6: in every state the wrapper can reach, an incoming call is stored
    under its [CallSid] and the other entries stay as they are.  When the
    [disconnect] or the [error] event of a call arrives, whatever has
    happened since the call came in, the entry under its [CallSid] is
    removed and no other; the two events do the same.  None of the three
    listeners asks anything of the device or touches the conferences.  If
    the sid was not in the table before the call came in and the event
    follows at once, the wrapper is back in the state it had before. *)
Theorem incoming_call_registered_until_it_ends
  (D : Type) (sdk : Voice.DeviceSDK D) (deviceDestroy : D -> D)
  (call : Voice.Call) (w : Voice.WhatsAppVoice D) :
  VoiceRegistry.wrapperReachable deviceDestroy w ->
  let sid := Voice.CallSid call in
  let arrived := VoiceRegistry.onIncoming call w in
  let ended := VoiceRegistry.onCallDisconnect call w in
  (JsMap.get sid (Voice.activeCalls arrived) = Some call
   /\ (forall other : string,
         other <> sid ->
         JsMap.get other (Voice.activeCalls arrived)
         = JsMap.get other (Voice.activeCalls w))
   /\ Voice.device arrived = Voice.device w
   /\ Voice.activeConferences arrived = Voice.activeConferences w)
  /\ (JsMap.get sid (Voice.activeCalls ended) = None
      /\ (forall other : string,
            other <> sid ->
            JsMap.get other (Voice.activeCalls ended)
            = JsMap.get other (Voice.activeCalls w))
      /\ Voice.device ended = Voice.device w
      /\ Voice.activeConferences ended = Voice.activeConferences w
      /\ VoiceRegistry.onCallError call w = ended)
  /\ (sid ∉ JsMap.keys (Voice.activeCalls w) ->
      VoiceRegistry.onCallDisconnect call arrived = w
      /\ VoiceRegistry.onCallError call arrived = w).
Proof.
  intros Hreach sid arrived ended.
  pose proof (wrapperReachable_consistent deviceDestroy w Hreach)
    as (_ & _ & Hnd & _).
  split; [|split].
  - split; [apply get_set_eq|]. split; [|by split].
    intros other Hne. unfold arrived, VoiceRegistry.onIncoming. simpl.
    by apply get_set_ne.
  - split; [by apply get_delete_eq|]. split; [|by repeat split].
    intros other Hne. unfold ended, VoiceRegistry.onCallDisconnect. simpl.
    by apply get_delete_ne.
  - intros Hnew.
    unfold arrived, VoiceRegistry.onCallDisconnect, VoiceRegistry.onCallError,
      VoiceRegistry.onIncoming.
    simpl. fold sid. rewrite delete_set_new by done. destruct w. by split.
Qed.

Lemma incoming_call_registered_until_it_ends_witness :
  let w0 := VoiceRegistry.newWhatsAppVoice ([] : list Voice.Request)
              "whatsapp:+15550000" in
  let first := {| Voice.CallSid := "CA1" |} in
  let second := {| Voice.CallSid := "CA2" |} in
  let w := VoiceRegistry.perform (fun d => d) (VoiceRegistry.AIncoming second)
             (VoiceRegistry.perform (fun d => d)
                (VoiceRegistry.AIncoming first) w0) in
  let ended := VoiceRegistry.onCallDisconnect first w in
  JsMap.get "CA1" (Voice.activeCalls w) = Some first
  /\ JsMap.get "CA1" (Voice.activeCalls ended) = None
  /\ JsMap.get "CA2" (Voice.activeCalls ended) = Some second
  /\ Voice.device ended = [].
Proof.
  intros w0 first second w ended. split; [reflexivity|].
  assert (Hreach : VoiceRegistry.wrapperReachable (fun d => d) w)
    by apply VoiceRegistry.wr_step, VoiceRegistry.wr_step,
         VoiceRegistry.wr_new.
  destruct (incoming_call_registered_until_it_ends (list Voice.Request)
              Voice.recordingDevice (fun d => d) first w Hreach)
    as (_ & (Hgone & Hothers & Hdevice & _) & _).
  split; [exact Hgone|]. split; [|exact Hdevice].
  unfold ended. rewrite (Hothers "CA2"); [reflexivity|discriminate].
Defined.

(** X7: [joinConference] on an id that is not in the table throws the
    not-found error, asks nothing of the device and changes nothing; on an
    id that is there and with a participant that is added, the session in
    the table afterwards holds the participant and keeps its id. *)
Theorem joinConference_known_and_unknown
  (D : Type) (sdk : Voice.DeviceSDK D)
  (id participant : string) (w : Voice.WhatsAppVoice D) :
  (JsMap.get id (Voice.activeConferences w) = None ->
   Voice.joinConference id participant w
   = (Js.Throw (Js.ErrorMsg ("Conference " +:+ id +:+ " not found")), w))
  /\ (forall conference : Voice.ConferenceSession,
        JsMap.get id (Voice.activeConferences w) = Some conference ->
        fst (Voice.joinConference id participant w) = Js.Return tt ->
        exists conference',
          JsMap.get id
            (Voice.activeConferences
               (snd (Voice.joinConference id participant w)))
          = Some conference'
          /\ participant ∈ Voice.getParticipants conference'
          /\ Voice.conferenceId conference' = Voice.conferenceId conference).
Proof.
  split.
  - intros Hnone. unfold Voice.joinConference. by rewrite Hnone.
  - intros conference Hget. unfold Voice.joinConference. rewrite Hget.
    destruct (Voice.addParticipant participant conference (Voice.device w))
      as [r [conference' d1]] eqn:Hadd. simpl. intros ->.
    exists conference'. split; [apply get_set_eq|].
    apply addParticipant_Return in Hadd as (_ & call & ->). split; [|done].
    apply get_Some_keys. unfold Voice.withParticipants. simpl.
    rewrite get_set_eq. eauto.
Qed.

Lemma joinConference_known_and_unknown_witness :
  let s := {| Voice.conferenceId := "c1";
              Voice.whatsappSender := "whatsapp:+15550000";
              Voice.participants := [];
              Voice.conferenceCall := None |} in
  let w := {| Voice.device := ([] : list Voice.Request);
              Voice.config_whatsappSender := "whatsapp:+15550000";
              Voice.activeCalls := [];
              Voice.activeConferences := [("c1", s)] |} in
  Voice.joinConference "c2" "whatsapp:+15550001" w
  = (Js.Throw (Js.ErrorMsg "Conference c2 not found"), w)
  /\ exists conference',
       JsMap.get "c1"
         (Voice.activeConferences
            (snd (Voice.joinConference "c1" "whatsapp:+15550001" w)))
       = Some conference'
       /\ "whatsapp:+15550001" ∈ Voice.getParticipants conference'
       /\ Voice.conferenceId conference' = "c1".
Proof.
  intros s w. split.
  - destruct (joinConference_known_and_unknown (list Voice.Request)
                Voice.recordingDevice "c2" "whatsapp:+15550001" w)
      as [Hunknown _].
    apply Hunknown. reflexivity.
  - destruct (joinConference_known_and_unknown (list Voice.Request)
                Voice.recordingDevice "c1" "whatsapp:+15550001" w)
      as [_ Hknown].
    apply (Hknown s); reflexivity.
Defined.

(** ** ConferenceSession: adding, removing, ending *)

Section SessionMoreFacts.
Import Js Voice.

Lemma set_new_snoc {V} (k : string) (v : V) (m : list (string * V)) :
  k ∉ JsMap.keys m -> JsMap.set k v m = m ++ [(k, v)].
Proof.
  induction m as [|[k0 v0] m IH]; simpl; [done|].
  intros [Hne Hin]%not_elem_of_cons.
  destruct (String.eqb_spec k0 k) as [->|_]; [done|]. f_equal. by apply IH.
Qed.

Lemma foldl_record {A} (f : A -> Request) (l : list A) (log : list Request) :
  foldl (fun d x => d ++ [f x]) log l = log ++ map f l.
Proof.
  revert log. induction l as [|x l IH]; intros log; simpl.
  - by rewrite (right_id_L [] (++)).
  - by rewrite IH, <- (assoc_L (++)).
Qed.

End SessionMoreFacts.

(** X8: adding a participant that is not in the session, the device
    returning a call, puts the address last in the participant map; removing
    it again disconnects exactly that call and gives back the session as it
    was before the two operations. *)
Theorem add_then_remove_restores_session
  (D : Type) (sdk : Voice.DeviceSDK D)
  (n : string) (s : Voice.ConferenceSession) (d d1 : D) (call : Voice.Call) :
  n ∉ Voice.getParticipants s ->
  Js.startsWith n "whatsapp:" = true ->
  Voice.connect (Voice.participantCallOptions n s) d = (Js.Return call, d1) ->
  let s1 := Voice.withParticipants s (Voice.participants s ++ [(n, call)]) in
  Voice.addParticipant n s d = (Js.Return tt, (s1, d1))
  /\ Voice.getParticipants s1 = Voice.getParticipants s ++ [n]
  /\ Voice.removeParticipant n s1 d1
     = (Js.Return tt, (s, Voice.callDisconnect call d1)).
Proof.
  intros Hnew Hn Hc s1. split; [|split].
  - unfold Voice.addParticipant. rewrite Hn, Hc. simpl.
    unfold s1. by rewrite set_new_snoc.
  - unfold s1, Voice.getParticipants, JsMap.keys. simpl.
    by rewrite map_app.
  - unfold Voice.removeParticipant, s1. simpl.
    rewrite <- (set_new_snoc n call) by done.
    rewrite get_set_eq, delete_set_new by done.
    by destruct s.
Qed.

Lemma add_then_remove_restores_session_witness :
  let s := {| Voice.conferenceId := "c1";
              Voice.whatsappSender := "whatsapp:+15550000";
              Voice.participants :=
                [("whatsapp:+15550001", {| Voice.CallSid := "CA1" |})];
              Voice.conferenceCall := Some {| Voice.CallSid := "CA0" |} |} in
  let d := [Voice.ReqConnect []; Voice.ReqConnect []] in
  let n := "whatsapp:+15550002" in
  let call := {| Voice.CallSid := "CA2" |} in
  let d1 := d ++ [Voice.ReqConnect (Voice.participantCallOptions n s)] in
  Voice.removeParticipant n
    (Voice.withParticipants s (Voice.participants s ++ [(n, call)])) d1
  = (Js.Return tt, (s, d1 ++ [Voice.ReqDisconnect call])).
Proof.
  intros s d n call d1.
  apply (add_then_remove_restores_session (list Voice.Request)
           Voice.recordingDevice n s d d1 call).
  - apply (bool_decide_unpack _). vm_compute. exact I.
  - reflexivity.
  - reflexivity.
Defined.

(** X9: [end()] leaves the session without participants.  On the
    recording device it disconnects the call of every participant once, in
    the order in which they were added, and then the conference call.  The
    conference call stays set, so a second [end()] disconnects it once more
    and does nothing else. *)
Theorem end_disconnects_every_call (s : Voice.ConferenceSession)
  (log log' : list Voice.Request) :
  let closing :=
    match Voice.conferenceCall s with
    | Some call => [Voice.ReqDisconnect call]
    | None => []
    end in
  Voice.end_ s log
  = (Voice.withParticipants s [],
     log ++ map Voice.ReqDisconnect (JsMap.values (Voice.participants s))
         ++ closing)
  /\ Voice.getParticipants (fst (Voice.end_ s log)) = []
  /\ Voice.end_ (fst (Voice.end_ s log)) log'
     = (fst (Voice.end_ s log), log' ++ closing).
Proof.
  intros closing.
  assert (Hend : forall s0 l,
    Voice.end_ s0 l
    = (Voice.withParticipants s0 [],
       l ++ map Voice.ReqDisconnect (JsMap.values (Voice.participants s0))
         ++ match Voice.conferenceCall s0 with
            | Some call => [Voice.ReqDisconnect call]
            | None => []
            end)).
  { intros s0 l. unfold Voice.end_. simpl.
    rewrite (foldl_record Voice.ReqDisconnect).
    destruct (Voice.conferenceCall s0).
    - by rewrite <- (assoc_L (++)).
    - by rewrite !(right_id_L [] (++)). }
  split; [apply Hend|]. rewrite !Hend. simpl. split; [done|].
  by destruct s.
Qed.

(** ** The server registry, continued *)

(** X10: in every registry state the server can reach, the record stored
    under a conference name carries that name as its [id]. *)
Theorem registry_records_keyed_by_id (reg : gmap string Server.Conference) :
  Server.reachable reg ->
  forall (name : string) (conference : Server.Conference),
    reg !! name = Some conference -> Server.id conference = name.
Proof.
  induction 1 as [|now body reg _ IH|body reg _ IH|ev evname reg _ IH];
    intros name conference Hl.
  - by rewrite lookup_empty in Hl.
  - destruct (decide (name = Server.ConferenceName body)) as [->|Hne].
    + rewrite create_lookup in Hl. by inversion Hl.
    + rewrite create_lookup_other in Hl by done. eauto.
  - destruct (reg !! Server.ConferenceName body) as [c|] eqn:Hc.
    + destruct (decide (Server.From body ∈ Server.participants c)) as [Hin|Hin].
      * rewrite (join_present _ _ _ Hc Hin) in Hl. eauto.
      * rewrite (join_absent_participant _ _ _ Hc Hin) in Hl.
        destruct (decide (name = Server.ConferenceName body)) as [->|Hne].
        -- rewrite lookup_insert_eq in Hl. inversion Hl; subst. simpl. eauto.
        -- rewrite lookup_insert_ne in Hl by done. eauto.
    + rewrite (join_unknown_conference _ _ Hc) in Hl. eauto.
  - unfold Server.post_conference_events in Hl.
    destruct (String.eqb ev "conference-end"); [|eauto].
    destruct (decide (name = evname)) as [->|Hne].
    + by rewrite lookup_delete_eq in Hl.
    + rewrite lookup_delete_ne in Hl by done. eauto.
Qed.

Lemma registry_records_keyed_by_id_witness :
  let body := {| Server.ConferenceName := "c1";
                 Server.Moderator := Some "true";
                 Server.From := "whatsapp:+15550001" |} in
  let reg :=
    fst (Server.post_voice_conference_join body
           (fst (Server.post_voice_conference_create 1 body ∅))) in
  exists conference : Server.Conference,
    reg !! "c1" = Some conference /\ Server.id conference = "c1".
Proof.
  intros body reg.
  assert (Hsome : is_Some (reg !! "c1")) by (vm_compute; eauto).
  destruct Hsome as [conference Hc]. exists conference.
  split; [exact Hc|].
  apply (registry_records_keyed_by_id reg); [|exact Hc].
  apply Server.reach_join, Server.reach_create, Server.reach_start.
Defined.

(** X11: of the conference events only [conference-end] touches the
    registry: it removes the record of the named conference and no other,
    and a second [conference-end] for the same name, or one for a name
    that is not there, changes nothing. *)
Theorem conference_end_removes_once
  (ev name : string) (reg : gmap string Server.Conference) :
  (ev <> "conference-end" -> Server.post_conference_events ev name reg = reg)
  /\ Server.post_conference_events "conference-end" name reg !! name = None
  /\ (forall other : string,
        other <> name ->
        Server.post_conference_events "conference-end" name reg !! other
        = reg !! other)
  /\ Server.post_conference_events "conference-end" name
       (Server.post_conference_events "conference-end" name reg)
     = Server.post_conference_events "conference-end" name reg
  /\ (reg !! name = None ->
      Server.post_conference_events "conference-end" name reg = reg).
Proof.
  unfold Server.post_conference_events. split; [|simpl; split; [|split; [|split]]].
  - intros Hne. by destruct (String.eqb_spec ev "conference-end").
  - apply lookup_delete_eq.
  - intros other Hne. by apply lookup_delete_ne.
  - apply delete_delete_eq.
  - apply delete_id.
Qed.

Lemma conference_end_removes_once_witness :
  let body := {| Server.ConferenceName := "c1";
                 Server.Moderator := None;
                 Server.From := "whatsapp:+15550001" |} in
  let reg := fst (Server.post_voice_conference_create 1 body ∅) in
  Server.post_conference_events "participant-join" "c1" reg = reg
  /\ Server.post_conference_events "conference-end" "c2" reg = reg.
Proof.
  intros body reg.
  destruct (conference_end_removes_once "participant-join" "c1" reg)
    as (Hother & _).
  destruct (conference_end_removes_once "conference-end" "c2" reg)
    as (_ & _ & _ & _ & Habsent).
  split; [apply Hother; discriminate|apply Habsent; reflexivity].
Defined.

(** X12: the join route never creates a conference and never fails.  It
    leaves every other conference as it is; of the named conference it
    keeps [id], [moderator] and [createdAt], and its participants are the
    old ones, followed by the caller if the caller was not among them. *)
Theorem join_route_effect
  (body : Server.Body) (reg : gmap string Server.Conference) :
  let reg' := fst (Server.post_voice_conference_join body reg) in
  (forall other : string,
     other <> Server.ConferenceName body -> reg' !! other = reg !! other)
  /\ match reg !! Server.ConferenceName body with
     | None => reg' !! Server.ConferenceName body = None
     | Some conference =>
         exists conference',
           reg' !! Server.ConferenceName body = Some conference'
           /\ Server.id conference' = Server.id conference
           /\ Server.moderator conference' = Server.moderator conference
           /\ Server.createdAt conference' = Server.createdAt conference
           /\ Server.participants conference'
              = if bool_decide (Server.From body
                                ∈ Server.participants conference)
                then Server.participants conference
                else Server.participants conference ++ [Server.From body]
     end.
Proof.
  intros reg'. unfold reg'.
  destruct (reg !! Server.ConferenceName body) as [c|] eqn:Hc.
  - destruct (decide (Server.From body ∈ Server.participants c)) as [Hin|Hin].
    + rewrite (join_present _ _ _ Hc Hin). split; [done|].
      exists c. by rewrite bool_decide_eq_true_2.
    + rewrite (join_absent_participant _ _ _ Hc Hin). split.
      * intros other Hne. by apply lookup_insert_ne.
      * exists (Server.pushParticipant c (Server.From body)).
        rewrite lookup_insert_eq, bool_decide_eq_false_2 by done. done.
  - by rewrite (join_unknown_conference _ _ Hc).
Qed.

(** ** WhatsAppVoiceUtils, continued *)

Section UtilsMoreFacts.
Import Js Regex WhatsAppVoiceUtils.

Lemma digit_not_w (d : ascii) :
  inRange "1" "9" d = true -> Ascii.eqb "w" d = false.
Proof. destruct d as [[] [] [] [] [] [] [] []]; (discriminate || reflexivity). Qed.

Lemma digit_not_plus (d : ascii) :
  inRange "1" "9" d = true -> Ascii.eqb "+" d = false.
Proof. destruct d as [[] [] [] [] [] [] [] []]; (discriminate || reflexivity). Qed.

Lemma formatWhatsAppNumber_forms (rest : string) :
  formatWhatsAppNumber ("whatsapp:" +:+ rest)
  = "whatsapp:" +:+ (if startsWith rest "+" then rest else "+" +:+ rest).
Proof.
  unfold formatWhatsAppNumber, replaceLeading, channelPrefix.
  by rewrite dropPrefix_app.
Qed.

Lemma formatWhatsAppNumber_shape (a : string) :
  exists F, formatWhatsAppNumber a = "whatsapp:" +:+ F
            /\ startsWith F "+" = true.
Proof.
  unfold formatWhatsAppNumber, channelPrefix.
  destruct (startsWith (replaceLeading "whatsapp:" a) "+") eqn:Hs; eauto.
Qed.

Lemma extract_prefixed (a : string) :
  startsWith a "whatsapp:" = true -> "whatsapp:" +:+ extractPhoneNumber a = a.
Proof.
  unfold startsWith, extractPhoneNumber, replaceLeading, channelPrefix.
  destruct (dropPrefix "whatsapp:" a) as [rest|] eqn:Hd; [|discriminate].
  intros _. symmetry. by apply dropPrefix_Some.
Qed.

Lemma isValid_prefixed (a : string) :
  isValidWhatsAppNumber a = true ->
  exists rest, a = "whatsapp:" +:+ ("+" +:+ rest).
Proof.
  intros (d & ds & -> & _)%isValidWhatsAppNumber_iff. by exists (String d ds).
Qed.

End UtilsMoreFacts.

(** X13: for every address accepted by [isValidWhatsAppNumber],
    [extractPhoneNumber] gives the number from the [+] on, putting the
    prefix back in front of it gives the address again, and so does
    [formatWhatsAppNumber].  For every string whatsoever, what
    [formatWhatsAppNumber] returns is the prefix followed by a string that
    begins with [+], and [extractPhoneNumber] gives back that string. *)
Theorem extract_and_format_round_trip :
  (forall a : string,
     WhatsAppVoiceUtils.isValidWhatsAppNumber a = true ->
     Js.startsWith (WhatsAppVoiceUtils.extractPhoneNumber a) "+" = true
     /\ "whatsapp:" +:+ WhatsAppVoiceUtils.extractPhoneNumber a = a
     /\ WhatsAppVoiceUtils.formatWhatsAppNumber
          (WhatsAppVoiceUtils.extractPhoneNumber a) = a)
  /\ (forall a : string,
        let formatted := WhatsAppVoiceUtils.formatWhatsAppNumber a in
        Js.startsWith (WhatsAppVoiceUtils.extractPhoneNumber formatted) "+"
        = true
        /\ "whatsapp:" +:+ WhatsAppVoiceUtils.extractPhoneNumber formatted
           = formatted).
Proof.
  split.
  - intros a (rest & ->)%isValid_prefixed.
    unfold WhatsAppVoiceUtils.extractPhoneNumber, Js.replaceLeading,
      WhatsAppVoiceUtils.channelPrefix.
    rewrite dropPrefix_app. split; [reflexivity|]. split; reflexivity.
  - intros a formatted. unfold formatted.
    destruct (formatWhatsAppNumber_shape a) as (F & -> & HF).
    unfold WhatsAppVoiceUtils.extractPhoneNumber, Js.replaceLeading,
      WhatsAppVoiceUtils.channelPrefix.
    by rewrite dropPrefix_app.
Qed.

Lemma extract_and_format_round_trip_witness :
  "whatsapp:" +:+ WhatsAppVoiceUtils.extractPhoneNumber "whatsapp:+15550001"
  = "whatsapp:+15550001"
  /\ WhatsAppVoiceUtils.formatWhatsAppNumber
       (WhatsAppVoiceUtils.extractPhoneNumber "whatsapp:+15550001")
     = "whatsapp:+15550001".
Proof.
  destruct extract_and_format_round_trip as [Hvalid _].
  destruct (Hvalid "whatsapp:+15550001" eq_refl) as (_ & Hback & Hformat).
  split; [exact Hback|exact Hformat].
Defined.

(** X14: formatting a typed number and then validating it, as the client
    does before it dials, accepts exactly the inputs that consist of 2 to
    15 digits, the first not [0], optionally preceded by [+] and
    optionally, before that, by the channel prefix. *)
Theorem format_then_validate_accepts (a : string) :
  WhatsAppVoiceUtils.isValidWhatsAppNumber
    (WhatsAppVoiceUtils.formatWhatsAppNumber a) = true
  <-> exists (d : ascii) (ds : string),
        Regex.inRange "1" "9" d = true
        /\ (1 <= String.length ds <= 14)
        /\ Regex.allChars Regex.isDigit ds = true
        /\ (a = String d ds
            \/ a = "+" +:+ String d ds
            \/ a = "whatsapp:" +:+ String d ds
            \/ a = "whatsapp:+" +:+ String d ds).
Proof.
  rewrite isValidWhatsAppNumber_iff. split.
  - intros (d & ds & Hf & Hd & Hl & Ha). exists d, ds.
    repeat split; try done; try lia.
    unfold WhatsAppVoiceUtils.formatWhatsAppNumber,
      WhatsAppVoiceUtils.channelPrefix in Hf.
    change ("whatsapp:+" +:+ String d ds)
      with ("whatsapp:" +:+ ("+" +:+ String d ds)) in Hf.
    apply (inj (String.app "whatsapp:")) in Hf.
    assert (Hclean : Js.replaceLeading "whatsapp:" a = String d ds
                     \/ Js.replaceLeading "whatsapp:" a = "+" +:+ String d ds).
    { destruct (Js.startsWith (Js.replaceLeading "whatsapp:" a) "+");
        [by right|left].
      by apply (inj (String.app "+")) in Hf. }
    unfold Js.replaceLeading in Hclean.
    destruct (Js.dropPrefix "whatsapp:" a) as [rest|] eqn:Hp.
    + apply dropPrefix_Some in Hp as ->.
      destruct Hclean as [->| ->]; auto.
    + destruct Hclean as [->| ->]; auto.
  - intros (d & ds & Hd & Hl & Ha & Hforms). exists d, ds.
    repeat split; try done; try lia.
    pose proof (digit_not_w d Hd) as Hw.
    pose proof (digit_not_plus d Hd) as Hplus.
    assert (Hnoprefix : Js.dropPrefix "whatsapp:" (String d ds) = None).
    { change (Js.dropPrefix "whatsapp:" (String d ds))
        with (if Ascii.eqb "w" d then Js.dropPrefix "hatsapp:" ds else None).
      by rewrite Hw. }
    assert (Hnoplus : Js.startsWith (String d ds) "+" = false).
    { unfold Js.startsWith.
      change (Js.dropPrefix "+" (String d ds))
        with (if Ascii.eqb "+" d then Some ds else None).
      by rewrite Hplus. }
    destruct Hforms as [->|[->|[->| ->]]].
    + unfold WhatsAppVoiceUtils.formatWhatsAppNumber, Js.replaceLeading,
        WhatsAppVoiceUtils.channelPrefix.
      by rewrite Hnoprefix, Hnoplus.
    + reflexivity.
    + by rewrite formatWhatsAppNumber_forms, Hnoplus.
    + change ("whatsapp:+" +:+ String d ds)
        with ("whatsapp:" +:+ ("+" +:+ String d ds)).
      by rewrite formatWhatsAppNumber_forms.
Qed.

Section ReplaceFacts.
Import Js.

Lemma replaceFirst_eq (p s : string) :
  replaceFirst p s
  = match dropPrefix p s with
    | Some rest => rest
    | None =>
        match s with
        | EmptyString => EmptyString
        | String c s' => String c (replaceFirst p s')
        end
    end.
Proof. by destruct s. Qed.

(** The occurrence of [p] that no other one begins before is the one
    that is removed. *)
Lemma replaceFirst_first (p before rest s : string) :
  s = before +:+ p +:+ rest ->
  (forall b a : string,
     s = b +:+ p +:+ a -> String.length before <= String.length b) ->
  replaceFirst p s = before +:+ rest.
Proof.
  revert s. induction before as [|c before IH]; intros s -> Hmin.
  - rewrite sapp_nil_l, replaceFirst_eq. by rewrite dropPrefix_app.
  - rewrite !sapp_cons, replaceFirst_eq.
    destruct (dropPrefix p (String c (before +:+ p +:+ rest))) as [tail|]
      eqn:Hd.
    + apply dropPrefix_Some in Hd.
      specialize (Hmin "" tail). rewrite sapp_nil_l, sapp_cons in Hmin.
      specialize (Hmin Hd). simpl in Hmin. lia.
    + f_equal. apply IH; [done|].
      intros b a Hba. specialize (Hmin (String c b) a).
      rewrite !sapp_cons, Hba in Hmin. specialize (Hmin eq_refl).
      simpl in Hmin. lia.
Qed.

(** Without an occurrence of [p] nothing is removed. *)
Lemma replaceFirst_none (p s : string) :
  (forall b a : string, s <> b +:+ p +:+ a) -> replaceFirst p s = s.
Proof.
  induction s as [|c s IH]; intros Hnone; rewrite replaceFirst_eq.
  - destruct (dropPrefix p "") as [tail|] eqn:Hd; [|done].
    apply dropPrefix_Some in Hd. by destruct (Hnone "" tail).
  - destruct (dropPrefix p (String c s)) as [tail|] eqn:Hd.
    + apply dropPrefix_Some in Hd. by destruct (Hnone "" tail).
    + f_equal. apply IH. intros b a ->.
      by destruct (Hnone (String c b) a).
Qed.

(** A string that contains [p] has an occurrence of [p]. *)
Lemma countOccurrences_occurs (p b a : string) :
  1 <= countOccurrences p (b +:+ p +:+ a).
Proof.
  induction b as [|c b IH].
  - rewrite sapp_nil_l.
    assert (Hstart : startsWith (p +:+ a) p = true)
      by (unfold startsWith; by rewrite dropPrefix_app).
    destruct (p +:+ a); simpl; rewrite Hstart; lia.
  - rewrite sapp_cons.
    change (countOccurrences p (String c (b +:+ p +:+ a)))
      with ((if startsWith (String c (b +:+ p +:+ a)) p then 1 else 0)
            + countOccurrences p (b +:+ p +:+ a)).
    lia.
Qed.

End ReplaceFacts.

(** X15: [DialBuilder.whatsapp] removes the first [whatsapp:] wherever it
    stands in the number, and only that one: when the number is some text,
    [whatsapp:] and more text, and [whatsapp:] occurs nowhere earlier, the
    element holds the text before followed by the text after.  A number
    that does not contain [whatsapp:] is inserted as it is.  For an address
    accepted by [isValidWhatsAppNumber] what is removed is the leading
    prefix, and the element holds what [extractPhoneNumber] returns. *)
Theorem dial_whatsapp_strips_prefix
  (options : option DialBuilder.Options) (number : string)
  (twiml : list string) :
  let pushed (inserted : string) :=
    DialBuilder.endDial
      (DialBuilder.startDial options twiml
       ++ ["    <WhatsApp>" +:+ inserted +:+ "</WhatsApp>"]) in
  (forall before rest : string,
     number = before +:+ "whatsapp:" +:+ rest ->
     (forall b a : string,
        number = b +:+ "whatsapp:" +:+ a ->
        String.length before <= String.length b) ->
     DialBuilder.whatsapp options number twiml = pushed (before +:+ rest))
  /\ ((forall b a : string, number <> b +:+ "whatsapp:" +:+ a) ->
      DialBuilder.whatsapp options number twiml = pushed number)
  /\ (WhatsAppVoiceUtils.isValidWhatsAppNumber number = true ->
      DialBuilder.whatsapp options number twiml
      = pushed (WhatsAppVoiceUtils.extractPhoneNumber number)).
Proof.
  intros pushed. unfold pushed, DialBuilder.whatsapp. split; [|split].
  - intros before rest Hnumber Hfirst.
    by rewrite (replaceFirst_first _ before rest).
  - intros Hnone. by rewrite replaceFirst_none.
  - intros (rest & ->)%isValid_prefixed.
    unfold WhatsAppVoiceUtils.extractPhoneNumber, Js.replaceLeading,
      WhatsAppVoiceUtils.channelPrefix.
    rewrite dropPrefix_app.
    by rewrite (replaceFirst_first _ "" ("+" +:+ rest));
      [|reflexivity|intros; simpl; lia].
Qed.

Lemma dial_whatsapp_strips_prefix_witness :
  DialBuilder.whatsapp None "+1whatsapp:555whatsapp:" TwiMLBuilder.new
  = TwiMLBuilder.new
    ++ ["  <Dial>"; "    <WhatsApp>+1555whatsapp:</WhatsApp>"; "  </Dial>"]
  /\ DialBuilder.whatsapp None "+15550001" TwiMLBuilder.new
     = TwiMLBuilder.new
       ++ ["  <Dial>"; "    <WhatsApp>+15550001</WhatsApp>"; "  </Dial>"]
  /\ DialBuilder.whatsapp None "whatsapp:+15550001" TwiMLBuilder.new
     = TwiMLBuilder.new
       ++ ["  <Dial>"; "    <WhatsApp>+15550001</WhatsApp>"; "  </Dial>"].
Proof.
  split; [|split].
  - destruct (dial_whatsapp_strips_prefix None "+1whatsapp:555whatsapp:"
                TwiMLBuilder.new) as [Hfirst _].
    rewrite (Hfirst "+1" "555whatsapp:"); [reflexivity|reflexivity|].
    intros b a Hba.
    destruct b as [|c0 [|c1 b]];
      [discriminate|injection Hba as _ Hba; discriminate|simpl; lia].
  - destruct (dial_whatsapp_strips_prefix None "+15550001"
                TwiMLBuilder.new) as (_ & Hplain & _).
    rewrite Hplain; [reflexivity|].
    intros b a Hba.
    pose proof (countOccurrences_occurs "whatsapp:" b a) as Hocc.
    rewrite <- Hba in Hocc. vm_compute in Hocc. lia.
  - destruct (dial_whatsapp_strips_prefix None "whatsapp:+15550001"
                TwiMLBuilder.new) as (_ & _ & Hvalid).
    rewrite Hvalid; reflexivity.
Defined.

(** ** Well-formed documents *)

Section XmlFacts.
Import Js Xml.

Lemma run_app (s1 s2 : string) (st : State) :
  run (s1 +:+ s2) st
  = match run s1 st with
    | Some st' => run s2 st'
    | None => None
    end.
Proof.
  revert st. induction s1 as [|c s1 IH]; intros st; [reflexivity|].
  rewrite sapp_cons. simpl. destruct (step st c); [apply IH|reflexivity].
Qed.













End XmlFacts.

Section XmlAttrFacts.
Import Js Xml Attrs.

(** A piece whose effect is known, in front of the rest. *)
Lemma run_literal (l rest : string) (st st' : State) :
  run l st = Some st' -> run (l +:+ rest) st = run rest st'.
Proof. intros Hl. by rewrite run_app, Hl. Qed.

















Lemma join_app_lines (t ls : list string) :
  t <> [] -> ls <> [] ->
  join nl (t ++ ls) = join nl t +:+ nl +:+ join nl ls.
Proof.
  intros Ht Hls. induction t as [|a t IH]; [done|].
  destruct t as [|b t].
  - destruct ls; [done|reflexivity].
  - change (join nl ((a :: b :: t) ++ ls))
      with (a +:+ nl +:+ join nl ((b :: t) ++ ls)).
    change (join nl (a :: b :: t)) with (a +:+ nl +:+ join nl (b :: t)).
    rewrite IH by done. by rewrite !sapp_assoc.
Qed.



End XmlAttrFacts.

Section XmlBuilderFacts.
Import Js Xml Attrs.



(** Read the literal piece [l] that the document in the goal begins with. *)
Ltac lit l :=
  match goal with
  | |- context [run (l +:+ ?rest) ?st] =>
      let r := eval cbv in (run l st) in
      match r with
      | Some ?st' => rewrite (run_literal l rest st st' eq_refl)
      end
  end.








End XmlBuilderFacts.



Section XmlTemplateFacts.
Import Js Xml Attrs TwiMLTemplates TwiMLTemplatesRest.






End XmlTemplateFacts.





Section XmlParameterFacts.
Import Js Xml Attrs TwiMLTemplates TwiMLTemplatesRest.


End XmlParameterFacts.



(** ** The IVR menu *)

Section MenuFacts.
Import Js TwiMLTemplatesRest.

Lemma join_app_parts (sep : string) (l1 l2 : list string) :
  l1 <> [] -> l2 <> [] ->
  join sep (l1 ++ l2) = join sep l1 +:+ sep +:+ join sep l2.
Proof.
  intros H1 H2. induction l1 as [|a l1 IH]; [done|].
  destruct l1 as [|b l1].
  - destruct l2; [done|reflexivity].
  - change (join sep ((a :: b :: l1) ++ l2))
      with (a +:+ sep +:+ join sep ((b :: l1) ++ l2)).
    change (join sep (a :: b :: l1)) with (a +:+ sep +:+ join sep (b :: l1)).
    rewrite IH by done. by rewrite !sapp_assoc.
Qed.

End MenuFacts.

(** X18: the spoken menu lists the options in the order in which they
    are given: nothing for no option, [Press d for description.] for one,
    and for a list that continues with further options the prompt for the
    list, a blank, and the prompt for the further options.  The document
    is made of fixed pieces around the timeout and this prompt, so
    [retries] and the [action] of an option have no effect on it, whatever
    the other fields are.  The timeout is the one given, as its numeral,
    unless it is [0] or missing: a timeout of [0] cannot be asked for, it
    gives the document of the default [10], for every menu. *)
Theorem ivrMenu_announces_in_order :
  (TwiMLTemplatesRest.menuPrompt [] = ""
   /\ (forall o : TwiMLTemplatesRest.MenuOption,
         TwiMLTemplatesRest.menuPrompt [o]
         = "Press " +:+ TwiMLTemplatesRest.digit o +:+ " for "
           +:+ TwiMLTemplatesRest.description o +:+ ".")
   /\ (forall first rest : list TwiMLTemplatesRest.MenuOption,
         first <> [] -> rest <> [] ->
         TwiMLTemplatesRest.menuPrompt (first ++ rest)
         = TwiMLTemplatesRest.menuPrompt first +:+ " "
           +:+ TwiMLTemplatesRest.menuPrompt rest))
  /\ (exists a b c : string,
        forall params : TwiMLTemplatesRest.IvrParams,
          TwiMLTemplatesRest.ivrMenu params
          = a +:+ TwiMLTemplatesRest.numOr
                    (TwiMLTemplatesRest.ivr_timeout params) 10
            +:+ b +:+ TwiMLTemplatesRest.menuPrompt
                        (TwiMLTemplatesRest.menuOptions params)
            +:+ c)
  /\ (forall (options : list TwiMLTemplatesRest.MenuOption)
             (timeout retries retries' : option Z),
        TwiMLTemplatesRest.ivrMenu
          {| TwiMLTemplatesRest.menuOptions := options;
             TwiMLTemplatesRest.ivr_timeout := timeout;
             TwiMLTemplatesRest.retries := retries |}
        = TwiMLTemplatesRest.ivrMenu
            {| TwiMLTemplatesRest.menuOptions := options;
               TwiMLTemplatesRest.ivr_timeout := timeout;
               TwiMLTemplatesRest.retries := retries' |})
  /\ (forall (options : list TwiMLTemplatesRest.MenuOption)
             (timeout retries : option Z),
        timeout = None \/ timeout = Some 0%Z ->
        TwiMLTemplatesRest.ivrMenu
          {| TwiMLTemplatesRest.menuOptions := options;
             TwiMLTemplatesRest.ivr_timeout := timeout;
             TwiMLTemplatesRest.retries := retries |}
        = TwiMLTemplatesRest.ivrMenu
            {| TwiMLTemplatesRest.menuOptions := options;
               TwiMLTemplatesRest.ivr_timeout := Some 10%Z;
               TwiMLTemplatesRest.retries := retries |})
  /\ (forall t : Z,
        t <> 0%Z ->
        Attrs.isSafeInteger t = true ->
        TwiMLTemplatesRest.numOr (Some t) 10 = Attrs.numToString t).
Proof.
  split; [|split; [|split; [|split]]].
  - split; [reflexivity|]. split; [reflexivity|].
    intros first rest Hfirst Hrest.
    unfold TwiMLTemplatesRest.menuPrompt. rewrite map_app.
    apply join_app_parts; by destruct first, rest.
  - exists (TwiMLTemplates.xmlDecl +:+ Js.nl +:+
            "<Response>" +:+ Js.nl +:+
            "  <Gather " +:+ Js.nl +:+
            "    input=" +:+ TwiMLTemplates.q "dtmf" +:+ " " +:+ Js.nl +:+
            "    timeout=" +:+ Js.dq),
           (Js.dq +:+ Js.nl +:+
            "    numDigits=" +:+ TwiMLTemplates.q "1" +:+ Js.nl +:+
            "    action=" +:+ TwiMLTemplates.q "/ivr-response" +:+ Js.nl +:+
            "    method=" +:+ TwiMLTemplates.q "POST" +:+ Js.nl +:+
            "  >" +:+ Js.nl +:+
            "    <Say voice=" +:+ TwiMLTemplates.q "Polly.Joanna" +:+ ">"
            +:+ Js.nl +:+
            "      Please select from the following options:" +:+ Js.nl +:+
            "      "),
           (Js.nl +:+
            "    </Say>" +:+ Js.nl +:+
            "  </Gather>" +:+ Js.nl +:+
            "  <Say voice=" +:+ TwiMLTemplates.q "Polly.Joanna"
            +:+ ">Sorry, I didn't receive a valid input. Goodbye.</Say>"
            +:+ Js.nl +:+
            "  <Hangup />" +:+ Js.nl +:+
            "</Response>").
    intros params. unfold TwiMLTemplatesRest.ivrMenu, TwiMLTemplates.q.
    by rewrite !sapp_assoc.
  - reflexivity.
  - by intros options timeout retries [->| ->].
  - intros t Ht _. unfold TwiMLTemplatesRest.numOr, Attrs.truthyNum.
    by destruct (Z.eqb_spec t 0).
Qed.

Lemma ivrMenu_announces_in_order_witness :
  let sales := {| TwiMLTemplatesRest.digit := "1";
                  TwiMLTemplatesRest.mo_action := "sales";
                  TwiMLTemplatesRest.description := "sales" |} in
  let support := {| TwiMLTemplatesRest.digit := "2";
                    TwiMLTemplatesRest.mo_action := "support";
                    TwiMLTemplatesRest.description := "support" |} in
  TwiMLTemplatesRest.menuPrompt ([sales] ++ [support])
  = "Press 1 for sales. Press 2 for support."
  /\ TwiMLTemplatesRest.ivrMenu
       {| TwiMLTemplatesRest.menuOptions := [sales];
          TwiMLTemplatesRest.ivr_timeout := Some 0%Z;
          TwiMLTemplatesRest.retries := Some 3%Z |}
     = TwiMLTemplatesRest.ivrMenu
         {| TwiMLTemplatesRest.menuOptions := [sales];
            TwiMLTemplatesRest.ivr_timeout := Some 10%Z;
            TwiMLTemplatesRest.retries := Some 3%Z |}
  /\ TwiMLTemplatesRest.numOr (Some 5%Z) 10 = "5".
Proof.
  intros sales support.
  destruct ivrMenu_announces_in_order
    as ((_ & _ & Hprompt) & _ & _ & Hzero & Hgiven).
  split; [|split].
  - rewrite Hprompt; [reflexivity|discriminate|discriminate].
  - apply Hzero. by right.
  - rewrite Hgiven; [reflexivity|lia|reflexivity].
Defined.

(** ** The API routes *)

Section ApiFacts.
Import Js ServerApi.

Lemma filter_invalid_nil (ps : list string) :
  forallb (fun n => startsWith n "whatsapp:") ps = true ->
  List.filter (fun num => negb (startsWith num "whatsapp:")) ps = [].
Proof.
  induction ps as [|n ps IH]; [done|]. simpl.
  intros [Hn Hps]%andb_true_iff. rewrite Hn. simpl. by apply IH.
Qed.

Lemma filter_invalid_cons (ps : list string) :
  forallb (fun n => startsWith n "whatsapp:") ps = false ->
  (0 <? length
          (List.filter (fun num => negb (startsWith num "whatsapp:")) ps))
  = true.
Proof.
  induction ps as [|n ps IH]; [done|]. simpl.
  destruct (startsWith n "whatsapp:"); simpl; [exact IH|done].
Qed.

Lemma forallb_prefixed (ps : list string) :
  forallb (fun n => startsWith n "whatsapp:") ps = true
  <-> Forall (fun n => startsWith n "whatsapp:" = true) ps.
Proof.
  rewrite forallb_forall, List.Forall_forall. reflexivity.
Qed.

(** The loop on the recording platform: one request for each further
    participant, in order, and the numbers of these calls. *)
Lemma createLegs_recording (sender : option string) (origin : string)
  (others sids : list string) (log : list CallRequest) :
  createLegs sender origin others sids log
  = (Return (sids ++ imap (fun i _ => "CA" +:+ pretty (length log + i))
                          others),
     log ++ map (fun n => legRequest sender origin n "/voice/conference/join")
                others).
Proof.
  revert sids log. induction others as [|n others IH]; intros sids log.
  - simpl. by rewrite !app_nil_r.
  - simpl. rewrite IH. rewrite <- !List.app_assoc. simpl.
    rewrite Nat.add_0_r.
    rewrite (imap_ext _
               ((fun i (_ : string) => "CA" +:+ pretty (length log + i)) ∘ S)
               others); [reflexivity|].
    intros i x _. simpl.
    rewrite List.length_app. simpl. do 2 f_equal. lia.
Qed.

End ApiFacts.

(** X19: on a platform that accepts every call, [/api/conference/create]
    with a non-empty id and at least two participants that all carry the
    channel prefix places one call for each participant, in the order of
    the list: the first to [/voice/conference/create], every other one to
    [/voice/conference/join]; it answers with the id, the first call as the
    moderator's and the other calls in the same order. *)
Theorem api_conference_create_places_legs_in_order
  (sender : option string) (origin conferenceId moderator : string)
  (others : list string) (log : list ServerApi.CallRequest) :
  Js.truthyStr conferenceId = true ->
  others <> [] ->
  Forall (fun n => Js.startsWith n "whatsapp:" = true) (moderator :: others) ->
  ServerApi.post_api_conference_create sender origin
    (Some conferenceId) (Some (moderator :: others)) log
  = (ServerApi.ConferenceCreated conferenceId
       ("CA" +:+ pretty (length log))
       (imap (fun i _ => "CA" +:+ pretty (length log + 1 + i)) others)
       "Conference created successfully",
     log
     ++ ServerApi.legRequest sender origin moderator "/voice/conference/create"
     :: map (fun n => ServerApi.legRequest sender origin n
                        "/voice/conference/join") others).
Proof.
  intros Hid Hothers Hall. unfold ServerApi.post_api_conference_create.
  change (Js.orDefault (Some conferenceId) "") with
    (if Js.truthyStr conferenceId then conferenceId else "").
  rewrite !Hid. simpl negb.
  assert (Hlen : (length (moderator :: others) <? 2) = false).
  { destruct others; [done|]. apply Nat.ltb_ge. simpl. lia. }
  rewrite Hlen. simpl orb. cbv iota.
  apply forallb_prefixed in Hall.
  rewrite (filter_invalid_nil _ Hall). simpl Nat.ltb. cbv iota. cbv zeta.
  simpl ServerApi.callsCreate. cbv iota beta.
  rewrite createLegs_recording. rewrite <- List.app_assoc. simpl.
  rewrite (imap_ext _
             (fun i (_ : string) => "CA" +:+ pretty (length log + 1 + i))
             others); [reflexivity|].
  intros i x _. simpl. by rewrite List.length_app.
Qed.

Lemma api_conference_create_places_legs_in_order_witness :
  snd (ServerApi.post_api_conference_create (Some "whatsapp:+15550000")
         "https://host" (Some "room42")
         (Some ["whatsapp:+15550001"; "whatsapp:+15550002";
                "whatsapp:+15550003"]) [])
  = [ServerApi.legRequest (Some "whatsapp:+15550000") "https://host"
       "whatsapp:+15550001" "/voice/conference/create";
     ServerApi.legRequest (Some "whatsapp:+15550000") "https://host"
       "whatsapp:+15550002" "/voice/conference/join";
     ServerApi.legRequest (Some "whatsapp:+15550000") "https://host"
       "whatsapp:+15550003" "/voice/conference/join"].
Proof.
  rewrite (api_conference_create_places_legs_in_order
             (Some "whatsapp:+15550000") "https://host" "room42"
             "whatsapp:+15550001"
             ["whatsapp:+15550002"; "whatsapp:+15550003"] []).
  - reflexivity.
  - reflexivity.
  - discriminate.
  - repeat constructor.
Defined.

(** X20: the three API routes check the request before they call the
    platform.  [/api/call/outbound] answers 400 exactly for a destination
    without the channel prefix; [/api/conference/create] answers 400
    exactly when the id is missing or empty, the participants are missing
    or fewer than two, or some participant lacks the prefix;
    [add-participant] answers 400 exactly for a participant without the
    prefix, whether or not the conference exists, and 404 exactly for a
    prefixed participant and an unknown conference.  Whenever a route
    answers 400 or 404 the platform has not been called. *)
Theorem api_routes_validate_before_calling {P : Type}
  `{ServerApi.RestClient P} (sender : option string) (origin : string) :
  (forall to p,
     ServerApi.status
       (fst (ServerApi.post_api_call_outbound sender origin to p)) = 400%Z
     <-> exists t, to = Some t /\ Js.startsWith t "whatsapp:" = false)
  /\ (forall conferenceId participants p,
        ServerApi.status
          (fst (ServerApi.post_api_conference_create sender origin
                  conferenceId participants p)) = 400%Z
        <-> (Js.truthyStr (Js.orDefault conferenceId "") = false
             \/ participants = None
             \/ exists ps, participants = Some ps
                  /\ (length ps < 2
                      \/ ~ Forall (fun n => Js.startsWith n "whatsapp:" = true)
                                  ps)))
  /\ (forall conferenceId participant activeConferences p,
        let answer :=
          fst (ServerApi.post_api_conference_add_participant sender origin
                 conferenceId (Some participant) activeConferences p) in
        (ServerApi.status answer = 400%Z
         <-> Js.startsWith participant "whatsapp:" = false)
        /\ (ServerApi.status answer = 404%Z
            <-> Js.startsWith participant "whatsapp:" = true
                /\ activeConferences !! conferenceId = None))
  /\ (forall to conferenceId participants participant activeConferences p
             answer p',
        (ServerApi.post_api_call_outbound sender origin to p = (answer, p')
         \/ ServerApi.post_api_conference_create sender origin
              conferenceId participants p = (answer, p')
         \/ ServerApi.post_api_conference_add_participant sender origin
              (Js.orDefault conferenceId "") participant activeConferences p
            = (answer, p')) ->
        ServerApi.status answer = 400%Z \/ ServerApi.status answer = 404%Z ->
        p' = p).
Proof.
  split; [|split; [|split]].
  - intros to p. unfold ServerApi.post_api_call_outbound.
    destruct to as [t|]; simpl.
    + destruct (Js.startsWith t "whatsapp:") eqn:Hs; simpl.
      * destruct (ServerApi.callsCreate _ p) as [[sid|e] p1]; simpl;
          split; try discriminate; intros (t' & [= <-] & Ht); congruence.
      * split; [eauto|done].
    + split; [discriminate|]. by intros (t & [=] & _).
  - intros cid parts p. unfold ServerApi.post_api_conference_create.
    destruct parts as [ps|]; [|simpl; split; [auto|done]].
    destruct (Js.truthyStr (Js.orDefault cid "")) eqn:Hid; simpl negb;
      simpl orb; [|simpl; split; [auto|done]].
    destruct (length ps <? 2) eqn:Hlen.
    { simpl. split; [|done]. intros _. right. right. exists ps.
      split; [done|]. left. by apply Nat.ltb_lt. }
    apply Nat.ltb_ge in Hlen. cbv zeta.
    destruct (forallb (fun n => Js.startsWith n "whatsapp:") ps) eqn:Hall.
    + rewrite (filter_invalid_nil _ Hall). simpl Nat.ltb. cbv iota.
      assert (Hno : ~ (true = false \/ Some ps = None
                 \/ exists ps0, Some ps = Some ps0
                      /\ (length ps0 < 2
                          \/ ~ Forall (fun n => Js.startsWith n "whatsapp:"
                                                = true) ps0))).
      { intros [?|[?|(ps0 & [= <-] & [?|Hn])]]; try done; [lia|].
        apply Hn. by apply forallb_prefixed. }
      destruct ps as [|m others]; [simpl in Hlen; lia|].
      destruct (ServerApi.callsCreate _ p) as [[sid|e] p1]; simpl;
        [|split; [discriminate|by intros ?%Hno]].
      destruct (ServerApi.createLegs _ _ _ _ _) as [[sids|e] p2]; simpl;
        split; try discriminate; by intros ?%Hno.
    + rewrite (filter_invalid_cons _ Hall). simpl. split; [|done].
      intros _. right. right. exists ps. split; [done|]. right.
      intros Hf%forallb_prefixed. congruence.
  - intros cid n reg p. unfold ServerApi.post_api_conference_add_participant.
    destruct (Js.startsWith n "whatsapp:") eqn:Hs; simpl.
    + destruct (reg !! cid) as [conf|] eqn:Hreg; simpl.
      * destruct (ServerApi.callsCreate _ p) as [[sid|e] p1]; simpl;
          repeat split; try discriminate; by intros [_ ?].
      * repeat split; done.
    + repeat split; try done. by intros [? _].
  - intros to cid parts n reg p answer p' Hroute Hstatus.
    destruct Hroute as [Hroute|[Hroute|Hroute]].
    + unfold ServerApi.post_api_call_outbound in Hroute.
      destruct to as [t|]; [|by inversion Hroute].
      destruct (negb (Js.startsWith t "whatsapp:")); [by inversion Hroute|].
      destruct (ServerApi.callsCreate _ p) as [[sid|e] p1];
        inversion Hroute; subst; simpl in Hstatus;
        by destruct Hstatus.
    + unfold ServerApi.post_api_conference_create in Hroute.
      destruct parts as [ps|]; [|by inversion Hroute].
      destruct (negb _ || _); [by inversion Hroute|].
      cbv zeta in Hroute.
      destruct (0 <? _); [by inversion Hroute|].
      destruct ps as [|m others];
        [inversion Hroute; subst; by destruct Hstatus|].
      destruct (ServerApi.callsCreate _ p) as [[sid|e] p1];
        [|inversion Hroute; subst; by destruct Hstatus].
      destruct (ServerApi.createLegs _ _ _ _ _) as [[sids|e] p2];
        inversion Hroute; subst; by destruct Hstatus.
    + unfold ServerApi.post_api_conference_add_participant in Hroute.
      destruct n as [n|]; [|by inversion Hroute].
      destruct (negb _); [by inversion Hroute|].
      destruct (reg !! _); [|by inversion Hroute].
      destruct (ServerApi.callsCreate _ p) as [[sid|e] p1];
        inversion Hroute; subst; by destruct Hstatus.
Qed.

Lemma api_routes_validate_before_calling_witness :
  let route :=
    ServerApi.post_api_conference_add_participant
      (P := list ServerApi.CallRequest)
      None "https://host" "room42" (Some "+15550001") ∅ [] in
  ServerApi.status (fst route) = 400%Z /\ snd route = [].
Proof.
  destruct (api_routes_validate_before_calling
              (P := list ServerApi.CallRequest) None "https://host")
    as (_ & _ & Hadd & Hkeep).
  destruct (Hadd "room42" "+15550001" ∅ []) as [[_ Hbad] _].
  split; [exact (Hbad eq_refl)|].
  apply (Hkeep None (Some "room42") None (Some "+15550001") ∅ []
           (ServerApi.BadRequest "Invalid WhatsApp number format")).
  - right. right. reflexivity.
  - left. exact (Hbad eq_refl).
Defined.

(** ** The browser client *)

Section ClientFacts.
Context {D : Type} `{Voice.DeviceSDK D}.
Import Js Voice WhatsAppVoiceUtils.

(** [validParticipants] gives the formatted numbers exactly when every
    formatted number passes the check. *)
Lemma validParticipants_Some (participants valid : list string) :
  Client.validParticipants participants = Some valid
  <-> valid = map formatWhatsAppNumber participants
      /\ Forall (fun n => isValidWhatsAppNumber (formatWhatsAppNumber n) = true)
                participants.
Proof.
  revert valid. induction participants as [|n ps IH]; intros valid; simpl.
  - split; [intros [= <-]; by split|by intros [-> _]].
  - destruct (isValidWhatsAppNumber (formatWhatsAppNumber n)) eqn:Hn; simpl.
    + destruct (Client.validParticipants ps) as [v|] eqn:Hps.
      * destruct (IH v) as [IH1 _]. destruct (IH1 eq_refl) as [-> Hall].
        split; [intros [= <-]; split; [done|by constructor]|].
        by intros [-> _].
      * split; [done|]. intros [_ Hall]. inversion Hall as [|? ? _ Hrest]; subst.
        destruct (IH (map formatWhatsAppNumber ps)) as [_ IH2].
        by specialize (IH2 (conj eq_refl Hrest)).
    + split; [done|]. intros [_ Hall]. inversion Hall; congruence.
Qed.

Lemma valid_startsWith (a : string) :
  isValidWhatsAppNumber a = true -> startsWith a "whatsapp:" = true.
Proof.
  intros (rest & ->)%isValid_prefixed. reflexivity.
Qed.

End ClientFacts.

(** X21: the client's [makeCall] formats the number and dials only a
    number whose formatted form passes [isValidWhatsAppNumber]; otherwise
    the client and its wrapper are unchanged and the device is not asked.
    A number that passes is never refused by the wrapper: the device is
    asked once, with [To] the formatted number, [From] the configured
    sender and the two fixed parameters, and when it answers with a call
    this call becomes the current call and is registered under its id. *)
Theorem client_makeCall_dials_formatted_number {D : Type}
  `{Voice.DeviceSDK D} (phoneNumber : string)
  (c : Client.WhatsAppVoiceClient D) :
  let whatsappNumber := WhatsAppVoiceUtils.formatWhatsAppNumber phoneNumber in
  let w := Client.whatsappVoice c in
  let params :=
    [("To", whatsappNumber); ("From", Voice.config_whatsappSender w);
     ("caller_name", "Business Assistant");
     ("call_reason", "customer_support")] in
  (WhatsAppVoiceUtils.isValidWhatsAppNumber whatsappNumber = false ->
   Client.makeCall phoneNumber c = c)
  /\ (WhatsAppVoiceUtils.isValidWhatsAppNumber whatsappNumber = true ->
      Voice.device (Client.whatsappVoice (Client.makeCall phoneNumber c))
      = snd (Voice.connect params (Voice.device w))
      /\ Client.currentConference (Client.makeCall phoneNumber c)
         = Client.currentConference c
      /\ match fst (Voice.connect params (Voice.device w)) with
         | Js.Return call =>
             Client.currentCall (Client.makeCall phoneNumber c) = Some call
             /\ JsMap.get (Voice.CallSid call)
                  (Voice.activeCalls
                     (Client.whatsappVoice (Client.makeCall phoneNumber c)))
                = Some call
         | Js.Throw _ =>
             Client.currentCall (Client.makeCall phoneNumber c)
             = Client.currentCall c
             /\ Voice.activeCalls
                  (Client.whatsappVoice (Client.makeCall phoneNumber c))
                = Voice.activeCalls w
         end).
Proof.
  intros whatsappNumber w params. unfold Client.makeCall.
  fold whatsappNumber. split; intros Hvalid; rewrite Hvalid; [done|].
  simpl negb. cbv iota. unfold Voice.makeCall.
  change (Voice.to (Client.outboundOptions whatsappNumber))
    with whatsappNumber.
  rewrite (valid_startsWith _ Hvalid). simpl negb. cbv iota zeta.
  change (Voice.spread _ _) with params. fold w.
  destruct (Voice.connect params (Voice.device w)) as [[call|e] d1]; simpl.
  - repeat split; try done. apply get_set_eq.
  - repeat split; done.
Qed.

Lemma client_makeCall_dials_formatted_number_witness :
  let c := {| Client.whatsappVoice :=
                VoiceRegistry.newWhatsAppVoice ([] : list Voice.Request)
                  "whatsapp:+15550000";
              Client.currentCall := None;
              Client.currentConference := None |} in
  Client.makeCall "not a number" c = c
  /\ Voice.device (Client.whatsappVoice (Client.makeCall "15550001" c))
     = [Voice.ReqConnect
          [("To", "whatsapp:+15550001"); ("From", "whatsapp:+15550000");
           ("caller_name", "Business Assistant");
           ("call_reason", "customer_support")]].
Proof.
  intros c. split.
  - apply (client_makeCall_dials_formatted_number "not a number" c).
    reflexivity.
  - destruct (client_makeCall_dials_formatted_number "15550001" c)
      as [_ Hdial].
    destruct (Hdial eq_refl) as [Hdevice _]. rewrite Hdevice. reflexivity.
Defined.

(** X22: the client's [createConference] starts a conference only when
    every number passes [isValidWhatsAppNumber] after formatting and there
    are at least two; otherwise the client and its wrapper are unchanged
    and the device is not asked.  When the numbers pass, are at least two,
    format to distinct addresses and the device accepts every call, the
    current conference is the session stored in the wrapper under
    [conf_<now>], and its participants are the formatted numbers in the
    given order. *)
Theorem client_createConference_gate {D : Type} `{Voice.DeviceSDK D}
  (now : Z) (participants : list string) (c : Client.WhatsAppVoiceClient D) :
  let valid := map WhatsAppVoiceUtils.formatWhatsAppNumber participants in
  let conferenceId := "conf_" +:+ Attrs.numToString now in
  ((~ Forall (fun n => WhatsAppVoiceUtils.isValidWhatsAppNumber
                         (WhatsAppVoiceUtils.formatWhatsAppNumber n) = true)
             participants
    \/ length participants < 2) ->
   Client.createConference now participants c = c)
  /\ (Forall (fun n => WhatsAppVoiceUtils.isValidWhatsAppNumber
                         (WhatsAppVoiceUtils.formatWhatsAppNumber n) = true)
             participants ->
      2 <= length participants ->
      NoDup valid ->
      (forall params d, Js.isReturn (fst (Voice.connect params d)) = true) ->
      exists conference,
        Client.currentConference (Client.createConference now participants c)
        = Some conference
        /\ JsMap.get conferenceId
             (Voice.activeConferences
                (Client.whatsappVoice
                   (Client.createConference now participants c)))
           = Some conference
        /\ Voice.conferenceId conference = conferenceId
        /\ Voice.getParticipants conference = valid).
Proof.
  intros valid conferenceId. unfold Client.createConference. split.
  - intros Hbad.
    destruct (Client.validParticipants participants) as [v|] eqn:Hv; [|done].
    apply validParticipants_Some in Hv as [-> Hall].
    destruct Hbad as [Hbad|Hshort]; [done|].
    rewrite List.length_map.
    by destruct (Nat.ltb_spec (length participants) 2); [|lia].
  - intros Hall Hlen Hdistinct Haccept.
    destruct (Client.validParticipants participants) as [v|] eqn:Hv.
    2:{ assert (Hsome : Client.validParticipants participants = Some valid)
          by (apply validParticipants_Some; by split).
        congruence. }
    apply validParticipants_Some in Hv as [-> _]. fold valid.
    assert (Hltb : (length valid <? 2) = false).
    { apply Nat.ltb_ge. unfold valid. by rewrite List.length_map. }
    rewrite Hltb.
    assert (Hprefixed :
      Forall (fun n => Js.startsWith n "whatsapp:" = true)
             (Voice.co_participants (Client.conferenceOptions now valid))).
    { simpl. unfold valid. apply List.Forall_map.
      eapply List.Forall_impl; [|exact Hall].
      intros a Ha. by apply valid_startsWith. }
    pose proof (createConference_accepts (Client.conferenceOptions now valid)
                  (Client.whatsappVoice c) Haccept Hprefixed) as Hret.
    destruct (Voice.createConference _ _) as [[conference|e] w1] eqn:Hcreate;
      [|discriminate].
    apply createConference_Return in Hcreate as (Hget & Hid & Hparts).
    exists conference. simpl. repeat split; try done. by apply Hparts.
Qed.

Lemma client_createConference_gate_witness :
  let c := {| Client.whatsappVoice :=
                VoiceRegistry.newWhatsAppVoice ([] : list Voice.Request)
                  "whatsapp:+15550000";
              Client.currentCall := None;
              Client.currentConference := None |} in
  Client.createConference 1700000000000 ["15550001"] c = c
  /\ exists conference,
       Client.currentConference
         (Client.createConference 1700000000000
            ["15550001"; "whatsapp:+15550002"] c) = Some conference
       /\ Voice.conferenceId conference = "conf_1700000000000"
       /\ Voice.getParticipants conference
          = ["whatsapp:+15550001"; "whatsapp:+15550002"].
Proof.
  intros c. split.
  - apply (client_createConference_gate 1700000000000 ["15550001"] c).
    right. simpl. lia.
  - destruct (client_createConference_gate 1700000000000
                ["15550001"; "whatsapp:+15550002"] c) as [_ Hcreate].
    destruct Hcreate as (conference & Hcur & _ & Hid & Hparts).
    + repeat constructor.
    + simpl. lia.
    + apply (bool_decide_unpack _). vm_compute. reflexivity.
    + intros params d. reflexivity.
    + exists conference. repeat split; assumption.
Defined.

Lemma join_route_effect_witness :
  let body := {| Server.ConferenceName := "room42";
                 Server.Moderator := None;
                 Server.From := "whatsapp:+15550001" |} in
  let reg : gmap string Server.Conference :=
    {[ "room7" := {| Server.id := "room7";
                     Server.participants := [];
                     Server.moderator := None;
                     Server.createdAt := 0%Z |} ]} in
  fst (Server.post_voice_conference_join body reg) !! "room7" = reg !! "room7".
Proof.
  intros body reg.
  destruct (join_route_effect body reg) as [Hother _].
  apply Hother. discriminate.
Defined.

Lemma format_then_validate_accepts_witness :
  WhatsAppVoiceUtils.isValidWhatsAppNumber
    (WhatsAppVoiceUtils.formatWhatsAppNumber "15550001") = true.
Proof.
  apply (format_then_validate_accepts "15550001").
  exists "1"%char, "5550001". repeat split; try reflexivity.
  - simpl. lia.
  - simpl. lia.
  - left. reflexivity.
Defined.
